(** * Regulatory document analyzer: a shallow embedding of
    [railway_deployment.py] and the properties of its request pipeline.

    The program is a Flask service: a document arrives base64-encoded, is
    staged in a temporary file, its text is extracted by a parser chosen
    from the file extension, the text is sent to a language model and the
    JSON reply is returned with two metadata fields.

    Library calls whose result the program does not control (the base64
    codec, the PDF and DOCX readers, the UTF-8 decoder, the model client,
    [json.loads], the clock, the random temporary names, a failure to create
    or to write a temporary file) are fields of an environment record [Env]; everything the source file itself decides
    (control flow, exception handling, dictionaries, messages, status codes)
    is written out.

    Characters: one [ascii] stands for one Python character, read as the
    code points 0..255. *)

From Stdlib Require Import ZArith String Ascii List Lia Floats.SpecFloat.
From stdpp Require Import gmap strings list fin_maps.

#[local] Set Warnings "-register-all,-abstract-large-number".
#[local] Open Scope string_scope.

(** ** Python values, exceptions, results *)

Module Py.

(** The values [request.get_json()] and [json.loads] produce. *)
Inductive pyval : Type :=
| PNone
| PBool (b : bool)
| PInt (z : Z)
| PFloat (f : spec_float)
| PStr (s : string)
| PList (l : list pyval)
| PDict (m : gmap string pyval).

(** An exception: its class, what [str(e)] prints, and the HTTP status when
    it is a werkzeug [HTTPException]. *)
Record exn : Type := Exn {
  exn_class : string;
  exn_str : string;
  exn_http : option nat
}.

Definition ValueError (msg : string) : exn := Exn "ValueError" msg None.
Definition TypeError (msg : string) : exn := Exn "TypeError" msg None.
Definition AttributeError (msg : string) : exn := Exn "AttributeError" msg None.
Definition KeyError (key : string) : exn := Exn "KeyError" ("'" +:+ key +:+ "'") None.
Definition FileNotFoundError (path : string) : exn :=
  Exn "FileNotFoundError" ("[Errno 2] No such file or directory: '" +:+ path +:+ "'") None.
Definition FileExistsError (msg : string) : exn := Exn "FileExistsError" msg None.

Inductive result (A : Type) : Type :=
| Ok (a : A)
| Err (e : exn).
Arguments Ok {A} a.
Arguments Err {A} e.

Definition is_ok {A} (r : result A) : bool :=
  match r with Ok _ => true | Err _ => false end.

(** [type(v).__name__] *)
Definition type_name (v : pyval) : string :=
  match v with
  | PNone => "NoneType"
  | PBool _ => "bool"
  | PInt _ => "int"
  | PFloat _ => "float"
  | PStr _ => "str"
  | PList _ => "list"
  | PDict _ => "dict"
  end.

Definition float_is_zero (f : spec_float) : bool :=
  match f with S754_zero _ => true | _ => false end.

(** [bool(v)]: what [not v] tests. *)
Definition truthy (v : pyval) : bool :=
  match v with
  | PNone => false
  | PBool b => b
  | PInt z => negb (z =? 0)%Z
  | PFloat f => negb (float_is_zero f)
  | PStr s => negb (String.eqb s "")
  | PList l => match l with [] => false | _ => true end
  | PDict m => negb (Nat.eqb (size m) 0)
  end.

(** [v.get(key, default)] *)
Definition dict_get (v : pyval) (key : string) (default : pyval) : result pyval :=
  match v with
  | PDict m => Ok (match m !! key with Some x => x | None => default end)
  | _ => Err (AttributeError ("'" +:+ type_name v +:+ "' object has no attribute 'get'"))
  end.

(** [v[key]] with a string key *)
Definition getitem (v : pyval) (key : string) : result pyval :=
  match v with
  | PDict m => match m !! key with Some x => Ok x | None => Err (KeyError key) end
  | PList _ => Err (TypeError "list indices must be integers or slices, not str")
  | PStr _ => Err (TypeError "string indices must be integers, not 'str'")
  | _ => Err (TypeError ("'" +:+ type_name v +:+ "' object is not subscriptable"))
  end.

(** [v[key] = x] with a string key *)
Definition setitem (v : pyval) (key : string) (x : pyval) : result pyval :=
  match v with
  | PDict m => Ok (PDict (<[key := x]> m))
  | PList _ => Err (TypeError "list indices must be integers or slices, not str")
  | _ => Err (TypeError ("'" +:+ type_name v +:+ "' object does not support item assignment"))
  end.

(** The items a [for] loop visits. A dict yields its keys and a string its
    characters; the keys come in the map's order, not in insertion order
    (the program only loops over what should be a list). *)
Definition iterate (v : pyval) : result (list pyval) :=
  match v with
  | PList l => Ok l
  | PDict m => Ok (map (fun kv => PStr (fst kv)) (map_to_list m))
  | PStr s => Ok (map (fun c => PStr (String c "")) (list_ascii_of_string s))
  | _ => Err (TypeError ("'" +:+ type_name v +:+ "' object is not iterable"))
  end.

(** [len(v)] *)
Definition len (v : pyval) : result Z :=
  match v with
  | PList l => Ok (Z.of_nat (length l))
  | PDict m => Ok (Z.of_nat (size m))
  | PStr s => Ok (Z.of_nat (String.length s))
  | _ => Err (TypeError ("object of type '" +:+ type_name v +:+ "' has no len()"))
  end.

(** *** [str.lower], [str.strip]

    On the code points 0..255, [lower] moves [A-Z] and the accented capitals
    192..222 (but not the sign 215) up by 32, and [strip] removes the
    characters for which [str.isspace] holds. *)

Definition lower_char (c : ascii) : ascii :=
  let n := nat_of_ascii c in
  if (((65 <=? n) && (n <=? 90)) || ((192 <=? n) && (n <=? 222) && negb (n =? 215)))%nat
  then ascii_of_nat (n + 32) else c.

Fixpoint lower (s : string) : string :=
  match s with
  | EmptyString => EmptyString
  | String c r => String (lower_char c) (lower r)
  end.

Definition isspace (c : ascii) : bool :=
  let n := nat_of_ascii c in
  (((9 <=? n) && (n <=? 13)) || ((28 <=? n) && (n <=? 32)) || (n =? 133) || (n =? 160))%nat.

Fixpoint lstrip (s : string) : string :=
  match s with
  | EmptyString => EmptyString
  | String c r => if isspace c then lstrip r else s
  end.

Fixpoint rstrip (s : string) : string :=
  match s with
  | EmptyString => EmptyString
  | String c r =>
      match rstrip r with
      | EmptyString => if isspace c then EmptyString else String c EmptyString
      | r' => String c r'
      end
  end.

Definition strip (s : string) : string := rstrip (lstrip s).

Fixpoint all_space (s : string) : bool :=
  match s with
  | EmptyString => true
  | String c r => isspace c && all_space r
  end.

(** *** [pathlib.PurePosixPath]: [name], [suffix], [str]

    The parts of a path are its non-empty components other than [.]; the
    name is the last part. The suffix is the one of Python up to 3.13: a
    name that ends in a dot has none. *)

Fixpoint split_slash (s : string) : list string :=
  match s with
  | EmptyString => [EmptyString]
  | String c r =>
      if Ascii.eqb c "/" then EmptyString :: split_slash r
      else match split_slash r with
           | h :: t => String c h :: t
           | [] => [String c EmptyString]
           end
  end.

Definition path_parts (s : string) : list string :=
  List.filter (fun c => negb (String.eqb c "") && negb (String.eqb c ".")) (split_slash s).

Definition Path_name (s : string) : string := List.last (path_parts s) "".

Fixpoint rfind_dot (s : string) : option nat :=
  match s with
  | EmptyString => None
  | String c r =>
      match rfind_dot r with
      | Some i => Some (S i)
      | None => if Ascii.eqb c "." then Some 0 else None
      end
  end.

(** [name[i:]] when [0 < i < len(name) - 1] for [i = name.rfind('.')] *)
Definition name_suffix (name : string) : string :=
  match rfind_dot name with
  | Some i =>
      if ((0 <? i) && (i <? String.length name - 1))%nat
      then substring i (String.length name - i) name
      else ""
  | None => ""
  end.

Definition Path_suffix (s : string) : string := name_suffix (Path_name s).

Definition path_root (s : string) : string :=
  match s with
  | String "/" (String "/" (String "/" _)) => "/"
  | String "/" (String "/" _) => "//"
  | String "/" _ => "/"
  | _ => ""
  end.

Definition Path_str (s : string) : string :=
  match path_root s, path_parts s with
  | "", [] => "."
  | root, parts => root +:+ String.concat "/" parts
  end.

(** [Path(v)] accepts a string only. *)
Definition Path (v : pyval) : result string :=
  match v with
  | PStr s => Ok s
  | _ => Err (TypeError ("expected str, bytes or os.PathLike object, not " +:+ type_name v))
  end.

(** *** [datetime] and [isoformat] *)

Definition valid_datetime (y mo d h mi s us : N) : bool :=
  ((1 <=? y) && (y <=? 9999) && (1 <=? mo) && (mo <=? 12) && (1 <=? d) && (d <=? 31)
   && (h <? 24) && (mi <? 60) && (s <? 60) && (us <? 1000000))%N.

Record datetime : Type := Datetime {
  year : N; month : N; day : N;
  hour : N; minute : N; second : N; microsecond : N;
  datetime_ok : valid_datetime year month day hour minute second microsecond = true
}.

Definition digit (n : N) : ascii := ascii_of_N (48 + n mod 10).

(** the [k] low decimal digits of [n], most significant first *)
Fixpoint zfill (k : nat) (n : N) : string :=
  match k with
  | 0 => EmptyString
  | S k' => zfill k' (n / 10) +:+ String (digit n) EmptyString
  end.

Definition isoformat (t : datetime) : string :=
  zfill 4 (year t) +:+ "-" +:+ zfill 2 (month t) +:+ "-" +:+ zfill 2 (day t) +:+ "T"
  +:+ zfill 2 (hour t) +:+ ":" +:+ zfill 2 (minute t) +:+ ":" +:+ zfill 2 (second t)
  +:+ (if (microsecond t =? 0)%N then "" else "." +:+ zfill 6 (microsecond t)).

Definition is_digit (c : ascii) : bool :=
  let n := nat_of_ascii c in ((48 <=? n) && (n <=? 57))%nat.

Fixpoint all_digits (s : string) : bool :=
  match s with
  | EmptyString => true
  | String c r => is_digit c && all_digits r
  end.

(** The shape [YYYY-MM-DDTHH:MM:SS] with an optional [.ffffff]. *)
Definition is_iso8601 (s : string) : bool :=
  all_digits (substring 0 4 s) && String.eqb (substring 4 1 s) "-"
  && all_digits (substring 5 2 s) && String.eqb (substring 7 1 s) "-"
  && all_digits (substring 8 2 s) && String.eqb (substring 10 1 s) "T"
  && all_digits (substring 11 2 s) && String.eqb (substring 13 1 s) ":"
  && all_digits (substring 14 2 s) && String.eqb (substring 16 1 s) ":"
  && all_digits (substring 17 2 s)
  && ((String.length s =? 19)%nat
      || ((String.length s =? 26)%nat && String.eqb (substring 19 1 s) "."
          && all_digits (substring 20 6 s))).

End Py.
Export Py.

Definition bytes : Type := list Byte.byte.

(** ** HTTP: requests, responses, routing *)

Inductive http_method : Type := GET | POST | HEAD | OPTIONS | PUT | DELETE | PATCH.

(** The view functions of the application, and Flask's static files view. *)
Inductive endpoint : Type :=
| Ehome | Eanalyze_document | Ebatch_analyze | Ehealth_check | Etest_endpoint
| Estatic (filename : string).

(** What werkzeug's URL matching answers for a request. *)
Inductive routing : Type :=
| Matched (view : endpoint)
| RoutingNotFound
| RoutingMethodNotAllowed
| RoutingRedirect (location : string).

Inductive payload : Type :=
| JSON (v : pyval)
| HomePage (timestamp : string)
| StaticFile (content : bytes)
| WerkzeugDefault.

Record response : Type := Response { body : payload; status : nat }.

Record request : Type := Request {
  method : http_method;
  path : string;
  (** what [request.get_json()] gives for the body and headers sent *)
  get_json : result pyval
}.

(** ** The environment and the world *)


(** What the libraries and the operating system answer. The model client,
    the clock and the random names may answer differently at each use: they
    are indexed by the world's tick counter. *)
Record Env : Type := {
  (** [base64.b64decode(v)] *)
  b64decode : pyval -> result bytes;
  (** [PyPDF2.PdfReader(file).pages], each with its [extract_text()] *)
  PdfReader_pages : bytes -> result (list (result string));
  (** the [text] of each of [docx.Document(path).paragraphs] *)
  Document_paragraphs : bytes -> result (list string);
  (** [file.read()] of a file opened with [encoding='utf-8'] *)
  read_utf8 : bytes -> result string;
  (** [client.messages.create(...).content[0].text] for a prompt *)
  messages_create : nat -> string -> result string;
  (** [json.loads(text)] *)
  json_loads : string -> result pyval;
  (** [datetime.now()] *)
  datetime_now : nat -> datetime;
  (** [tempfile.gettempdir()] *)
  gettempdir : string;
  (** the random names [tempfile] tries, as draws from its alphabet *)
  rng_choices : nat -> list (list nat);
  (** a failure of [os.open] on a path other than the file existing *)
  os_open_error : string -> option exn;
  (** a failure of [f.write(content)], or of the close that ends the
      [with] block, for the temporary file at a path *)
  write_error : string -> bytes -> option exn;
  (** werkzeug's match of a method and path against the rules given *)
  url_match : list (string * list http_method * endpoint) -> http_method -> string -> routing;
  (** [app.send_static_file(filename)] *)
  send_static_file : string -> result bytes
}.

(** What a request does that can be observed from outside: a temporary
    file created and written, a file opened for reading, a call of the
    model, a file removed. *)
Inductive event : Type :=
| EvCreate (path : string)
| EvOpen (path : string)
| EvLLM (prompt : string)
| EvUnlink (path : string).

Record world : Type := World {
  fs : gmap string bytes;
  clock : nat;
  trace : list event;
  logged : list string
}.

(** ** A monad for state that survives exceptions *)

Definition M (S A : Type) : Type := S -> result A * S.

Definition ret {S A} (a : A) : M S A := fun s => (Ok a, s).
Definition raise {S A} (e : exn) : M S A := fun s => (Err e, s).
Definition bind {S A B} (c : M S A) (k : A -> M S B) : M S B :=
  fun s => match c s with
           | (Ok a, s') => k a s'
           | (Err e, s') => (Err e, s')
           end.
Definition lift {S A} (r : result A) : M S A := fun s => (r, s).

(** [try: c  except Exception as e: h e] *)
Definition try_except {S A} (c : M S A) (h : exn -> M S A) : M S A :=
  fun s => match c s with
           | (Ok a, s') => (Ok a, s')
           | (Err e, s') => h e s'
           end.

(** [try: c  finally: f] *)
Definition try_finally {S A} (c : M S A) (f : M S unit) : M S A :=
  fun s => match c s with
           | (r, s') => match f s' with
                        | (Ok _, s'') => (r, s'')
                        | (Err e, s'') => (Err e, s'')
                        end
           end.

(** run a computation on the world next to a local variable *)
Definition on_world {L A} (c : M world A) : M (world * L) A :=
  fun s => match c (fst s) with (r, w') => (r, (w', snd s)) end.
Definition get_local {L} : M (world * L) L := fun s => (Ok (snd s), s).
Definition set_local {L} (l : L) : M (world * L) unit := fun s => (Ok tt, (fst s, l)).

Declare Scope py_scope.
Delimit Scope py_scope with py.
Notation "x <- c ;; k" := (bind c (fun x => k))
  (at level 100, c at next level, right associativity) : py_scope.
Notation "c ;;; k" := (bind c (fun _ => k))
  (at level 100, right associativity) : py_scope.
#[local] Open Scope py_scope.

Definition tick : M world nat :=
  fun w => (Ok (clock w), World (fs w) (S (clock w)) (trace w) (logged w)).
Definition emit (ev : event) : M world unit :=
  fun w => (Ok tt, World (fs w) (clock w) (trace w ++ [ev])%list (logged w)).
(** [logger.error(msg)] *)
Definition logger_error (msg : string) : M world unit :=
  fun w => (Ok tt, World (fs w) (clock w) (trace w) (logged w ++ [msg])%list).

(** ** Files *)

Definition tmp_characters : list ascii :=
  list_ascii_of_string "abcdefghijklmnopqrstuvwxyz0123456789_".

Definition random_name (draws : list nat) : string :=
  string_of_list_ascii (map (fun i => nth (i mod 37) tmp_characters "a"%char) draws).

Module Files.
Section WithEnv.
Context (env : Env).

(** [tempfile._mkstemp_inner]: the first candidate name that does not exist
    yet; a failure of [os.open] other than [FileExistsError] is raised. *)
Fixpoint mkstemp_inner (files : gmap string bytes) (candidates : list (list nat))
    (suffix : string) : result string :=
  match candidates with
  | [] => Err (FileExistsError "[Errno 17] No usable temporary file name found")
  | draws :: rest =>
      let path := gettempdir env +:+ "/" +:+ "tmp" +:+ random_name draws +:+ suffix in
      match os_open_error env path with
      | Some e => Err e
      | None =>
          match files !! path with
          | Some _ => mkstemp_inner files rest suffix
          | None => Ok path
          end
      end
  end.

(** [with tempfile.NamedTemporaryFile(delete=False, suffix=suffix) as f:
       f.write(content); path = f.name]
    The file is created first and then written. Creating it can fail, and
    nothing is left then. The write, or the close that ends the block, can
    fail too: the exception leaves the block and, with [delete=False], the
    file stays where it was created; what had reached it is not modelled,
    it is kept empty. [EvCreate] records a file that was created and
    written. *)
Definition NamedTemporaryFile (suffix : string) (content : bytes) : M world string :=
  n <- tick ;;
  fun w =>
    match mkstemp_inner (fs w) (rng_choices env n) suffix with
    | Err e => (Err e, w)
    | Ok path =>
        match write_error env path content with
        | Some e =>
            (Err e, World (<[path := []]> (fs w)) (clock w) (trace w) (logged w))
        | None =>
            (Ok path, World (<[path := content]> (fs w)) (clock w)
                            (trace w ++ [EvCreate path])%list (logged w))
        end
    end.

(** [os.unlink(path)] *)
Definition os_unlink (path : string) : M world unit :=
  fun w =>
    match fs w !! path with
    | Some _ => (Ok tt, World (delete path (fs w)) (clock w)
                             (trace w ++ [EvUnlink path])%list (logged w))
    | None => (Err (FileNotFoundError path), w)
    end.

(** [open(path)]: the content when the file exists *)
Definition open_file (path : string) : M world bytes :=
  fun w =>
    match fs w !! path with
    | Some content => (Ok content, World (fs w) (clock w) (trace w ++ [EvOpen path])%list (logged w))
    | None => (Err (FileNotFoundError path), w)
    end.

End WithEnv.
End Files.
Export Files.

(** ** [RegulatoryAnalyzer] *)

Module RegulatoryAnalyzer.
Section WithEnv.
Context (env : Env).

(** [for page in pages: text += page.extract_text() + "\n"] *)
Fixpoint concat_pages (pages : list (result string)) (text : string) : result string :=
  match pages with
  | [] => Ok text
  | Ok t :: rest => concat_pages rest (text +:+ t +:+ "
")
  | Err e :: _ => Err e
  end.

Definition _parse_pdf (file_path : string) : M world string :=
  content <- open_file file_path ;;
  pages <- lift (PdfReader_pages env content) ;;
  lift (concat_pages pages "").

(** [for paragraph in doc.paragraphs: text += paragraph.text + "\n"] *)
Fixpoint concat_paragraphs (paragraphs : list string) (text : string) : string :=
  match paragraphs with
  | [] => text
  | t :: rest => concat_paragraphs rest (text +:+ t +:+ "
")
  end.

Definition _parse_docx (file_path : string) : M world string :=
  content <- open_file file_path ;;
  paragraphs <- lift (Document_paragraphs env content) ;;
  ret (concat_paragraphs paragraphs "").

Definition _parse_txt (file_path : string) : M world string :=
  content <- open_file file_path ;;
  lift (read_utf8 env content).

(** [parse_file(file_path)], for a path that [Path] leaves as it is
    written, as the handlers' names of temporary files are: the file opened
    is the one at [file_path]. *)
Definition parse_file (file_path : string) : M world string :=
  try_except
    (if String.eqb (lower (Path_suffix file_path)) ".pdf" then _parse_pdf file_path
     else if String.eqb (lower (Path_suffix file_path)) ".docx" then _parse_docx file_path
     else if String.eqb (lower (Path_suffix file_path)) ".txt" then _parse_txt file_path
     else raise (ValueError ("Unsupported file type: " +:+ Path_suffix file_path)))
    (fun e =>
       logger_error ("Error parsing file " +:+ Path_str file_path +:+ ": " +:+ exn_str e) ;;;
       raise e).

Definition prompt_head : string := "
        Please analyze this regulatory warning letter or notice for internal audit purposes. 
        
        Provide a structured analysis in JSON format with the following sections:

        1. document_type: Type of regulatory document (warning letter, notice, citation, etc.)
        2. regulatory_body: Which agency issued this (FDA, OSHA, EPA, etc.)
        3. severity_level: High/Medium/Low based on language and consequences mentioned
        4. key_violations: List of main violations or issues identified
        5. compliance_areas: Specific regulatory areas affected (GMP, safety, environmental, etc.)
        6. deadlines: Any response or corrective action deadlines mentioned
        7. potential_penalties: Financial penalties or other consequences mentioned
        8. audit_focus_areas: Specific areas internal audit should prioritize based on this notice
        9. recommended_actions: Immediate and long-term actions to address issues
        10. risk_assessment: Overall risk level and potential business impact
        11. similar_patterns: Any patterns that might indicate systemic issues
        12. executive_summary: 2-3 sentence summary for leadership

        Document text:
        ".

Definition prompt_tail : string := "
        
        Respond only with valid JSON.
        ".

(** the f-string of [analyze_document], with [document_text[:15000]] *)
Definition analysis_prompt (document_text : string) : string :=
  prompt_head +:+ substring 0 15000 document_text +:+ prompt_tail.

Definition analyze_document (document_text : string) : M world pyval :=
  try_except
    (n <- tick ;;
     emit (EvLLM (analysis_prompt document_text)) ;;;
     text <- lift (messages_create env n (analysis_prompt document_text)) ;;
     analysis_result <- lift (json_loads env text) ;;
     t <- tick ;;
     analysis_result <- lift (setitem analysis_result "analysis_timestamp"
                                (PStr (isoformat (datetime_now env t)))) ;;
     analysis_result <- lift (setitem analysis_result "document_length"
                                (PInt (Z.of_nat (String.length document_text)))) ;;
     ret analysis_result)
    (fun e =>
       logger_error ("Error in document analysis: " +:+ exn_str e) ;;;
       raise e).

End WithEnv.
End RegulatoryAnalyzer.

(** ** The Flask application *)

Module App.
Section WithEnv.
Context (env : Env).

Definition dict (items : list (string * pyval)) : pyval := PDict (list_to_map items).

(** [jsonify({'success': False, 'error': msg}), status] *)
Definition error_response (msg : string) (code : nat) : response :=
  Response (JSON (dict [("success", PBool false); ("error", PStr msg)])) code.

(** [datetime.now().strftime('%Y-%m-%d %H:%M:%S UTC')], for the years from
    1000 on; what [%Y] prints for an earlier year depends on the C library. *)
Definition strftime_utc (t : datetime) : string :=
  zfill 4 (year t) +:+ "-" +:+ zfill 2 (month t) +:+ "-" +:+ zfill 2 (day t) +:+ " "
  +:+ zfill 2 (hour t) +:+ ":" +:+ zfill 2 (minute t) +:+ ":" +:+ zfill 2 (second t) +:+ " UTC".

Definition now_isoformat : M world pyval :=
  t <- tick ;; ret (PStr (isoformat (datetime_now env t))).

Definition home : M world response :=
  t <- tick ;; ret (Response (HomePage (strftime_utc (datetime_now env t))) 200).

(** [POST /analyze] *)
Definition analyze_document (get_json : result pyval) : M world response :=
  try_except
    (data <- lift get_json ;;
     if negb (truthy data)
     then ret (error_response "No JSON data provided" 400)
     else
       file_content_b64 <- lift (dict_get data "fileContent" PNone) ;;
       file_name <- lift (dict_get data "fileName" PNone) ;;
       if negb (truthy file_content_b64) || negb (truthy file_name)
       then ret (error_response "fileContent and fileName are required" 400)
       else
         match b64decode env file_content_b64 with
         | Err e => ret (error_response ("Invalid base64 content: " +:+ exn_str e) 400)
         | Ok file_content =>
             name <- lift (Path file_name) ;;
             temp_file_path <- NamedTemporaryFile env (Path_suffix name) file_content ;;
             try_finally
               (document_text <- RegulatoryAnalyzer.parse_file env temp_file_path ;;
                if String.eqb (strip document_text) ""
                then ret (error_response "No text could be extracted from the document" 400)
                else
                  analysis_result <- RegulatoryAnalyzer.analyze_document env document_text ;;
                  processed_at <- now_isoformat ;;
                  ret (Response
                         (JSON (dict [("success", PBool true);
                                      ("analysis", analysis_result);
                                      ("processedAt", processed_at);
                                      ("fileName", file_name);
                                      ("documentLength",
                                       PInt (Z.of_nat (String.length document_text)))]))
                         200))
               (try_except (os_unlink temp_file_path) (fun _ => ret tt))
         end)
    (fun e =>
       logger_error ("Error in analyze_document: " +:+ exn_str e) ;;;
       ret (error_response ("Internal server error: " +:+ exn_str e) 500)).

(** the body of the [for doc in documents] loop; [results] is the local *)
Definition process_document (doc : pyval) : M (world * list pyval) unit :=
  try_except
    (file_content_b64 <- lift (getitem doc "fileContent") ;;
     file_content <- lift (b64decode env file_content_b64) ;;
     file_name <- lift (getitem doc "fileName") ;;
     name <- lift (Path file_name) ;;
     temp_file_path <- on_world (NamedTemporaryFile env (Path_suffix name) file_content) ;;
     try_finally
       (document_text <- on_world (RegulatoryAnalyzer.parse_file env temp_file_path) ;;
        analysis_result <- on_world (RegulatoryAnalyzer.analyze_document env document_text) ;;
        results <- get_local ;;
        set_local (results ++ [dict [("success", PBool true);
                                     ("fileName", file_name);
                                     ("analysis", analysis_result)]])%list)
       (on_world (os_unlink temp_file_path)))
    (fun e =>
       file_name <- lift (dict_get doc "fileName" (PStr "unknown")) ;;
       results <- get_local ;;
       set_local (results ++ [dict [("success", PBool false);
                                    ("fileName", file_name);
                                    ("error", PStr (exn_str e))]])%list).

Fixpoint for_documents (documents : list pyval) : M (world * list pyval) unit :=
  match documents with
  | [] => ret tt
  | doc :: rest => process_document doc ;;; for_documents rest
  end.

(** run a loop with [results = []] and give back the final list *)
Definition with_results (c : M (world * list pyval) unit) : M world (list pyval) :=
  fun w => match c (w, []) with
           | (Ok _, (w', results)) => (Ok results, w')
           | (Err e, (w', _)) => (Err e, w')
           end.

(** [POST /batch-analyze] *)
Definition batch_analyze (get_json : result pyval) : M world response :=
  try_except
    (data <- lift get_json ;;
     documents <- lift (dict_get data "documents" (PList [])) ;;
     if negb (truthy documents)
     then ret (error_response "No documents provided" 400)
     else
       items <- lift (iterate documents) ;;
       results <- with_results (for_documents items) ;;
       total <- lift (len documents) ;;
       processed_at <- now_isoformat ;;
       ret (Response
              (JSON (dict [("success", PBool true);
                           ("totalDocuments", PInt total);
                           ("results", PList results);
                           ("processedAt", processed_at)]))
              200))
    (fun e =>
       logger_error ("Error in batch_analyze: " +:+ exn_str e) ;;;
       ret (error_response ("Internal server error: " +:+ exn_str e) 500)).

(** [GET /health] *)
Definition health_check : M world response :=
  timestamp <- now_isoformat ;;
  ret (Response (JSON (dict [("status", PStr "healthy");
                             ("timestamp", timestamp);
                             ("service", PStr "Regulatory Document Analyzer");
                             ("version", PStr "1.0.0")])) 200).

(** [GET, POST /test] *)
Definition test_endpoint (m : http_method) (get_json : result pyval) : M world response :=
  match m with
  | GET =>
      timestamp <- now_isoformat ;;
      ret (Response (JSON (dict [("message", PStr "Test endpoint is working");
                                 ("method", PStr "GET");
                                 ("timestamp", timestamp)])) 200)
  | _ =>
      data <- lift get_json ;;
      timestamp <- now_isoformat ;;
      ret (Response (JSON (dict [("message", PStr "Test endpoint received POST data");
                                 ("data", data);
                                 ("timestamp", timestamp)])) 200)
  end.

(** [@app.errorhandler(404)] *)
Definition not_found : response :=
  Response (JSON (dict [("error", PStr "Endpoint not found");
                        ("available_endpoints",
                         PList [PStr "/analyze"; PStr "/batch-analyze";
                                PStr "/health"; PStr "/test"])])) 404.

(** [@app.errorhandler(500)] *)
Definition internal_error : response :=
  Response (JSON (dict [("error", PStr "Internal server error");
                        ("message", PStr "Something went wrong on the server")])) 500.

(** the rules the [@app.route] decorators and [Flask(__name__)] register *)
Definition url_map : list (string * list http_method * endpoint) :=
  [("/static/<path:filename>", [GET; HEAD; OPTIONS], Estatic "");
   ("/", [GET; HEAD; OPTIONS], Ehome);
   ("/analyze", [POST; OPTIONS], Eanalyze_document);
   ("/batch-analyze", [POST; OPTIONS], Ebatch_analyze);
   ("/health", [GET; HEAD; OPTIONS], Ehealth_check);
   ("/test", [GET; POST; HEAD; OPTIONS], Etest_endpoint)].

(** Flask's choice of an error handler: the registered ones for 404 and
    500, werkzeug's own page for any other HTTP exception. *)
Definition handle_exception (e : exn) : response :=
  match exn_http e with
  | Some 404 => not_found
  | Some 500 => internal_error
  | Some code => Response WerkzeugDefault code
  | None => internal_error
  end.

Definition dispatch_view (view : endpoint) (r : request) : M world response :=
  match view with
  | Ehome => home
  | Eanalyze_document => analyze_document (get_json r)
  | Ebatch_analyze => batch_analyze (get_json r)
  | Ehealth_check => health_check
  | Etest_endpoint => test_endpoint (method r) (get_json r)
  | Estatic filename =>
      content <- lift (send_static_file env filename) ;;
      ret (Response (StaticFile content) 200)
  end.

(** [Flask.full_dispatch_request]: route, run the view, handle what it
    raises. An [OPTIONS] request is answered by Flask itself; a [HEAD]
    request runs the view (the body is then not sent). *)
Definition full_dispatch_request (r : request) : M world response :=
  match url_match env url_map (method r) (path r) with
  | RoutingNotFound => ret not_found
  | RoutingMethodNotAllowed => ret (Response WerkzeugDefault 405)
  | RoutingRedirect _ => ret (Response WerkzeugDefault 308)
  | Matched view =>
      match method r with
      | OPTIONS => ret (Response WerkzeugDefault 200)
      | _ => try_except (dispatch_view view r) (fun e => ret (handle_exception e))
      end
  end.

End WithEnv.
End App.

(** ** The start-up configuration *)

Module Main.

(** [os.getenv('DEBUG', 'False').lower() == 'true'], for the value of the
    environment variable when it is set *)
Definition debug (DEBUG : option string) : bool :=
  String.eqb (lower (match DEBUG with Some v => v | None => "False" end)) "true".

End Main.

(** ** Test doubles

    A small environment for running the program on concrete requests: a
    model client that echoes a fixed reply, and library stand-ins that agree
    with the real libraries on the few inputs used below. *)

Module Mock.

Definition dq : string := String (ascii_of_nat 34) EmptyString.

(** [{"k1": "v1", "k2": "v2", ...}] *)
Definition render_object (items : list (string * string)) : string :=
  "{" +:+ String.concat ", "
            (map (fun kv => dq +:+ fst kv +:+ dq +:+ ": " +:+ dq +:+ snd kv +:+ dq) items)
  +:+ "}".

Definition sample_items : list (string * string) :=
  [("document_type", "warning letter");
   ("regulatory_body", "FDA");
   ("severity_level", "High");
   ("key_violations", "data integrity");
   ("compliance_areas", "GMP");
   ("deadlines", "15 working days");
   ("potential_penalties", "seizure");
   ("audit_focus_areas", "laboratory records");
   ("recommended_actions", "respond in writing");
   ("risk_assessment", "High");
   ("similar_patterns", "none");
   ("executive_summary", "FDA warning letter on data integrity.")].

Definition sample_reply : string := render_object sample_items.

Definition sample_object : gmap string pyval :=
  list_to_map (map (fun kv => (fst kv, PStr (snd kv))) sample_items).

Definition mock_b64decode (v : pyval) : result bytes :=
  match v with
  | PStr s =>
      if String.eqb s "" then Ok []
      else if String.eqb s "aGVsbG8=" then Ok (list_byte_of_string "hello")
      else if String.eqb s "IAo=" then Ok (list_byte_of_string " 
")
      else Err (Exn "binascii.Error" "Incorrect padding" None)
  | _ => Err (TypeError ("argument should be a bytes-like object or ASCII string, not '"
                         +:+ type_name v +:+ "'"))
  end.

Definition mock_read_utf8 (content : bytes) : result string :=
  if forallb (fun b => N.ltb (Byte.to_N b) 128) content
  then Ok (string_of_list_byte content)
  else Err (Exn "UnicodeDecodeError" "'utf-8' codec can't decode byte" None).

Definition mock_json_loads (text : string) : result pyval :=
  if String.eqb text sample_reply then Ok (PDict sample_object)
  else if String.eqb text "{}" then Ok (PDict ∅)
  else if String.eqb text "[]" then Ok (PList [])
  else Err (Exn "JSONDecodeError" "Expecting value: line 1 column 1 (char 0)" None).

Definition mock_now : datetime := Datetime 2025 1 2 3 4 5 6 eq_refl.

Fixpoint mock_find_rule (rules : list (string * list http_method * endpoint))
    (path : string) : option (list http_method * endpoint) :=
  match rules with
  | [] => None
  | (rule, methods, view) :: rest =>
      if String.eqb rule path then Some (methods, view) else mock_find_rule rest path
  end.

Definition method_eqb (a b : http_method) : bool :=
  match a, b with
  | GET, GET | POST, POST | HEAD, HEAD | OPTIONS, OPTIONS
  | PUT, PUT | DELETE, DELETE | PATCH, PATCH => true
  | _, _ => false
  end.

Definition mock_url_match (rules : list (string * list http_method * endpoint))
    (m : http_method) (path : string) : routing :=
  match mock_find_rule rules path with
  | None => RoutingNotFound
  | Some (methods, view) =>
      if existsb (method_eqb m) methods then Matched view else RoutingMethodNotAllowed
  end.

(** the environment whose model client answers [reply] to every prompt *)
Definition mock_env (reply : string) : Env := {|
  b64decode := mock_b64decode;
  PdfReader_pages := fun _ => Err (Exn "PdfReadError" "EOF marker not found" None);
  Document_paragraphs := fun _ => Err (Exn "BadZipFile" "File is not a zip file" None);
  read_utf8 := mock_read_utf8;
  messages_create := fun _ _ => Ok reply;
  json_loads := mock_json_loads;
  datetime_now := fun _ => mock_now;
  gettempdir := "/tmp";
  rng_choices := fun n => [[n; 1; 2; 3; 4; 5; 6; 7]];
  os_open_error := fun _ => None;
  write_error := fun _ _ => None;
  url_match := mock_url_match;
  send_static_file := fun _ => Err (Exn "NotFound" "404 Not Found" (Some 404))
|}.

(** the same environment with one temporary name offered at every moment *)
Definition steady_env (reply : string) : Env := {|
  b64decode := mock_b64decode;
  PdfReader_pages := fun _ => Err (Exn "PdfReadError" "EOF marker not found" None);
  Document_paragraphs := fun _ => Err (Exn "BadZipFile" "File is not a zip file" None);
  read_utf8 := mock_read_utf8;
  messages_create := fun _ _ => Ok reply;
  json_loads := mock_json_loads;
  datetime_now := fun _ => mock_now;
  gettempdir := "/tmp";
  rng_choices := fun _ => [[0; 1; 2; 3; 4; 5; 6; 7]];
  os_open_error := fun _ => None;
  write_error := fun _ _ => None;
  url_match := mock_url_match;
  send_static_file := fun _ => Err (Exn "NotFound" "404 Not Found" (Some 404))
|}.

(** the environment in which the write to a temporary file fails: the disk
    is full *)
Definition full_disk_env (reply : string) : Env := {|
  b64decode := mock_b64decode;
  PdfReader_pages := fun _ => Err (Exn "PdfReadError" "EOF marker not found" None);
  Document_paragraphs := fun _ => Err (Exn "BadZipFile" "File is not a zip file" None);
  read_utf8 := mock_read_utf8;
  messages_create := fun _ _ => Ok reply;
  json_loads := mock_json_loads;
  datetime_now := fun _ => mock_now;
  gettempdir := "/tmp";
  rng_choices := fun n => [[n; 1; 2; 3; 4; 5; 6; 7]];
  os_open_error := fun _ => None;
  write_error := fun _ _ => Some (Exn "OSError" "[Errno 28] No space left on device" None);
  url_match := mock_url_match;
  send_static_file := fun _ => Err (Exn "NotFound" "404 Not Found" (Some 404))
|}.

Definition w0 : world := World ∅ 0 [] [].

(** the body [{"fileContent": content, "fileName": name}] *)
Definition upload_fields (content name : string) : gmap string pyval :=
  list_to_map [("fileContent", PStr content); ("fileName", PStr name)].

Definition upload (content name : string) : pyval := PDict (upload_fields content name).

(** the body [{"documents": [...]}] *)
Definition batch_fields (documents : list pyval) : gmap string pyval :=
  list_to_map [("documents", PList documents)].

(** a text of 15,003 characters *)
Definition long_text : string := string_of_list_ascii (repeat "a"%char 15003).

(** the first temporary file of a run that starts in [w0] *)
Definition tmp (suffix : string) : string := "/tmp/tmpabcdefgh" +:+ suffix.

End Mock.

(** ** Vocabulary of the properties *)

(** The twelve sections the prompt asks for. *)
Definition requested_key_list : list string :=
  ["document_type"; "regulatory_body"; "severity_level"; "key_violations";
   "compliance_areas"; "deadlines"; "potential_penalties";
   "audit_focus_areas"; "recommended_actions"; "risk_assessment";
   "similar_patterns"; "executive_summary"].

Definition requested_keys : gset string := list_to_set requested_key_list.

(** [key] is named as a numbered section of the prompt: [". key: "] *)
Definition asked_in_prompt (key : string) : bool :=
  match index 0 (". " +:+ key +:+ ": ") RegulatoryAnalyzer.prompt_head with
  | Some _ => true
  | None => false
  end.

Definition metadata_keys : gset string :=
  list_to_set ["analysis_timestamp"; "document_length"].

Definition is_dict (v : pyval) : bool :=
  match v with PDict _ => true | _ => false end.

(** [m.get(key)] *)
Definition field (m : gmap string pyval) (key : string) : pyval :=
  match m !! key with Some x => x | None => PNone end.

(** A request that passed the field and base64 checks and whose bytes were
    staged in the temporary file [p]. *)
Definition staged (env : Env) (m : gmap string pyval) (w : world) (name : string) (content : bytes)
    (p : string) (w1 : world) : Prop :=
  truthy (field m "fileContent") = true
  /\ field m "fileName" = PStr name
  /\ name <> ""
  /\ b64decode env (field m "fileContent") = Ok content
  /\ NamedTemporaryFile env (Path_suffix name) content w = (Ok p, w1).

(** A run of events is scoped when every temporary file is created, then
    read and analysed while it exists, then removed, one file at a time.
    [live] is the file staged at the moment. *)
Fixpoint temp_scoped (live : option string) (evs : list event) : option (option string) :=
  match evs with
  | [] => Some live
  | EvCreate p :: rest =>
      match live with
      | None => temp_scoped (Some p) rest
      | Some _ => None
      end
  | EvOpen p :: rest =>
      match live with
      | Some q => if String.eqb p q then temp_scoped live rest else None
      | None => None
      end
  | EvLLM _ :: rest =>
      match live with
      | Some _ => temp_scoped live rest
      | None => None
      end
  | EvUnlink p :: rest =>
      match live with
      | Some q => if String.eqb p q then temp_scoped None rest else None
      | None => None
      end
  end.

(** The reading "released immediately after extraction": the event after
    each read of a temporary file is its removal. *)
Fixpoint released_after_extraction (evs : list event) : bool :=
  match evs with
  | [] => true
  | EvOpen p :: rest =>
      match rest with
      | EvUnlink q :: _ => String.eqb p q && released_after_extraction rest
      | _ => false
      end
  | _ :: rest => released_after_extraction rest
  end.

(** A temporary file left unwritten: the write of some bytes to it fails. *)
Definition unwritten (env : Env) (p : string) : Prop :=
  exists content e, write_error env p content = Some e.

(** What a handler leaves behind: the files it found, as they were; no
    file that it wrote (a file that is there afterwards and was not there
    before is one whose write failed); and a scoped run of events added to
    the trace, one [EvCreate] for each file written. *)
Definition cleans_up (env : Env) (w w' : world) : Prop :=
  (forall q c, fs w !! q = Some c -> fs w' !! q = Some c)
  /\ (forall p, fs w !! p = None -> fs w' !! p <> None -> unwritten env p)
  /\ exists evs, trace w' = (trace w ++ evs)%list /\ temp_scoped None evs = Some None.

(** The shapes a handler's answer can have. *)
Definition success_response (resp : response) : Prop :=
  status resp = 200
  /\ exists b, body resp = JSON (PDict b) /\ b !! "success" = Some (PBool true).

Definition failure_response (code : nat) (resp : response) : Prop :=
  exists msg, resp = App.error_response msg code.

(** [doc.get('fileName', 'unknown')] *)
Definition file_name_or_unknown (m : gmap string pyval) : pyval :=
  match m !! "fileName" with Some x => x | None => PStr "unknown" end.

Definition success_record (m : gmap string pyval) (analysis : pyval) : pyval :=
  App.dict [("success", PBool true);
            ("fileName", file_name_or_unknown m);
            ("analysis", analysis)].

Definition failure_record (m : gmap string pyval) (msg : string) : pyval :=
  App.dict [("success", PBool false);
            ("fileName", file_name_or_unknown m);
            ("error", PStr msg)].

(** the world after [os.unlink(p)] of a file that exists *)
Definition unlinked (p : string) (w : world) : world :=
  World (delete p (fs w)) (clock w) (trace w ++ [EvUnlink p])%list (logged w).

(** The record the batch loop keeps for the document [m] that it processes
    in the world [w], and the world it leaves: one case for each way out of
    the loop body, in the order of the source. Every exception gives a
    failure record with the text of the exception; only an analysis that
    returned gives a success record. *)
Inductive document_record (env : Env) (m : gmap string pyval) (w : world)
    : pyval -> world -> Prop :=
| record_no_content :
    m !! "fileContent" = None ->
    document_record env m w (failure_record m "'fileContent'") w
| record_bad_base64 (fc : pyval) (e : exn) :
    m !! "fileContent" = Some fc ->
    b64decode env fc = Err e ->
    document_record env m w (failure_record m (exn_str e)) w
| record_no_name (fc : pyval) (content : bytes) :
    m !! "fileContent" = Some fc ->
    b64decode env fc = Ok content ->
    m !! "fileName" = None ->
    document_record env m w (failure_record m "'fileName'") w
| record_bad_name (fc fn : pyval) (content : bytes) (e : exn) :
    m !! "fileContent" = Some fc ->
    b64decode env fc = Ok content ->
    m !! "fileName" = Some fn ->
    Path fn = Err e ->
    document_record env m w (failure_record m (exn_str e)) w
| record_staging_failed (fc fn : pyval) (content : bytes) (name : string) (e : exn)
    (w1 : world) :
    m !! "fileContent" = Some fc ->
    b64decode env fc = Ok content ->
    m !! "fileName" = Some fn ->
    Path fn = Ok name ->
    NamedTemporaryFile env (Path_suffix name) content w = (Err e, w1) ->
    document_record env m w (failure_record m (exn_str e)) w1
| record_extraction_failed (fc fn : pyval) (content : bytes) (name p : string) (e : exn)
    (w1 w2 : world) :
    m !! "fileContent" = Some fc ->
    b64decode env fc = Ok content ->
    m !! "fileName" = Some fn ->
    Path fn = Ok name ->
    NamedTemporaryFile env (Path_suffix name) content w = (Ok p, w1) ->
    RegulatoryAnalyzer.parse_file env p w1 = (Err e, w2) ->
    document_record env m w (failure_record m (exn_str e)) (unlinked p w2)
| record_analysis_failed (fc fn : pyval) (content : bytes) (name p text : string) (e : exn)
    (w1 w2 w3 : world) :
    m !! "fileContent" = Some fc ->
    b64decode env fc = Ok content ->
    m !! "fileName" = Some fn ->
    Path fn = Ok name ->
    NamedTemporaryFile env (Path_suffix name) content w = (Ok p, w1) ->
    RegulatoryAnalyzer.parse_file env p w1 = (Ok text, w2) ->
    RegulatoryAnalyzer.analyze_document env text w2 = (Err e, w3) ->
    document_record env m w (failure_record m (exn_str e)) (unlinked p w3)
| record_analysed (fc fn : pyval) (content : bytes) (name p text : string) (analysis : pyval)
    (w1 w2 w3 : world) :
    m !! "fileContent" = Some fc ->
    b64decode env fc = Ok content ->
    m !! "fileName" = Some fn ->
    Path fn = Ok name ->
    NamedTemporaryFile env (Path_suffix name) content w = (Ok p, w1) ->
    RegulatoryAnalyzer.parse_file env p w1 = (Ok text, w2) ->
    RegulatoryAnalyzer.analyze_document env text w2 = (Ok analysis, w3) ->
    document_record env m w (success_record m analysis) (unlinked p w3).

(** The records of a run of the loop over documents that are JSON objects:
    the record of each document, in order, each processed in the world the
    document before it left. *)
Inductive batch_records (env : Env) : world -> list pyval -> list pyval -> world -> Prop :=
| records_done (w : world) : batch_records env w [] [] w
| records_next (w w1 w2 : world) (m : gmap string pyval) (entry : pyval)
    (rest entries : list pyval) :
    document_record env m w entry w1 ->
    batch_records env w1 rest entries w2 ->
    batch_records env w (PDict m :: rest) (entry :: entries) w2.

(** The record a document gets when it is processed in the world [w]. *)
Definition processed_alone (env : Env) (w : world) (doc entry : pyval) : Prop :=
  exists m w1, doc = PDict m /\ document_record env m w entry w1.

(** An environment whose model, clock and temporary names answer the same
    whenever they are asked, and in which the write of a temporary file does
    not fail. *)
Definition steady (env : Env) : Prop :=
  (forall n prompt, messages_create env n prompt = messages_create env 0 prompt)
  /\ (forall n, datetime_now env n = datetime_now env 0)
  /\ (forall n, rng_choices env n = rng_choices env 0)
  /\ (forall p content, write_error env p content = None).

(** [x] does not occur in [s] *)
Fixpoint no_char (x : ascii) (s : string) : bool :=
  match s with
  | EmptyString => true
  | String c r => negb (Ascii.eqb c x) && no_char x r
  end.

(** ** Proof steps for the monad *)

Ltac run :=
  unfold bind, ret, raise, lift, try_except, try_finally, tick, emit, logger_error; simpl.

Ltac monad := cbv [bind ret raise lift try_except try_finally App.now_isoformat tick].

Ltac batch_monad :=
  cbv [bind ret raise lift try_except try_finally on_world get_local set_local
       getitem dict_get fst snd].

(** ** Vocabulary of the further properties *)

(** The text of a document given its bytes and its file name: the parser is
    chosen by the extension, no file is involved. *)
Definition extract (env : Env) (content : bytes) (filename : string) : result string :=
  if String.eqb (lower (Path_suffix filename)) ".pdf" then
    match PdfReader_pages env content with
    | Ok pages => RegulatoryAnalyzer.concat_pages pages ""
    | Err e => Err e
    end
  else if String.eqb (lower (Path_suffix filename)) ".docx" then
    match Document_paragraphs env content with
    | Ok paragraphs => Ok (RegulatoryAnalyzer.concat_paragraphs paragraphs "")
    | Err e => Err e
    end
  else if String.eqb (lower (Path_suffix filename)) ".txt" then read_utf8 env content
  else Err (ValueError ("Unsupported file type: " +:+ Path_suffix filename)).

(** each text followed by a newline, in order *)
Definition join_lines (texts : list string) : string :=
  String.concat "" (map (fun t => t +:+ "
") texts).

Definition is_llm (ev : event) : bool :=
  match ev with EvLLM _ => true | _ => false end.

Definition is_create (ev : event) : bool :=
  match ev with EvCreate _ => true | _ => false end.

(** the number of model calls, and of temporary files made, in a run *)
Definition count_llm (evs : list event) : nat := length (List.filter is_llm evs).
Definition count_create (evs : list event) : nat := length (List.filter is_create evs).

(** [entry['success'] is True] *)
Definition record_succeeded (entry : pyval) : bool :=
  match entry with
  | PDict m => match m !! "success" with Some (PBool true) => true | _ => false end
  | _ => false
  end.

Definition count_succeeded (entries : list pyval) : nat :=
  length (List.filter record_succeeded entries).

(** the 500 answer of both handlers for an exception [e] *)
Definition internal_server_error (e : exn) : response :=
  App.error_response ("Internal server error: " +:+ exn_str e) 500.

(** the world after [logger.error(prefix + str(e))] *)
Definition with_log (prefix : string) (e : exn) (w : world) : world :=
  World (fs w) (clock w) (trace w) (logged w ++ [prefix +:+ exn_str e])%list.

(** The 200 answer of [POST /analyze]. *)
Definition analysis_response (file_name analysis processed_at : pyval) (text : string)
    : response :=
  Response (JSON (App.dict [("success", PBool true);
                            ("analysis", analysis);
                            ("processedAt", processed_at);
                            ("fileName", file_name);
                            ("documentLength", PInt (Z.of_nat (String.length text)))]))
           200.

(** The paths through [POST /analyze]: for the outcome of
    [request.get_json()] and the world before, the answer and the world
    after. One constructor per exit of the handler, in the order of the
    source. *)
Inductive analyze_path (env : Env) (w : world) : result pyval -> response -> world -> Prop :=
| path_get_json_raised (e : exn) :
    analyze_path env w (Err e) (internal_server_error e)
      (with_log "Error in analyze_document: " e w)
| path_no_data (data : pyval) :
    truthy data = false ->
    analyze_path env w (Ok data) (App.error_response "No JSON data provided" 400) w
| path_not_an_object (data : pyval) (e : exn) :
    truthy data = true ->
    dict_get data "fileContent" PNone = Err e ->
    analyze_path env w (Ok data) (internal_server_error e)
      (with_log "Error in analyze_document: " e w)
| path_missing_field (m : gmap string pyval) :
    truthy (PDict m) = true ->
    truthy (field m "fileContent") = false \/ truthy (field m "fileName") = false ->
    analyze_path env w (Ok (PDict m))
      (App.error_response "fileContent and fileName are required" 400) w
| path_bad_base64 (m : gmap string pyval) (e : exn) :
    truthy (field m "fileContent") = true ->
    truthy (field m "fileName") = true ->
    b64decode env (field m "fileContent") = Err e ->
    analyze_path env w (Ok (PDict m))
      (App.error_response ("Invalid base64 content: " +:+ exn_str e) 400) w
| path_bad_file_name (m : gmap string pyval) (content : bytes) (e : exn) :
    truthy (field m "fileContent") = true ->
    truthy (field m "fileName") = true ->
    b64decode env (field m "fileContent") = Ok content ->
    Path (field m "fileName") = Err e ->
    analyze_path env w (Ok (PDict m)) (internal_server_error e)
      (with_log "Error in analyze_document: " e w)
| path_staging_failed (m : gmap string pyval) (content : bytes) (name : string)
    (e : exn) (w1 : world) :
    truthy (field m "fileContent") = true ->
    field m "fileName" = PStr name ->
    name <> "" ->
    b64decode env (field m "fileContent") = Ok content ->
    NamedTemporaryFile env (Path_suffix name) content w = (Err e, w1) ->
    analyze_path env w (Ok (PDict m)) (internal_server_error e)
      (with_log "Error in analyze_document: " e w1)
| path_extraction_failed (m : gmap string pyval) (content : bytes) (name p : string)
    (e : exn) (w1 w2 : world) :
    staged env m w name content p w1 ->
    RegulatoryAnalyzer.parse_file env p w1 = (Err e, w2) ->
    analyze_path env w (Ok (PDict m)) (internal_server_error e)
      (with_log "Error in analyze_document: " e (unlinked p w2))
| path_blank_text (m : gmap string pyval) (content : bytes) (name p text : string)
    (w1 w2 : world) :
    staged env m w name content p w1 ->
    RegulatoryAnalyzer.parse_file env p w1 = (Ok text, w2) ->
    strip text = "" ->
    analyze_path env w (Ok (PDict m))
      (App.error_response "No text could be extracted from the document" 400)
      (unlinked p w2)
| path_analysis_failed (m : gmap string pyval) (content : bytes) (name p text : string)
    (e : exn) (w1 w2 w3 : world) :
    staged env m w name content p w1 ->
    RegulatoryAnalyzer.parse_file env p w1 = (Ok text, w2) ->
    strip text <> "" ->
    RegulatoryAnalyzer.analyze_document env text w2 = (Err e, w3) ->
    analyze_path env w (Ok (PDict m)) (internal_server_error e)
      (with_log "Error in analyze_document: " e (unlinked p w3))
| path_analysed (m : gmap string pyval) (content : bytes) (name p text : string)
    (r : pyval) (w1 w2 w3 : world) :
    staged env m w name content p w1 ->
    RegulatoryAnalyzer.parse_file env p w1 = (Ok text, w2) ->
    strip text <> "" ->
    RegulatoryAnalyzer.analyze_document env text w2 = (Ok r, w3) ->
    analyze_path env w (Ok (PDict m))
      (analysis_response (PStr name) r (PStr (isoformat (datetime_now env (clock w3)))) text)
      (unlinked p (World (fs w3) (S (clock w3)) (trace w3) (logged w3))).

(** ** Proof steps for the paths *)

(** the [error] entry of a JSON answer *)
Definition error_of (resp : response) : option pyval :=
  match body resp with
  | JSON (PDict b) => b !! "error"
  | _ => None
  end.

(** an answer that is not the one in [H] *)
Ltac other_answer H :=
  unfold internal_server_error, analysis_response in H;
  first [ apply (f_equal status) in H; discriminate H
        | apply (f_equal error_of) in H; vm_compute in H; discriminate H ].

(** ** More test doubles *)

Module MockDocs.
Import Mock.

(** an environment whose PDF and DOCX readers give these pages and
    paragraphs for every file *)
Definition docs_env (pages : list (result string)) (paragraphs : list string) : Env := {|
  b64decode := mock_b64decode;
  PdfReader_pages := fun _ => Ok pages;
  Document_paragraphs := fun _ => Ok paragraphs;
  read_utf8 := mock_read_utf8;
  messages_create := fun _ _ => Ok sample_reply;
  json_loads := mock_json_loads;
  datetime_now := fun _ => mock_now;
  gettempdir := "/tmp";
  rng_choices := fun n => [[n; 1; 2; 3; 4; 5; 6; 7]];
  os_open_error := fun _ => None;
  write_error := fun _ _ => None;
  url_match := mock_url_match;
  send_static_file := fun _ => Err (Exn "NotFound" "404 Not Found" (Some 404))
|}.

(** an environment whose model client raises [e] *)
Definition failing_env (e : exn) : Env := {|
  b64decode := mock_b64decode;
  PdfReader_pages := fun _ => Err (Exn "PdfReadError" "EOF marker not found" None);
  Document_paragraphs := fun _ => Err (Exn "BadZipFile" "File is not a zip file" None);
  read_utf8 := mock_read_utf8;
  messages_create := fun _ _ => Err e;
  json_loads := mock_json_loads;
  datetime_now := fun _ => mock_now;
  gettempdir := "/tmp";
  rng_choices := fun n => [[n; 1; 2; 3; 4; 5; 6; 7]];
  os_open_error := fun _ => None;
  write_error := fun _ _ => None;
  url_match := mock_url_match;
  send_static_file := fun _ => Err (Exn "NotFound" "404 Not Found" (Some 404))
|}.

(** a world with one file *)
Definition stored (p : string) (content : bytes) : world := World {[p := content]} 0 [] [].

(** the answer of a run, and the world it leaves *)
Definition answer_of (run : result response * world) : response :=
  match fst run with
  | Ok resp => resp
  | Err _ => App.internal_error
  end.

Definition world_of (run : result response * world) : world := snd run.

End MockDocs.
(** ** Facts about the string and time helpers *)

Module PyFacts.

Lemma rstrip_all_space (s : string) : all_space s = true -> rstrip s = "".
Proof.
  induction s as [|c r IH]; simpl; [reflexivity|].
  intros H. apply andb_prop in H as [Hc Hr].
  rewrite (IH Hr), Hc. reflexivity.
Qed.

Lemma rstrip_empty_inv (s : string) : rstrip s = "" -> all_space s = true.
Proof.
  induction s as [|c r IH]; simpl; [reflexivity|].
  destruct (rstrip r) eqn:Hr; [|discriminate].
  destruct (isspace c); [|discriminate].
  intros _. simpl. apply IH. reflexivity.
Qed.

Lemma lstrip_all_space (s : string) : all_space s = true -> lstrip s = "".
Proof.
  induction s as [|c r IH]; simpl; [reflexivity|].
  intros H. apply andb_prop in H as [Hc Hr]. rewrite Hc. auto.
Qed.

Lemma all_space_lstrip (s : string) : all_space (lstrip s) = all_space s.
Proof.
  induction s as [|c r IH]; simpl; [reflexivity|].
  destruct (isspace c) eqn:Hc; simpl; [exact IH|].
  rewrite Hc. reflexivity.
Qed.

(** [not text.strip()] holds exactly for the texts made of white space. *)
Lemma strip_empty_iff (s : string) : strip s = "" <-> all_space s = true.
Proof.
  unfold strip. split.
  - intros H. apply rstrip_empty_inv in H. rewrite all_space_lstrip in H. exact H.
  - intros H. rewrite (lstrip_all_space s H). reflexivity.
Qed.

Lemma is_digit_digit (n : N) : is_digit (digit n) = true.
Proof.
  unfold digit, is_digit.
  assert (Hlt : (n mod 10 < 10)%N) by (apply N.mod_upper_bound; discriminate).
  destruct (n mod 10)%N as [|p]; [reflexivity|].
  do 4 (destruct p as [p|p|]; try reflexivity; try (exfalso; lia)).
Qed.

Lemma isoformat_is_iso8601 (t : datetime) : is_iso8601 (isoformat t) = true.
Proof.
  unfold isoformat. destruct (microsecond t =? 0)%N.
  - cbv -[digit N.div is_digit year month day hour minute second microsecond].
    rewrite !is_digit_digit. reflexivity.
  - cbv -[digit N.div is_digit year month day hour minute second microsecond].
    rewrite !is_digit_digit. reflexivity.
Qed.

End PyFacts.

(** ** The analyzer: what a call does to the world and what it returns *)

Module AnalyzerFacts.
Import RegulatoryAnalyzer.


Lemma substring_prefix_length (n : nat) (s : string) :
  String.length (substring 0 n s) = Nat.min n (String.length s).
Proof.
  revert s. induction n as [|n IH]; intros s.
  - destruct s; reflexivity.
  - destruct s as [|c r]; [reflexivity|]. simpl. rewrite IH. reflexivity.
Qed.

Lemma substring_prefix_split (n : nat) (s : string) :
  exists dropped, s = substring 0 n s +:+ dropped.
Proof.
  revert s. induction n as [|n IH]; intros s.
  - exists s. destruct s; reflexivity.
  - destruct s as [|c r]; [exists ""; reflexivity|].
    destruct (IH r) as [d Hd]. exists d.
    change (String c r = String c (substring 0 n r +:+ d)). rewrite <- Hd. reflexivity.
Qed.

Section WithEnv.
Context (env : Env).

(** The model is called once, with the prompt built from the text, and the
    file system is left alone. *)
Lemma analyze_document_effect (text : string) (w : world) :
  trace (snd (analyze_document env text w))
  = (trace w ++ [EvLLM (analysis_prompt text)])%list
  /\ fs (snd (analyze_document env text w)) = fs w.
Proof.
  unfold analyze_document. run.
  destruct (messages_create env (clock w) (analysis_prompt text)) as [reply|e]; simpl;
    [|split; reflexivity].
  destruct (json_loads env reply) as [v|e]; simpl; [|split; reflexivity].
  destruct (setitem v "analysis_timestamp" _) as [v1|e] eqn:H1; simpl; [|split; reflexivity].
  destruct (setitem v1 "document_length" _) as [v2|e] eqn:H2; simpl; split; reflexivity.
Qed.

(** A reply that parses to a JSON object, whatever its keys, is returned
    with the two metadata entries set. *)
Lemma analyze_document_ok (text reply : string) (m : gmap string pyval) (w : world) :
  messages_create env (clock w) (analysis_prompt text) = Ok reply ->
  json_loads env reply = Ok (PDict m) ->
  analyze_document env text w
  = (Ok (PDict (<["document_length" := PInt (Z.of_nat (String.length text))]>
                  (<["analysis_timestamp" :=
                       PStr (isoformat (datetime_now env (S (clock w))))]> m))),
     World (fs w) (S (S (clock w)))
           (trace w ++ [EvLLM (analysis_prompt text)])%list (logged w)).
Proof.
  intros Hc Hj. unfold analyze_document. run. rewrite Hc. simpl. rewrite Hj. reflexivity.
Qed.

(** A reply that does not parse makes the call raise the parser's error. *)
Lemma analyze_document_bad_json (text reply : string) (e : exn) (w : world) :
  messages_create env (clock w) (analysis_prompt text) = Ok reply ->
  json_loads env reply = Err e ->
  analyze_document env text w
  = (Err e,
     World (fs w) (S (clock w)) (trace w ++ [EvLLM (analysis_prompt text)])%list
           (logged w ++ ["Error in document analysis: " +:+ exn_str e])%list).
Proof.
  intros Hc Hj. unfold analyze_document. run. rewrite Hc. simpl. rewrite Hj. reflexivity.
Qed.

End WithEnv.
End AnalyzerFacts.



(** C1: the prompt sent to the model embeds the first 15,000 characters of
    the text and nothing after them, and the [document_length] entry of the
    result is the length of the whole text. *)
Theorem analyze_document_truncates_prompt_not_length
    (env : Env) (text : string) (w : world) :
  let sent := substring 0 15000 text in
  trace (snd (RegulatoryAnalyzer.analyze_document env text w))
  = (trace w ++ [EvLLM (RegulatoryAnalyzer.prompt_head +:+ sent +:+ RegulatoryAnalyzer.prompt_tail)])%list
  /\ String.length sent = Nat.min 15000 (String.length text)
  /\ (exists dropped, text = sent +:+ dropped)
  /\ (forall reply m,
        messages_create env (clock w) (RegulatoryAnalyzer.analysis_prompt text) = Ok reply ->
        json_loads env reply = Ok (PDict m) ->
        exists r w',
          RegulatoryAnalyzer.analyze_document env text w = (Ok (PDict r), w')
          /\ r !! "document_length" = Some (PInt (Z.of_nat (String.length text)))).
Proof.
  intros sent. repeat split.
  - apply AnalyzerFacts.analyze_document_effect.
  - apply AnalyzerFacts.substring_prefix_length.
  - apply AnalyzerFacts.substring_prefix_split.
  - intros reply m Hc Hj.
    rewrite (AnalyzerFacts.analyze_document_ok env text reply m w Hc Hj).
    eexists _, _. split; [reflexivity|]. apply lookup_insert_eq.
Qed.

(** The keys called requested are the twelve sections of the prompt, and
    the two metadata keys are not among them. *)
Lemma requested_keys_in_prompt :
  forallb asked_in_prompt requested_key_list = true
  /\ length requested_key_list = 12
  /\ asked_in_prompt "analysis_timestamp" = false
  /\ asked_in_prompt "document_length" = false.
Proof. repeat split; vm_compute; reflexivity. Qed.

Lemma metadata_not_requested :
  ("analysis_timestamp" ∉ requested_keys) /\ ("document_length" ∉ requested_keys).
Proof. split; apply (bool_decide_unpack _); vm_compute; exact I. Qed.

(** C2: when the model replies with a JSON object that has the twelve
    requested keys, the result is that object with exactly two more keys,
    the ISO-8601 time stamp and the length of the text; the twelve entries
    are unchanged. *)
Theorem analyze_document_adds_exactly_two_keys
    (env : Env) (text reply : string) (m : gmap string pyval) (w : world) :
  messages_create env (clock w) (RegulatoryAnalyzer.analysis_prompt text) = Ok reply ->
  json_loads env reply = Ok (PDict m) ->
  dom m = requested_keys ->
  exists r w',
    RegulatoryAnalyzer.analyze_document env text w = (Ok (PDict r), w')
    /\ dom r = requested_keys ∪ metadata_keys
    /\ size r = 14
    /\ (forall k, k ∈ requested_keys -> r !! k = m !! k)
    /\ delete "analysis_timestamp" (delete "document_length" r) = m
    /\ (exists t, r !! "analysis_timestamp" = Some (PStr (isoformat t))
                  /\ is_iso8601 (isoformat t) = true)
    /\ r !! "document_length" = Some (PInt (Z.of_nat (String.length text))).
Proof.
  intros Hc Hj Hdom.
  destruct metadata_not_requested as [Hts Hlen].
  rewrite (AnalyzerFacts.analyze_document_ok env text reply m w Hc Hj).
  eexists _, _. split; [reflexivity|].
  assert (Hd : dom (<["document_length" := PInt (Z.of_nat (String.length text))]>
                      (<["analysis_timestamp" :=
                           PStr (isoformat (datetime_now env (S (clock w))))]> m))
               = requested_keys ∪ metadata_keys).
  { rewrite !dom_insert_L, Hdom. unfold metadata_keys. simpl. set_solver. }
  split; [exact Hd|].
  split.
  { rewrite <- size_dom, Hd. vm_compute. reflexivity. }
  split.
  { intros k Hk. rewrite !lookup_insert_ne; [reflexivity| |]; intros Heq; subst k; contradiction. }
  split.
  { rewrite delete_insert_id.
    - apply delete_insert_id. apply not_elem_of_dom. rewrite Hdom. exact Hts.
    - rewrite lookup_insert_ne by discriminate.
      apply not_elem_of_dom. rewrite Hdom. exact Hlen. }
  split.
  { exists (datetime_now env (S (clock w))). split.
    - rewrite lookup_insert_ne by discriminate. apply lookup_insert_eq.
    - apply PyFacts.isoformat_is_iso8601. }
  apply lookup_insert_eq.
Qed.

(** ** Temporary files and extraction *)

Module FileFacts.
Import RegulatoryAnalyzer.


Section WithEnv.
Context (env : Env).

Lemma mkstemp_inner_fresh (files : gmap string bytes) (candidates : list (list nat))
    (suffix p : string) :
  mkstemp_inner env files candidates suffix = Ok p -> files !! p = None.
Proof.
  induction candidates as [|draws rest IH]; simpl; [discriminate|].
  set (q := gettempdir env +:+ "/" +:+ "tmp" +:+ random_name draws +:+ suffix).
  destruct (os_open_error env q); [discriminate|].
  destruct (files !! q) eqn:Hl; [exact IH|].
  intros [= <-]. exact Hl.
Qed.

Lemma NamedTemporaryFile_ok (suffix : string) (content : bytes) (w w' : world) (p : string) :
  NamedTemporaryFile env suffix content w = (Ok p, w') ->
  fs w !! p = None
  /\ w' = World (<[p := content]> (fs w)) (S (clock w)) (trace w ++ [EvCreate p])%list (logged w).
Proof.
  unfold NamedTemporaryFile. run.
  destruct (mkstemp_inner env (fs w) _ suffix) as [q|e] eqn:Hm; [|discriminate].
  destruct (write_error env q content); [discriminate|].
  intros [= <- <-]. split; [|reflexivity].
  exact (mkstemp_inner_fresh _ _ _ _ Hm).
Qed.

(** A staging that raises: no file could be created and the files are as
    they were, or the write to the file just created failed and that file
    stays. *)
Lemma NamedTemporaryFile_err (suffix : string) (content : bytes) (w w' : world) (e : exn) :
  NamedTemporaryFile env suffix content w = (Err e, w') ->
  clock w' = S (clock w) /\ trace w' = trace w /\ logged w' = logged w
  /\ (fs w' = fs w
      \/ exists p, fs w !! p = None /\ write_error env p content = Some e
                   /\ fs w' = <[p := []]> (fs w)).
Proof.
  unfold NamedTemporaryFile. run.
  destruct (mkstemp_inner env (fs w) _ suffix) as [q|e'] eqn:Hm.
  - destruct (write_error env q content) as [e'|] eqn:Hw; [|discriminate].
    intros [= <- <-]. simpl. repeat split. right. exists q.
    split; [exact (mkstemp_inner_fresh _ _ _ _ Hm)|]. split; [exact Hw|reflexivity].
  - intros [= _ <-]. simpl. repeat split. left. reflexivity.
Qed.

(** the same world but for the files *)
Lemma NamedTemporaryFile_err_world (suffix : string) (content : bytes) (w w' : world) (e : exn) :
  NamedTemporaryFile env suffix content w = (Err e, w') ->
  w' = World (fs w') (S (clock w)) (trace w) (logged w).
Proof.
  intros H. destruct (NamedTemporaryFile_err _ _ _ _ _ H) as (Hc & Ht & Hl & _).
  destruct w'. simpl in *. congruence.
Qed.

Lemma os_unlink_present (p : string) (content : bytes) (w : world) :
  fs w !! p = Some content ->
  os_unlink p w
  = (Ok tt, World (delete p (fs w)) (clock w) (trace w ++ [EvUnlink p])%list (logged w)).
Proof. intros H. unfold os_unlink. rewrite H. reflexivity. Qed.

(** Extraction reads: it opens the file at most once and changes neither
    the files nor the clock. *)
Lemma parse_file_effect (p : string) (w : world) :
  fs (snd (parse_file env p w)) = fs w
  /\ clock (snd (parse_file env p w)) = clock w
  /\ (trace (snd (parse_file env p w)) = trace w
      \/ trace (snd (parse_file env p w)) = (trace w ++ [EvOpen p])%list).
Proof.
  unfold parse_file, _parse_pdf, _parse_docx, _parse_txt, open_file. run.
  destruct (String.eqb (lower (Path_suffix p)) ".pdf").
  { destruct (fs w !! p); simpl; [|auto].
    destruct (PdfReader_pages env b); simpl; [|auto].
    destruct (concat_pages a ""); simpl; auto. }
  destruct (String.eqb (lower (Path_suffix p)) ".docx").
  { destruct (fs w !! p); simpl; [|auto].
    destruct (Document_paragraphs env b); simpl; auto. }
  destruct (String.eqb (lower (Path_suffix p)) ".txt").
  { destruct (fs w !! p); simpl; [|auto].
    destruct (read_utf8 env b); simpl; auto. }
  simpl. auto.
Qed.

End WithEnv.
End FileFacts.

(** ** Names of temporary files keep the extension *)

Module PathFacts.

Lemma no_char_app (x : ascii) (a b : string) :
  no_char x (a +:+ b) = no_char x a && no_char x b.
Proof.
  induction a as [|c a IH]; [reflexivity|].
  change (String c a +:+ b) with (String c (a +:+ b)). simpl.
  rewrite IH, andb_assoc. reflexivity.
Qed.

Lemma split_slash_cons (s : string) : exists h t, split_slash s = h :: t.
Proof.
  induction s as [|c r (h & t & IH)]; simpl; [eauto|].
  destruct (Ascii.eqb c "/"); [eauto|]. rewrite IH. eauto.
Qed.

Lemma split_slash_no_slash (s : string) : no_char "/" s = true -> split_slash s = [s].
Proof.
  induction s as [|c r IH]; simpl; [reflexivity|].
  intros H. apply andb_prop in H as [Hc Hr].
  destruct (Ascii.eqb c "/"); [discriminate|]. rewrite (IH Hr). reflexivity.
Qed.

Lemma split_slash_app (a b : string) :
  split_slash (a +:+ "/" +:+ b) = (split_slash a ++ split_slash b)%list.
Proof.
  induction a as [|c a IH]; [reflexivity|].
  change (String c a +:+ "/" +:+ b) with (String c (a +:+ "/" +:+ b)). simpl.
  destruct (Ascii.eqb c "/"); [rewrite IH; reflexivity|].
  rewrite IH. destruct (split_slash_cons a) as (h & t & ->). reflexivity.
Qed.

Lemma split_slash_parts_no_slash (s : string) :
  Forall (fun part => no_char "/" part = true) (split_slash s).
Proof.
  induction s as [|c r IH]; simpl; [repeat constructor|].
  destruct (Ascii.eqb c "/") eqn:Hc; [constructor; [reflexivity|exact IH]|].
  destruct (split_slash r) as [|h t]; [repeat constructor; simpl; rewrite Hc; reflexivity|].
  inversion IH as [|? ? Hh Ht]; subst. constructor; [|exact Ht].
  simpl. rewrite Hc, Hh. reflexivity.
Qed.

Lemma Path_name_no_slash (s : string) : no_char "/" (Path_name s) = true.
Proof.
  unfold Path_name, path_parts.
  assert (H : Forall (fun part => no_char "/" part = true)
                (List.filter (fun c => negb (String.eqb c "") && negb (String.eqb c "."))
                   (split_slash s))).
  { apply List.Forall_forall. intros x Hx. apply filter_In in Hx as [Hx _].
    pose proof (split_slash_parts_no_slash s) as Hall.
    rewrite List.Forall_forall in Hall. apply Hall. exact Hx. }
  revert H. generalize (List.filter (fun c => negb (String.eqb c "") && negb (String.eqb c "."))
                          (split_slash s)).
  intros l H. induction H as [|x l Hx Hl IH]; [reflexivity|].
  destruct l; [exact Hx|exact IH].
Qed.

(** the base name of [dir/base] *)
Lemma Path_name_join (dir base : string) :
  no_char "/" base = true -> base <> "" -> base <> "." ->
  Path_name (dir +:+ "/" +:+ base) = base.
Proof.
  intros Hs He Hd. unfold Path_name, path_parts.
  rewrite split_slash_app, (split_slash_no_slash base Hs), List.filter_app. simpl.
  apply String.eqb_neq in He, Hd. rewrite He, Hd. simpl. apply last_last.
Qed.

Lemma rfind_dot_none_app (a b : string) :
  rfind_dot a = None -> rfind_dot b = None -> rfind_dot (a +:+ b) = None.
Proof.
  intros Ha Hb. induction a as [|c a IH]; [exact Hb|].
  change (String c a +:+ b) with (String c (a +:+ b)). simpl in *.
  destruct (rfind_dot a); [discriminate|]. rewrite (IH eq_refl).
  destruct (Ascii.eqb c "."); [discriminate|reflexivity].
Qed.

Lemma rfind_dot_app_dot (a rest : string) :
  rfind_dot rest = None ->
  rfind_dot (a +:+ String "." rest) = Some (String.length a).
Proof.
  intros Hr. induction a as [|c a IH]; simpl.
  - rewrite Hr. reflexivity.
  - change (String c a +:+ String "." rest) with (String c (a +:+ String "." rest)).
    simpl. rewrite IH. reflexivity.
Qed.

Lemma rfind_dot_split (s : string) (i : nat) :
  rfind_dot s = Some i ->
  exists pre rest, s = pre +:+ String "." rest /\ String.length pre = i /\ rfind_dot rest = None.
Proof.
  revert i. induction s as [|c r IH]; simpl; [discriminate|]. intros i.
  destruct (rfind_dot r) as [j|] eqn:Hr.
  - intros [= <-]. destruct (IH j eq_refl) as (pre & rest & -> & Hl & Hn).
    exists (String c pre), rest. simpl. rewrite Hl. auto.
  - destruct (Ascii.eqb_spec c "."); [|discriminate].
    intros [= <-]. subst c. exists "", r. auto.
Qed.

Lemma substring_whole (s : string) : substring 0 (String.length s) s = s.
Proof. induction s as [|c r IH]; simpl; [reflexivity|]. rewrite IH. reflexivity. Qed.

Lemma substring_skip (a b : string) :
  substring (String.length a) (String.length b) (a +:+ b) = b.
Proof.
  induction a as [|c a IH]; [apply substring_whole|].
  change (String c a +:+ b) with (String c (a +:+ b)). simpl. exact IH.
Qed.

Lemma length_app (a b : string) :
  String.length (a +:+ b) = String.length a + String.length b.
Proof.
  induction a as [|c a IH]; [reflexivity|].
  change (String c a +:+ b) with (String c (a +:+ b)). simpl. rewrite IH. reflexivity.
Qed.

(** A suffix is empty, or a dot followed by at least one character and no
    further dot. *)
Lemma name_suffix_shape (name : string) :
  name_suffix name = ""
  \/ exists rest, name_suffix name = String "." rest /\ rest <> "" /\ rfind_dot rest = None.
Proof.
  unfold name_suffix. destruct (rfind_dot name) as [i|] eqn:Hi; [|auto].
  destruct ((0 <? i)%nat && (i <? String.length name - 1)%nat)%bool eqn:Hc; [|auto].
  right. destruct (rfind_dot_split name i Hi) as (pre & rest & -> & Hl & Hn).
  exists rest. apply andb_prop in Hc as [_ Hlt]. apply Nat.ltb_lt in Hlt.
  rewrite length_app in *. simpl in *. split; [|split; [|exact Hn]].
  - rewrite <- Hl.
    replace (String.length pre + S (String.length rest) - String.length pre)
      with (String.length (String "." rest)) by (simpl; lia).
    apply substring_skip.
  - intros ->. simpl in Hlt. lia.
Qed.

Lemma name_suffix_no_slash (name : string) :
  no_char "/" name = true -> no_char "/" (name_suffix name) = true.
Proof.
  intros Hs. unfold name_suffix. destruct (rfind_dot name) as [i|] eqn:Hi; [|reflexivity].
  destruct ((0 <? i)%nat && (i <? String.length name - 1)%nat)%bool; [|reflexivity].
  destruct (rfind_dot_split name i Hi) as (pre & rest & -> & Hl & Hn).
  rewrite length_app, <- Hl.
  replace (String.length pre + String.length (String "." rest) - String.length pre)
    with (String.length (String "." rest)) by lia.
  rewrite substring_skip. rewrite no_char_app in Hs. apply andb_prop in Hs as [_ Hs]. exact Hs.
Qed.

(** Appending a suffix to a name without dots gives a name with that suffix. *)
Lemma name_suffix_append (stem sfx : string) :
  stem <> "" -> rfind_dot stem = None ->
  sfx = "" \/ (exists rest, sfx = String "." rest /\ rest <> "" /\ rfind_dot rest = None) ->
  name_suffix (stem +:+ sfx) = sfx.
Proof.
  intros Hne Hstem [->|(rest & -> & Hrest & Hn)]; unfold name_suffix.
  - rewrite (rfind_dot_none_app stem "" Hstem eq_refl). reflexivity.
  - rewrite (rfind_dot_app_dot stem rest Hn), length_app. simpl.
    assert (Hpos : (0 <? String.length stem)%nat = true).
    { apply Nat.ltb_lt. destruct stem; [contradiction|simpl; lia]. }
    assert (Hlt : (String.length stem <? String.length stem + S (String.length rest) - 1)%nat
                  = true).
    { apply Nat.ltb_lt. destruct rest; [contradiction|simpl; lia]. }
    rewrite Hpos, Hlt. simpl.
    replace (String.length stem + S (String.length rest) - String.length stem)
      with (String.length (String "." rest)) by (simpl; lia).
    apply substring_skip.
Qed.

Lemma tmp_character_plain (i : nat) :
  let c := nth (i mod 37) tmp_characters "a"%char in
  Ascii.eqb c "." = false /\ Ascii.eqb c "/" = false.
Proof.
  assert (Hall : forall k, (k < 37)%nat ->
            Ascii.eqb (nth k tmp_characters "a"%char) "." = false
            /\ Ascii.eqb (nth k tmp_characters "a"%char) "/" = false).
  { intros k Hk. do 37 (destruct k as [|k]; [split; reflexivity|]). lia. }
  apply Hall. apply Nat.mod_upper_bound. discriminate.
Qed.

Lemma random_name_plain (draws : list nat) :
  rfind_dot (random_name draws) = None /\ no_char "/" (random_name draws) = true.
Proof.
  unfold random_name. induction draws as [|i rest (IHd & IHs)]; [split; reflexivity|].
  destruct (tmp_character_plain i) as (Hd & Hs). simpl in *.
  rewrite IHd, IHs, Hd, Hs. split; reflexivity.
Qed.

Section WithEnv.
Context (env : Env).

Lemma mkstemp_inner_name (files : gmap string bytes) (candidates : list (list nat))
    (suffix p : string) :
  mkstemp_inner env files candidates suffix = Ok p ->
  exists draws, p = gettempdir env +:+ "/" +:+ "tmp" +:+ random_name draws +:+ suffix.
Proof.
  induction candidates as [|draws rest IH]; simpl; [discriminate|].
  set (q := gettempdir env +:+ "/" +:+ "tmp" +:+ random_name draws +:+ suffix).
  destruct (os_open_error env q); [discriminate|].
  destruct (files !! q); [exact IH|].
  intros [= <-]. exists draws. reflexivity.
Qed.

(** The temporary file made for an upload has the extension of the
    uploaded file name. *)
Lemma NamedTemporaryFile_keeps_suffix (name : string) (content : bytes) (w w1 : world)
    (p : string) :
  NamedTemporaryFile env (Path_suffix name) content w = (Ok p, w1) ->
  Path_suffix p = Path_suffix name.
Proof.
  unfold NamedTemporaryFile. run.
  destruct (mkstemp_inner env (fs w) _ (Path_suffix name)) as [q|e] eqn:Hm; [|discriminate].
  destruct (write_error env q content); [discriminate|].
  intros [= <- _]. destruct (mkstemp_inner_name _ _ _ _ Hm) as (draws & ->).
  destruct (random_name_plain draws) as (Hd & Hs).
  set (sfx := Path_suffix name).
  assert (Hshape : sfx = ""
            \/ exists rest, sfx = String "." rest /\ rest <> "" /\ rfind_dot rest = None)
    by apply name_suffix_shape.
  assert (Hsfx : no_char "/" sfx = true)
    by (apply name_suffix_no_slash, Path_name_no_slash).
  unfold Path_suffix at 1.
  change ("tmp" +:+ random_name draws +:+ sfx)
    with (String "t" (String "m" (String "p" (random_name draws +:+ sfx)))).
  rewrite Path_name_join.
  - change (String "t" (String "m" (String "p" (random_name draws +:+ sfx))))
      with (String "t" (String "m" (String "p" (random_name draws))) +:+ sfx).
    apply name_suffix_append; [discriminate| |exact Hshape].
    simpl. rewrite Hd. reflexivity.
  - simpl. rewrite no_char_app, Hs, Hsfx. reflexivity.
  - discriminate.
  - discriminate.
Qed.

End WithEnv.
End PathFacts.

(** C6: extraction chooses the parser from the lower-cased extension of the
    file name; [.pdf], [.docx] and [.txt] are the three it knows, and any
    other extension raises [Unsupported file type: <extension>] without
    opening the file or returning text. The temporary file staged for an
    upload carries the extension of the uploaded file name. *)
Theorem parse_file_dispatches_on_extension (env : Env) (file_path : string) (w : world) :
  let ext := Path_suffix file_path in
  (lower ext = ".pdf" ->
     fst (RegulatoryAnalyzer.parse_file env file_path w)
     = fst (RegulatoryAnalyzer._parse_pdf env file_path w))
  /\ (lower ext = ".docx" ->
     fst (RegulatoryAnalyzer.parse_file env file_path w)
     = fst (RegulatoryAnalyzer._parse_docx env file_path w))
  /\ (lower ext = ".txt" ->
     fst (RegulatoryAnalyzer.parse_file env file_path w)
     = fst (RegulatoryAnalyzer._parse_txt env file_path w))
  /\ (lower ext <> ".pdf" -> lower ext <> ".docx" -> lower ext <> ".txt" ->
     fst (RegulatoryAnalyzer.parse_file env file_path w)
     = Err (ValueError ("Unsupported file type: " +:+ ext))
     /\ trace (snd (RegulatoryAnalyzer.parse_file env file_path w)) = trace w
     /\ fs (snd (RegulatoryAnalyzer.parse_file env file_path w)) = fs w)
  /\ (forall name content w0 w1,
     NamedTemporaryFile env (Path_suffix name) content w0 = (Ok file_path, w1) ->
     ext = Path_suffix name).
Proof.
  intros ext. unfold RegulatoryAnalyzer.parse_file. fold ext.
  split; [|split; [|split; [|split]]].
  - intros H. rewrite H. simpl. unfold try_except.
    destruct (RegulatoryAnalyzer._parse_pdf env file_path w) as [[t|e] w']; reflexivity.
  - intros H. rewrite H. simpl. unfold try_except.
    destruct (RegulatoryAnalyzer._parse_docx env file_path w) as [[t|e] w']; reflexivity.
  - intros H. rewrite H. simpl. unfold try_except.
    destruct (RegulatoryAnalyzer._parse_txt env file_path w) as [[t|e] w']; reflexivity.
  - intros Hpdf Hdocx Htxt. apply String.eqb_neq in Hpdf, Hdocx, Htxt.
    rewrite Hpdf, Hdocx, Htxt. repeat split; reflexivity.
  - intros name content w0 w1 Ht.
    exact (PathFacts.NamedTemporaryFile_keeps_suffix env name content w0 w1 file_path Ht).
Qed.

(** ** The single-document handler, stage by stage *)

Module AppFacts.
Import RegulatoryAnalyzer App.




Lemma truthy_field_dict (m : gmap string pyval) (key : string) :
  truthy (field m key) = true -> truthy (PDict m) = true.
Proof.
  unfold field. destruct (m !! key) as [x|] eqn:Hl; [|discriminate].
  intros _. simpl. destruct (size m) eqn:Hs; [|reflexivity].
  apply map_size_empty_inv in Hs. subst m. rewrite lookup_empty in Hl. discriminate.
Qed.

Section WithEnv.
Context (env : Env).


Lemma analyze_no_data (data : pyval) (w : world) :
  truthy data = false ->
  analyze_document env (Ok data) w = (Ok (error_response "No JSON data provided" 400), w).
Proof. intros H. unfold analyze_document. monad. rewrite H. reflexivity. Qed.

Lemma analyze_missing_fields (m : gmap string pyval) (w : world) :
  truthy (PDict m) = true ->
  truthy (field m "fileContent") = false \/ truthy (field m "fileName") = false ->
  analyze_document env (Ok (PDict m)) w
  = (Ok (error_response "fileContent and fileName are required" 400), w).
Proof.
  intros Hd H. unfold analyze_document. monad. rewrite Hd.
  cbv [negb dict_get]. fold (field m "fileContent"). fold (field m "fileName").
  destruct H as [H|H]; rewrite H; [reflexivity|].
  destruct (truthy (field m "fileContent")); reflexivity.
Qed.

Lemma analyze_bad_base64 (m : gmap string pyval) (e : exn) (w : world) :
  truthy (field m "fileContent") = true ->
  truthy (field m "fileName") = true ->
  b64decode env (field m "fileContent") = Err e ->
  analyze_document env (Ok (PDict m)) w
  = (Ok (error_response ("Invalid base64 content: " +:+ exn_str e) 400), w).
Proof.
  intros Hc Hn Hb. unfold analyze_document. monad.
  rewrite (truthy_field_dict _ _ Hc).
  cbv [negb dict_get]. fold (field m "fileContent"). fold (field m "fileName").
  rewrite Hc, Hn, Hb. reflexivity.
Qed.

(** the handler from the point where the file is staged *)
Lemma analyze_staged (m : gmap string pyval) (w w1 : world) (name p : string)
    (content : bytes) :
  staged env m w name content p w1 ->
  analyze_document env (Ok (PDict m)) w
  = try_except
      (try_finally
         (document_text <- parse_file env p ;;
          if String.eqb (strip document_text) ""
          then ret (error_response "No text could be extracted from the document" 400)
          else
            analysis_result <- RegulatoryAnalyzer.analyze_document env document_text ;;
            processed_at <- now_isoformat env ;;
            ret (Response
                   (JSON (dict [("success", PBool true);
                                ("analysis", analysis_result);
                                ("processedAt", processed_at);
                                ("fileName", PStr name);
                                ("documentLength",
                                 PInt (Z.of_nat (String.length document_text)))]))
                   200))
         (try_except (os_unlink p) (fun _ => ret tt)))
      (fun e =>
         logger_error ("Error in analyze_document: " +:+ exn_str e) ;;;
         ret (error_response ("Internal server error: " +:+ exn_str e) 500)) w1.
Proof.
  intros (Hc & Hn & Hne & Hb & Ht). unfold analyze_document.
  cbv [bind ret raise lift try_except].
  rewrite (truthy_field_dict _ _ Hc).
  cbv [negb dict_get]. fold (field m "fileContent"). fold (field m "fileName").
  rewrite Hc, Hn, Hb.
  assert (Htr : truthy (PStr name) = true).
  { simpl. destruct (String.eqb_spec name ""); [contradiction|reflexivity]. }
  rewrite Htr. cbv [Path orb]. rewrite Ht. reflexivity.
Qed.

Lemma staged_file (m : gmap string pyval) (w w1 : world) (name p : string)
    (content : bytes) :
  staged env m w name content p w1 ->
  fs w !! p = None
  /\ w1 = World (<[p := content]> (fs w)) (S (clock w)) (trace w ++ [EvCreate p])%list
              (logged w).
Proof. intros (_ & _ & _ & _ & Ht). exact (FileFacts.NamedTemporaryFile_ok env _ _ _ _ _ Ht). Qed.

Lemma parsed_file_present (p : string) (content : bytes) (w1 w2 : world) (r : result string) :
  fs w1 !! p = Some content ->
  parse_file env p w1 = (r, w2) ->
  fs w2 !! p = Some content.
Proof.
  intros Hp Hr. pose proof (FileFacts.parse_file_effect env p w1) as (Hfs & _ & _).
  rewrite Hr in Hfs. simpl in Hfs. rewrite Hfs. exact Hp.
Qed.

Lemma analyzed_file_present (p text : string) (content : bytes) (w2 w3 : world)
    (r : result pyval) :
  fs w2 !! p = Some content ->
  RegulatoryAnalyzer.analyze_document env text w2 = (r, w3) ->
  fs w3 !! p = Some content.
Proof.
  intros Hp Hr. pose proof (AnalyzerFacts.analyze_document_effect env text w2) as (_ & Hfs).
  rewrite Hr in Hfs. simpl in Hfs. rewrite Hfs. exact Hp.
Qed.

Lemma staged_present (m : gmap string pyval) (w w1 : world) (name p : string)
    (content : bytes) :
  staged env m w name content p w1 -> fs w1 !! p = Some content.
Proof.
  intros H. destruct (staged_file _ _ _ _ _ _ H) as (_ & ->). simpl. apply lookup_insert_eq.
Qed.

(** Extraction raised: the file is removed and the answer is a 500. *)
Lemma analyze_extraction_error (m : gmap string pyval) (w w1 w2 : world) (name p : string)
    (content : bytes) (e : exn) :
  staged env m w name content p w1 ->
  parse_file env p w1 = (Err e, w2) ->
  analyze_document env (Ok (PDict m)) w
  = (Ok (error_response ("Internal server error: " +:+ exn_str e) 500),
     World (delete p (fs w2)) (clock w2) (trace w2 ++ [EvUnlink p])%list
           (logged w2 ++ ["Error in analyze_document: " +:+ exn_str e])%list).
Proof.
  intros Hs Hp. rewrite (analyze_staged _ _ _ _ _ _ Hs).
  pose proof (parsed_file_present _ _ _ _ _ (staged_present _ _ _ _ _ _ Hs) Hp) as Hf.
  monad. rewrite Hp. rewrite (FileFacts.os_unlink_present _ _ _ Hf). reflexivity.
Qed.

(** The extracted text is blank: the file is removed, the model is not
    called, and the answer is a 400. *)
Lemma analyze_blank_text (m : gmap string pyval) (w w1 w2 : world) (name p text : string)
    (content : bytes) :
  staged env m w name content p w1 ->
  parse_file env p w1 = (Ok text, w2) ->
  strip text = "" ->
  analyze_document env (Ok (PDict m)) w
  = (Ok (error_response "No text could be extracted from the document" 400),
     World (delete p (fs w2)) (clock w2) (trace w2 ++ [EvUnlink p])%list (logged w2)).
Proof.
  intros Hs Hp Hb. rewrite (analyze_staged _ _ _ _ _ _ Hs).
  pose proof (parsed_file_present _ _ _ _ _ (staged_present _ _ _ _ _ _ Hs) Hp) as Hf.
  monad. rewrite Hp, Hb. cbv [String.eqb].
  rewrite (FileFacts.os_unlink_present _ _ _ Hf). reflexivity.
Qed.

(** The analysis raised: the file is removed and the answer is a 500. *)
Lemma analyze_analysis_error (m : gmap string pyval) (w w1 w2 w3 : world)
    (name p text : string) (content : bytes) (e : exn) :
  staged env m w name content p w1 ->
  parse_file env p w1 = (Ok text, w2) ->
  strip text <> "" ->
  RegulatoryAnalyzer.analyze_document env text w2 = (Err e, w3) ->
  analyze_document env (Ok (PDict m)) w
  = (Ok (error_response ("Internal server error: " +:+ exn_str e) 500),
     World (delete p (fs w3)) (clock w3) (trace w3 ++ [EvUnlink p])%list
           (logged w3 ++ ["Error in analyze_document: " +:+ exn_str e])%list).
Proof.
  intros Hs Hp Hb Ha. rewrite (analyze_staged _ _ _ _ _ _ Hs).
  pose proof (parsed_file_present _ _ _ _ _ (staged_present _ _ _ _ _ _ Hs) Hp) as Hf.
  pose proof (analyzed_file_present _ _ _ _ _ _ Hf Ha) as Hf3.
  apply String.eqb_neq in Hb.
  monad. rewrite Hp, Hb, Ha. rewrite (FileFacts.os_unlink_present _ _ _ Hf3). reflexivity.
Qed.

(** Every stage passed: the answer is a 200 with the analysis. *)
Lemma analyze_success (m : gmap string pyval) (w w1 w2 w3 : world)
    (name p text : string) (content : bytes) (r : pyval) :
  staged env m w name content p w1 ->
  parse_file env p w1 = (Ok text, w2) ->
  strip text <> "" ->
  RegulatoryAnalyzer.analyze_document env text w2 = (Ok r, w3) ->
  analyze_document env (Ok (PDict m)) w
  = (Ok (Response
           (JSON (dict [("success", PBool true);
                        ("analysis", r);
                        ("processedAt", PStr (isoformat (datetime_now env (clock w3))));
                        ("fileName", PStr name);
                        ("documentLength", PInt (Z.of_nat (String.length text)))]))
           200),
     World (delete p (fs w3)) (S (clock w3)) (trace w3 ++ [EvUnlink p])%list (logged w3)).
Proof.
  intros Hs Hp Hb Ha. rewrite (analyze_staged _ _ _ _ _ _ Hs).
  pose proof (parsed_file_present _ _ _ _ _ (staged_present _ _ _ _ _ _ Hs) Hp) as Hf.
  pose proof (analyzed_file_present _ _ _ _ _ _ Hf Ha) as Hf3.
  apply String.eqb_neq in Hb.
  monad. rewrite Hp, Hb, Ha.
  rewrite (FileFacts.os_unlink_present _ _ (World (fs w3) (S (clock w3)) (trace w3) (logged w3)) Hf3).
  reflexivity.
Qed.

End WithEnv.
End AppFacts.

(** ** The discipline of temporary files *)


Module ScopeFacts.
Import RegulatoryAnalyzer App AppFacts.

Lemma temp_scoped_app (live : option string) (a b : list event) :
  temp_scoped live (a ++ b)
  = match temp_scoped live a with
    | Some live' => temp_scoped live' b
    | None => None
    end.
Proof.
  revert live. induction a as [|ev a IH]; intros live; [reflexivity|].
  destruct ev as [p|p|prompt|p], live as [q|]; simpl; try reflexivity; try apply IH.
  - destruct (String.eqb p q); [apply IH|reflexivity].
  - destruct (String.eqb p q); [apply IH|reflexivity].
Qed.

Section WithEnv.
Context (env : Env).

(** the same files, and a scoped run of events *)
Lemma cleans_up_files (w w' : world) (evs : list event) :
  fs w' = fs w -> trace w' = (trace w ++ evs)%list -> temp_scoped None evs = Some None ->
  cleans_up env w w'.
Proof.
  intros Hf Ht Hs. split; [|split].
  - intros q c. rewrite Hf. auto.
  - intros p Hnone Hsome. rewrite Hf in Hsome. contradiction.
  - exists evs. auto.
Qed.

Lemma cleans_up_refl (w w' : world) :
  fs w' = fs w -> trace w' = trace w -> cleans_up env w w'.
Proof.
  intros Hf Ht. apply (cleans_up_files w w' []); [exact Hf| |reflexivity].
  rewrite app_nil_r. exact Ht.
Qed.

Lemma cleans_up_trans (w1 w2 w3 : world) :
  cleans_up env w1 w2 -> cleans_up env w2 w3 -> cleans_up env w1 w3.
Proof.
  intros (Hk1 & Hn1 & e1 & Ht1 & Hs1) (Hk2 & Hn2 & e2 & Ht2 & Hs2). split; [|split].
  - intros q c Hq. apply Hk2, Hk1, Hq.
  - intros p Hnone Hsome. destruct (fs w2 !! p) as [c|] eqn:H2.
    + apply Hn1; [exact Hnone|]. rewrite H2. discriminate.
    + apply Hn2; assumption.
  - exists (e1 ++ e2)%list. split.
    + rewrite Ht2, Ht1, app_assoc. reflexivity.
    + rewrite temp_scoped_app, Hs1. exact Hs2.
Qed.

(** the clock and the log do not matter *)
Lemma cleans_up_same (w w1 w2 : world) :
  cleans_up env w w1 -> fs w2 = fs w1 -> trace w2 = trace w1 -> cleans_up env w w2.
Proof.
  intros (Hk & Hn & evs & Ht & Hs) Hf Htr. split; [|split].
  - intros q c Hq. rewrite Hf. apply Hk, Hq.
  - intros p Hnone Hsome. rewrite Hf in Hsome. apply Hn; assumption.
  - exists evs. rewrite Htr. auto.
Qed.

(** a staging that raises leaves at most the file it could not write *)
Lemma failed_staging_cleans_up (suffix : string) (content : bytes) (w w1 : world) (e : exn) :
  NamedTemporaryFile env suffix content w = (Err e, w1) -> cleans_up env w w1.
Proof.
  intros H. destruct (FileFacts.NamedTemporaryFile_err env _ _ _ _ _ H)
    as (_ & Ht & _ & [Hf|(p & Hfresh & Hw & Hf)]).
  - apply cleans_up_refl; assumption.
  - split; [|split].
    + intros q c Hq. rewrite Hf. rewrite lookup_insert_ne; [exact Hq|].
      intros ->. rewrite Hfresh in Hq. discriminate.
    + intros q Hnone Hsome. rewrite Hf in Hsome.
      destruct (decide (p = q)) as [<-|Hpq].
      * exists content, e. exact Hw.
      * rewrite lookup_insert_ne in Hsome by exact Hpq. contradiction.
    + exists []. rewrite app_nil_r. auto.
Qed.

(** the events between creating [p] and removing it *)
Lemma staged_run_scoped (p text : string) (content : bytes) (w w1 w2 w3 : world)
    (r : result string) (a : result pyval) :
  fs w !! p = None ->
  w1 = World (<[p := content]> (fs w)) (S (clock w)) (trace w ++ [EvCreate p])%list (logged w) ->
  parse_file env p w1 = (r, w2) ->
  (w3 = w2 \/ RegulatoryAnalyzer.analyze_document env text w2 = (a, w3)) ->
  forall c l, cleans_up env w (World (delete p (fs w3)) c (trace w3 ++ [EvUnlink p])%list l).
Proof.
  intros Hfresh -> Hp Ha c l.
  pose proof (FileFacts.parse_file_effect env p
    (World (<[p := content]> (fs w)) (S (clock w)) (trace w ++ [EvCreate p])%list (logged w)))
    as (Hf2 & _ & Ht2).
  rewrite Hp in Hf2, Ht2. simpl in Hf2, Ht2.
  assert (Hf3 : fs w3 = fs w2 /\ (trace w3 = trace w2
            \/ exists prompt, trace w3 = (trace w2 ++ [EvLLM prompt])%list)).
  { destruct Ha as [->|Ha]; [auto|].
    pose proof (AnalyzerFacts.analyze_document_effect env text w2) as (Ht & Hf).
    rewrite Ha in Ht, Hf. simpl in Ht, Hf. split; [exact Hf|]. right. eauto. }
  destruct Hf3 as (Hf3 & Ht3).
  assert (Hfs : delete p (fs w3) = fs w).
  { rewrite Hf3, Hf2. apply delete_insert_id. exact Hfresh. }
  destruct Ht2 as [Ht2|Ht2], Ht3 as [Ht3|(prompt & Ht3)];
    (eapply cleans_up_files; simpl;
     [exact Hfs
     |rewrite Ht3, Ht2; rewrite <- ?app_assoc; reflexivity
     |simpl; rewrite ?String.eqb_refl; reflexivity]).
Qed.

End WithEnv.
End ScopeFacts.



Module OutcomeFacts.
Import RegulatoryAnalyzer App AppFacts ScopeFacts.

Lemma error_response_fields (msg : string) (code : nat) :
  status (error_response msg code) = code
  /\ exists b, body (error_response msg code) = JSON (PDict b)
               /\ b !! "success" = Some (PBool false)
               /\ b !! "error" = Some (PStr msg).
Proof.
  split; [reflexivity|]. eexists. split; [reflexivity|].
  split; vm_compute; reflexivity.
Qed.

Section WithEnv.
Context (env : Env).

(** [data.get] on a value that is not a dict raises, and the answer is a 500. *)
Lemma analyze_not_dict (data : pyval) (w : world) :
  truthy data = true ->
  is_dict data = false ->
  analyze_document env (Ok data) w
  = (Ok (error_response
           ("Internal server error: '" +:+ type_name data
            +:+ "' object has no attribute 'get'") 500),
     World (fs w) (clock w) (trace w)
           (logged w ++ ["Error in analyze_document: '" +:+ type_name data
                         +:+ "' object has no attribute 'get'"])%list).
Proof.
  intros Hd Hdict. unfold analyze_document. cbv [bind ret raise lift try_except].
  rewrite Hd. destruct data; try discriminate; reflexivity.
Qed.

(** Whatever the request, the single-document handler answers 200 with
    [success: true], or 400 or 500 with [success: false] and a message, and
    it leaves behind no temporary file that it wrote. *)
Lemma analyze_document_outcome (req : result pyval) (w : world) :
  exists resp w',
    analyze_document env req w = (Ok resp, w')
    /\ (success_response resp \/ failure_response 400 resp \/ failure_response 500 resp)
    /\ cleans_up env w w'.
Proof.
  destruct req as [data|e].
  { destruct (truthy data) eqn:Hd.
    2:{ rewrite (analyze_no_data env data w Hd). eexists _, _. split; [reflexivity|].
        split; [right; left; eexists; reflexivity|]. apply cleans_up_refl; reflexivity. }
    destruct (is_dict data) eqn:Hdict.
    2:{ rewrite (analyze_not_dict data w Hd Hdict).
        eexists _, _. split; [reflexivity|].
        split; [right; right; eexists; reflexivity|]. apply cleans_up_refl; reflexivity. }
    destruct data as [|b|z|f|s|l|m]; try discriminate.
    destruct (truthy (field m "fileContent")) eqn:Hc.
    2:{ rewrite (analyze_missing_fields env m w Hd (or_introl Hc)).
        eexists _, _. split; [reflexivity|].
        split; [right; left; eexists; reflexivity|]. apply cleans_up_refl; reflexivity. }
    destruct (truthy (field m "fileName")) eqn:Hn.
    2:{ rewrite (analyze_missing_fields env m w Hd (or_intror Hn)).
        eexists _, _. split; [reflexivity|].
        split; [right; left; eexists; reflexivity|]. apply cleans_up_refl; reflexivity. }
    destruct (b64decode env (field m "fileContent")) as [content|e] eqn:Hb.
    2:{ rewrite (analyze_bad_base64 env m e w Hc Hn Hb).
        eexists _, _. split; [reflexivity|].
        split; [right; left; eexists; reflexivity|]. apply cleans_up_refl; reflexivity. }
    destruct (Path (field m "fileName")) as [name|e] eqn:Hpath.
    2:{ unfold analyze_document. cbv [bind ret raise lift try_except]. rewrite Hd.
        cbv [negb dict_get]. fold (field m "fileContent"). fold (field m "fileName").
        rewrite Hc, Hn, Hb, Hpath. cbv [orb].
        eexists _, _. split; [reflexivity|].
        split; [right; right; eexists; reflexivity|]. apply cleans_up_refl; reflexivity. }
    assert (Hname : field m "fileName" = PStr name).
    { destruct (field m "fileName"); try discriminate. injection Hpath as ->. reflexivity. }
    assert (Hne : name <> "").
    { intros ->. rewrite Hname in Hn. discriminate. }
    destruct (NamedTemporaryFile env (Path_suffix name) content w) as [[p|e] w1] eqn:Ht.
    2:{ unfold analyze_document. cbv [bind ret raise lift try_except]. rewrite Hd.
        cbv [negb dict_get]. fold (field m "fileContent"). fold (field m "fileName").
        rewrite Hc, Hn, Hb, Hpath. cbv [orb]. rewrite Ht.
        eexists _, _. split; [reflexivity|].
        split; [right; right; eexists; reflexivity|].
        exact (cleans_up_same env _ _ _ (failed_staging_cleans_up env _ _ _ _ _ Ht)
                 eq_refl eq_refl). }
    assert (Hs : staged env m w name content p w1) by (repeat split; assumption).
    destruct (staged_file env _ _ _ _ _ _ Hs) as (Hfresh & Hw1).
    destruct (parse_file env p w1) as [[text|e] w2] eqn:Hp.
    2:{ rewrite (analyze_extraction_error env _ _ _ _ _ _ _ _ Hs Hp).
        eexists _, _. split; [reflexivity|].
        split; [right; right; eexists; reflexivity|].
        exact (staged_run_scoped env p "" content w w1 w2 w2 _ (Ok PNone)
                 Hfresh Hw1 Hp (or_introl eq_refl) _ _). }
    destruct (String.eqb_spec (strip text) "") as [Hblank|Hblank].
    { rewrite (analyze_blank_text env _ _ _ _ _ _ _ _ Hs Hp Hblank).
      eexists _, _. split; [reflexivity|].
      split; [right; left; eexists; reflexivity|].
      exact (staged_run_scoped env p "" content w w1 w2 w2 _ (Ok PNone)
               Hfresh Hw1 Hp (or_introl eq_refl) _ _). }
    destruct (RegulatoryAnalyzer.analyze_document env text w2) as [[r|e] w3] eqn:Ha.
    - rewrite (analyze_success env _ _ _ _ _ _ _ _ _ _ Hs Hp Hblank Ha).
      eexists _, _. split; [reflexivity|]. split.
      + left. split; [reflexivity|]. eexists. split; [reflexivity|].
        vm_compute. reflexivity.
      + exact (staged_run_scoped env p text content w w1 w2 w3 _ _
                 Hfresh Hw1 Hp (or_intror Ha) _ _).
    - rewrite (analyze_analysis_error env _ _ _ _ _ _ _ _ _ _ Hs Hp Hblank Ha).
      eexists _, _. split; [reflexivity|].
      split; [right; right; eexists; reflexivity|].
      exact (staged_run_scoped env p text content w w1 w2 w3 _ _
               Hfresh Hw1 Hp (or_intror Ha) _ _). }
  eexists _, _. split; [reflexivity|].
  split; [right; right; eexists; reflexivity|]. apply cleans_up_refl; reflexivity.
Qed.

End WithEnv.
End OutcomeFacts.

(** ** The batch handler *)


Module BatchFacts.
Import RegulatoryAnalyzer App AppFacts ScopeFacts.


Section WithEnv.
Context (env : Env).

Ltac records := unfold process_document, failure_record, success_record, file_name_or_unknown.

(** One document that is a JSON object: exactly one record is appended,
    whatever happens to it; the record and the world after it do not depend
    on the records before. *)
Lemma process_document_dict (m : gmap string pyval) (w : world) :
  exists entry w',
    (forall results,
        process_document env (PDict m) (w, results) = (Ok tt, (w', results ++ [entry])%list))
    /\ document_record env m w entry w'
    /\ cleans_up env w w'.
Proof.
  destruct (m !! "fileContent") as [fc|] eqn:Hfc.
  2:{ exists (failure_record m "'fileContent'"), w. split; [|split].
      - intros results. records. batch_monad. rewrite Hfc. reflexivity.
      - apply record_no_content. exact Hfc.
      - apply cleans_up_refl; reflexivity. }
  destruct (b64decode env fc) as [content|e] eqn:Hb.
  2:{ exists (failure_record m (exn_str e)), w. split; [|split].
      - intros results. records. batch_monad. rewrite Hfc, Hb. reflexivity.
      - exact (record_bad_base64 env m w fc e Hfc Hb).
      - apply cleans_up_refl; reflexivity. }
  destruct (m !! "fileName") as [fn|] eqn:Hfn.
  2:{ exists (failure_record m "'fileName'"), w. split; [|split].
      - intros results. records. batch_monad. rewrite Hfc, Hb, Hfn. reflexivity.
      - exact (record_no_name env m w fc content Hfc Hb Hfn).
      - apply cleans_up_refl; reflexivity. }
  destruct (Path fn) as [name|e] eqn:Hpath.
  2:{ exists (failure_record m (exn_str e)), w. split; [|split].
      - intros results. records. batch_monad. rewrite Hfc, Hb, Hfn, Hpath. reflexivity.
      - exact (record_bad_name env m w fc fn content e Hfc Hb Hfn Hpath).
      - apply cleans_up_refl; reflexivity. }
  destruct (NamedTemporaryFile env (Path_suffix name) content w) as [[p|e] w1] eqn:Ht.
  2:{ exists (failure_record m (exn_str e)), w1. split; [|split].
      - intros results. records. batch_monad. rewrite Hfc, Hb, Hfn, Hpath, Ht. reflexivity.
      - exact (record_staging_failed env m w fc fn content name e w1 Hfc Hb Hfn Hpath Ht).
      - exact (failed_staging_cleans_up env _ _ _ _ _ Ht). }
  destruct (FileFacts.NamedTemporaryFile_ok env _ _ _ _ _ Ht) as (Hfresh & Hw1).
  assert (Hf1 : fs w1 !! p = Some content) by (rewrite Hw1; apply lookup_insert_eq).
  destruct (parse_file env p w1) as [[text|e] w2] eqn:Hp.
  2:{ pose proof (parsed_file_present env _ _ _ _ _ Hf1 Hp) as Hf2.
      exists (failure_record m (exn_str e)), (unlinked p w2). split; [|split].
      - intros results. records. batch_monad. rewrite Hfc, Hb, Hfn, Hpath, Ht, Hp.
        rewrite (FileFacts.os_unlink_present _ _ _ Hf2). reflexivity.
      - exact (record_extraction_failed env m w fc fn content name p e w1 w2
                 Hfc Hb Hfn Hpath Ht Hp).
      - exact (staged_run_scoped env p "" content w w1 w2 w2 _ (Ok PNone)
                 Hfresh Hw1 Hp (or_introl eq_refl) _ _). }
  pose proof (parsed_file_present env _ _ _ _ _ Hf1 Hp) as Hf2.
  destruct (RegulatoryAnalyzer.analyze_document env text w2) as [[r|e] w3] eqn:Ha.
  - pose proof (analyzed_file_present env _ _ _ _ _ _ Hf2 Ha) as Hf3.
    exists (success_record m r), (unlinked p w3). split; [|split].
    + intros results. records. batch_monad. rewrite Hfc, Hb, Hfn, Hpath, Ht, Hp, Ha.
      rewrite (FileFacts.os_unlink_present _ _ _ Hf3). reflexivity.
    + exact (record_analysed env m w fc fn content name p text r w1 w2 w3
               Hfc Hb Hfn Hpath Ht Hp Ha).
    + exact (staged_run_scoped env p text content w w1 w2 w3 _ _
               Hfresh Hw1 Hp (or_intror Ha) _ _).
  - pose proof (analyzed_file_present env _ _ _ _ _ _ Hf2 Ha) as Hf3.
    exists (failure_record m (exn_str e)), (unlinked p w3). split; [|split].
    + intros results. records. batch_monad. rewrite Hfc, Hb, Hfn, Hpath, Ht, Hp, Ha.
      rewrite (FileFacts.os_unlink_present _ _ _ Hf3). reflexivity.
    + exact (record_analysis_failed env m w fc fn content name p text e w1 w2 w3
               Hfc Hb Hfn Hpath Ht Hp Ha).
    + exact (staged_run_scoped env p text content w w1 w2 w3 _ _
               Hfresh Hw1 Hp (or_intror Ha) _ _).
Qed.

(** The loop over documents that are all JSON objects never stops early:
    one record per document, in the order of the documents. *)
Lemma for_documents_dicts (documents : list pyval) :
  Forall (fun doc => is_dict doc = true) documents ->
  forall w,
  exists entries w',
    (forall results,
        for_documents env documents (w, results) = (Ok tt, (w', results ++ entries)%list))
    /\ batch_records env w documents entries w'
    /\ cleans_up env w w'.
Proof.
  induction 1 as [|doc rest Hdoc Hrest IH]; intros w.
  - exists [], w. split; [|split].
    + intros results. rewrite app_nil_r. reflexivity.
    + constructor.
    + apply cleans_up_refl; reflexivity.
  - destruct doc as [| | | | | |m]; try discriminate.
    destruct (process_document_dict m w) as (entry & w1 & Hrun & Hentry & Hclean).
    destruct (IH w1) as (entries & w2 & Hloop & Hall & Hclean2).
    exists (entry :: entries), w2. split; [|split].
    + intros results. simpl. unfold bind at 1. rewrite Hrun, Hloop.
      rewrite <- app_assoc. reflexivity.
    + exact (records_next env w w1 w2 m entry rest entries Hentry Hall).
    + exact (cleans_up_trans env _ _ _ Hclean Hclean2).
Qed.

(** The cases of [document_record] exclude one another: a document has one
    record in a world, and leaves one world. *)
Lemma document_record_functional (m : gmap string pyval) (w w1 w2 : world)
    (entry1 entry2 : pyval) :
  document_record env m w entry1 w1 ->
  document_record env m w entry2 w2 ->
  entry1 = entry2 /\ w1 = w2.
Proof.
  intros H1 H2. destruct H1; destruct H2;
    repeat match goal with
           | Ha : ?x = _, Hb : ?x = _ |- _ =>
               rewrite Ha in Hb; first [discriminate Hb | injection Hb as ?; subst]
           end;
    try discriminate; auto.
Qed.

Lemma batch_records_functional (w w1 w2 : world) (documents entries1 entries2 : list pyval) :
  batch_records env w documents entries1 w1 ->
  batch_records env w documents entries2 w2 ->
  entries1 = entries2 /\ w1 = w2.
Proof.
  intros H1. revert entries2 w2.
  induction H1 as [w|w w1 w3 m entry rest entries Hrec Hrest IH]; intros entries2 w2 H2.
  - inversion H2; subst. auto.
  - inversion H2 as [|? v1 ? ? entry' ? entries' Hrec' Hrest']; subst.
    destruct (document_record_functional _ _ _ _ _ _ Hrec Hrec') as (-> & <-).
    destruct (IH _ _ Hrest') as (-> & ->). auto.
Qed.

Lemma batch_records_length (w w' : world) (documents entries : list pyval) :
  batch_records env w documents entries w' -> length entries = length documents.
Proof. induction 1; simpl; congruence. Qed.

End WithEnv.
End BatchFacts.

(** ** A document processed among others and processed alone *)

Module SteadyFacts.
Import RegulatoryAnalyzer App AppFacts ScopeFacts.

Section WithEnv.
Context (env : Env).
Hypothesis Hsteady : steady env.

(** The staging of some bytes in two worlds with the same files picks the
    same name and ends the same way. *)
Lemma NamedTemporaryFile_steady (suffix : string) (content : bytes) (w v : world) :
  fs v = fs w ->
  fst (NamedTemporaryFile env suffix content v) = fst (NamedTemporaryFile env suffix content w)
  /\ fs (snd (NamedTemporaryFile env suffix content v))
     = fs (snd (NamedTemporaryFile env suffix content w)).
Proof.
  destruct Hsteady as (_ & _ & Hrng & Hwrite).
  intros Hf. unfold NamedTemporaryFile. run.
  rewrite (Hrng (clock v)), (Hrng (clock w)), Hf.
  destruct (mkstemp_inner env (fs w) (rng_choices env 0) suffix) as [q|e]; simpl.
  - rewrite Hwrite. simpl. auto.
  - auto.
Qed.

(** A staging that raises leaves the files as they were. *)
Lemma NamedTemporaryFile_err_steady (suffix : string) (content : bytes) (w w1 : world)
    (e : exn) :
  NamedTemporaryFile env suffix content w = (Err e, w1) -> fs w1 = fs w.
Proof.
  destruct Hsteady as (_ & _ & _ & Hwrite).
  intros H. destruct (FileFacts.NamedTemporaryFile_err env _ _ _ _ _ H)
    as (_ & _ & _ & [Hf|(p & _ & Hw & _)]); [exact Hf|].
  rewrite Hwrite in Hw. discriminate.
Qed.

(** The extraction reads the files only. *)
Lemma parse_file_same_files (p : string) (w v : world) :
  fs v = fs w ->
  fst (parse_file env p v) = fst (parse_file env p w).
Proof.
  intros Hf. unfold parse_file, _parse_pdf, _parse_docx, _parse_txt, open_file. run.
  destruct (String.eqb (lower (Path_suffix p)) ".pdf").
  { rewrite Hf. destruct (fs w !! p); simpl; [|reflexivity].
    destruct (PdfReader_pages env b); simpl; [|reflexivity].
    destruct (concat_pages a ""); reflexivity. }
  destruct (String.eqb (lower (Path_suffix p)) ".docx").
  { rewrite Hf. destruct (fs w !! p); simpl; [|reflexivity].
    destruct (Document_paragraphs env b); reflexivity. }
  destruct (String.eqb (lower (Path_suffix p)) ".txt").
  { rewrite Hf. destruct (fs w !! p); simpl; [|reflexivity].
    destruct (read_utf8 env b); reflexivity. }
  reflexivity.
Qed.

(** The analysis of a text gives the same result in every world. *)
Lemma analyze_document_steady (text : string) (w v : world) :
  fst (RegulatoryAnalyzer.analyze_document env text v)
  = fst (RegulatoryAnalyzer.analyze_document env text w).
Proof.
  destruct Hsteady as (Hllm & Hnow & _ & _).
  unfold RegulatoryAnalyzer.analyze_document. run.
  rewrite (Hllm (clock v)), (Hllm (clock w)).
  destruct (messages_create env 0 (analysis_prompt text)) as [reply|e]; simpl; [|reflexivity].
  destruct (json_loads env reply) as [r|e]; simpl; [|reflexivity].
  rewrite (Hnow (S (clock v))), (Hnow (S (clock w))).
  destruct (setitem r "analysis_timestamp" _) as [r1|e]; simpl; [|reflexivity].
  destruct (setitem r1 "document_length" _) as [r2|e]; reflexivity.
Qed.

(** The record of a document depends on the files of the world only, and
    the files are the same after it. *)
Lemma document_record_steady (m : gmap string pyval) (w w1 : world) (entry : pyval) :
  document_record env m w entry w1 ->
  fs w1 = fs w
  /\ forall v, fs v = fs w -> exists v1, document_record env m v entry v1.
Proof.
  intros Hrec. destruct Hrec
    as [Hfc|fc e Hfc Hb|fc content Hfc Hb Hfn|fc fn content e Hfc Hb Hfn Hpath
       |fc fn content name e w1 Hfc Hb Hfn Hpath Ht
       |fc fn content name p e w1 w2 Hfc Hb Hfn Hpath Ht Hp
       |fc fn content name p text e w1 w2 w3 Hfc Hb Hfn Hpath Ht Hp Ha
       |fc fn content name p text r w1 w2 w3 Hfc Hb Hfn Hpath Ht Hp Ha].
  - split; [reflexivity|]. intros v _. exists v. apply record_no_content. exact Hfc.
  - split; [reflexivity|]. intros v _. exists v.
    exact (record_bad_base64 env m v fc e Hfc Hb).
  - split; [reflexivity|]. intros v _. exists v.
    exact (record_no_name env m v fc content Hfc Hb Hfn).
  - split; [reflexivity|]. intros v _. exists v.
    exact (record_bad_name env m v fc fn content e Hfc Hb Hfn Hpath).
  - split; [exact (NamedTemporaryFile_err_steady _ _ _ _ _ Ht)|]. intros v Hv.
    destruct (NamedTemporaryFile_steady (Path_suffix name) content w v Hv) as (Hr & _).
    destruct (NamedTemporaryFile env (Path_suffix name) content v) as [r v1] eqn:Hv1.
    rewrite Ht in Hr. simpl in Hr. subst r. exists v1.
    exact (record_staging_failed env m v fc fn content name e v1 Hfc Hb Hfn Hpath Hv1).
  - destruct (FileFacts.NamedTemporaryFile_ok env _ _ _ _ _ Ht) as (Hfresh & Hw1).
    pose proof (FileFacts.parse_file_effect env p w1) as (Hf2 & _).
    rewrite Hp in Hf2. simpl in Hf2.
    split.
    { simpl. rewrite Hf2, Hw1. simpl. apply delete_insert_id. exact Hfresh. }
    intros v Hv.
    destruct (NamedTemporaryFile_steady (Path_suffix name) content w v Hv) as (Hr & Hfv).
    destruct (NamedTemporaryFile env (Path_suffix name) content v) as [r v1] eqn:Hv1.
    rewrite Ht in Hr, Hfv. simpl in Hr, Hfv. subst r.
    pose proof (parse_file_same_files p w1 v1 Hfv) as Hpv.
    destruct (parse_file env p v1) as [r2 v2] eqn:Hv2.
    rewrite Hp in Hpv. simpl in Hpv. subst r2.
    exists (unlinked p v2).
    exact (record_extraction_failed env m v fc fn content name p e v1 v2
             Hfc Hb Hfn Hpath Hv1 Hv2).
  - destruct (FileFacts.NamedTemporaryFile_ok env _ _ _ _ _ Ht) as (Hfresh & Hw1).
    pose proof (FileFacts.parse_file_effect env p w1) as (Hf2 & _).
    rewrite Hp in Hf2. simpl in Hf2.
    pose proof (AnalyzerFacts.analyze_document_effect env text w2) as (_ & Hf3).
    rewrite Ha in Hf3. simpl in Hf3.
    split.
    { simpl. rewrite Hf3, Hf2, Hw1. simpl. apply delete_insert_id. exact Hfresh. }
    intros v Hv.
    destruct (NamedTemporaryFile_steady (Path_suffix name) content w v Hv) as (Hr & Hfv).
    destruct (NamedTemporaryFile env (Path_suffix name) content v) as [r v1] eqn:Hv1.
    rewrite Ht in Hr, Hfv. simpl in Hr, Hfv. subst r.
    pose proof (parse_file_same_files p w1 v1 Hfv) as Hpv.
    destruct (parse_file env p v1) as [r2 v2] eqn:Hv2.
    rewrite Hp in Hpv. simpl in Hpv. subst r2.
    pose proof (analyze_document_steady text w2 v2) as Hav.
    destruct (RegulatoryAnalyzer.analyze_document env text v2) as [r3 v3] eqn:Hv3.
    rewrite Ha in Hav. simpl in Hav. subst r3.
    exists (unlinked p v3).
    exact (record_analysis_failed env m v fc fn content name p text e v1 v2 v3
             Hfc Hb Hfn Hpath Hv1 Hv2 Hv3).
  - destruct (FileFacts.NamedTemporaryFile_ok env _ _ _ _ _ Ht) as (Hfresh & Hw1).
    pose proof (FileFacts.parse_file_effect env p w1) as (Hf2 & _).
    rewrite Hp in Hf2. simpl in Hf2.
    pose proof (AnalyzerFacts.analyze_document_effect env text w2) as (_ & Hf3).
    rewrite Ha in Hf3. simpl in Hf3.
    split.
    { simpl. rewrite Hf3, Hf2, Hw1. simpl. apply delete_insert_id. exact Hfresh. }
    intros v Hv.
    destruct (NamedTemporaryFile_steady (Path_suffix name) content w v Hv) as (Hr & Hfv).
    destruct (NamedTemporaryFile env (Path_suffix name) content v) as [r0 v1] eqn:Hv1.
    rewrite Ht in Hr, Hfv. simpl in Hr, Hfv. subst r0.
    pose proof (parse_file_same_files p w1 v1 Hfv) as Hpv.
    destruct (parse_file env p v1) as [r2 v2] eqn:Hv2.
    rewrite Hp in Hpv. simpl in Hpv. subst r2.
    pose proof (analyze_document_steady text w2 v2) as Hav.
    destruct (RegulatoryAnalyzer.analyze_document env text v2) as [r3 v3] eqn:Hv3.
    rewrite Ha in Hav. simpl in Hav. subst r3.
    exists (unlinked p v3).
    exact (record_analysed env m v fc fn content name p text r v1 v2 v3
             Hfc Hb Hfn Hpath Hv1 Hv2 Hv3).
Qed.

(** Each record of a run is the record its document gets in the world the
    run started in. *)
Lemma batch_records_alone (w w' : world) (documents entries : list pyval) :
  batch_records env w documents entries w' ->
  forall v, fs v = fs w -> Forall2 (processed_alone env v) documents entries.
Proof.
  induction 1 as [w|w w1 w2 m entry rest entries Hrec Hrest IH]; intros v Hv.
  - constructor.
  - destruct (document_record_steady m w w1 entry Hrec) as (Hf1 & Hany).
    constructor.
    + destruct (Hany v Hv) as (v1 & Hv1). exists m, v1. auto.
    + apply IH. rewrite Hf1. exact Hv.
Qed.

End WithEnv.
End SteadyFacts.

Module BatchCleanup.
Import RegulatoryAnalyzer App AppFacts ScopeFacts BatchFacts.

Section WithEnv.
Context (env : Env).

(** A document that is not a JSON object: indexing it raises, and so does
    [doc.get] in the handler; nothing was staged. *)
Lemma process_document_not_dict (doc : pyval) (w : world) (results : list pyval) :
  is_dict doc = false ->
  process_document env doc (w, results)
  = (Err (AttributeError ("'" +:+ type_name doc +:+ "' object has no attribute 'get'")),
     (w, results)).
Proof. intros H. destruct doc; try discriminate; reflexivity. Qed.

Lemma for_documents_cleans_up (documents : list pyval) (w : world) (results : list pyval) :
  cleans_up env w (fst (snd (for_documents env documents (w, results)))).
Proof.
  revert w results. induction documents as [|doc rest IH]; intros w results.
  - apply cleans_up_refl; reflexivity.
  - simpl. unfold bind at 1. destruct (is_dict doc) eqn:Hd.
    + destruct doc as [| | | | | |m]; try discriminate.
      destruct (process_document_dict env m w) as (entry & w1 & Hrun & _ & Hclean).
      rewrite Hrun. exact (cleans_up_trans env _ _ _ Hclean (IH w1 _)).
    + rewrite (process_document_not_dict doc w results Hd).
      apply cleans_up_refl; reflexivity.
Qed.

(** The batch handler leaves behind no temporary file that it wrote,
    whatever the request. *)
Lemma batch_analyze_cleans_up (req : result pyval) (w : world) :
  cleans_up env w (snd (batch_analyze env req w)).
Proof.
  unfold batch_analyze. cbv [bind ret raise lift try_except now_isoformat tick logger_error].
  destruct req as [data|e]; [|apply cleans_up_refl; reflexivity].
  destruct (dict_get data "documents" (PList [])) as [documents|e];
    [|apply cleans_up_refl; reflexivity].
  destruct (truthy documents); [|apply cleans_up_refl; reflexivity].
  cbv [negb]. destruct (iterate documents) as [items|e]; [|apply cleans_up_refl; reflexivity].
  unfold with_results.
  pose proof (for_documents_cleans_up items w []) as Hloop.
  destruct (for_documents env items (w, [])) as [[[]|e] [w1 results]]; simpl in Hloop.
  - destruct (len documents) as [total|e]; simpl;
      exact (cleans_up_same env _ _ _ Hloop eq_refl eq_refl).
  - simpl. exact (cleans_up_same env _ _ _ Hloop eq_refl eq_refl).
Qed.

End WithEnv.
End BatchCleanup.


(** C4 (the batch loop does not check for blank text): for a batch entry
    whose bytes decode and are staged, and whose extraction yields blank
    text, the loop body still calls the model with that text before it
    removes the file. *)
Theorem batch_entry_blank_text_still_analysed
    (env : Env) (m : gmap string pyval) (fc : pyval) (content : bytes)
    (name p text : string) (w w1 w2 : world) (results : list pyval) :
  m !! "fileContent" = Some fc ->
  b64decode env fc = Ok content ->
  m !! "fileName" = Some (PStr name) ->
  NamedTemporaryFile env (Path_suffix name) content w = (Ok p, w1) ->
  RegulatoryAnalyzer.parse_file env p w1 = (Ok text, w2) ->
  strip text = "" ->
  trace (fst (snd (App.process_document env (PDict m) (w, results))))
  = (trace w2 ++ [EvLLM (RegulatoryAnalyzer.analysis_prompt text); EvUnlink p])%list.
Proof.
  intros Hfc Hb Hfn Ht Hp _.
  destruct (FileFacts.NamedTemporaryFile_ok env _ _ _ _ _ Ht) as (Hfresh & Hw1).
  assert (Hf1 : fs w1 !! p = Some content) by (rewrite Hw1; apply lookup_insert_eq).
  pose proof (AppFacts.parsed_file_present env _ _ _ _ _ Hf1 Hp) as Hf2.
  pose proof (AnalyzerFacts.analyze_document_effect env text w2) as (Htr & Hfs).
  destruct (RegulatoryAnalyzer.analyze_document env text w2) as [[r|e] w3] eqn:Ha;
    simpl in Htr, Hfs;
    assert (Hf3 : fs w3 !! p = Some content) by (rewrite Hfs; exact Hf2);
    unfold App.process_document; batch_monad;
    rewrite Hfc, Hb, Hfn; cbv [Path]; rewrite Ht, Hp, Ha;
    rewrite (FileFacts.os_unlink_present _ _ _ Hf3); simpl;
    rewrite Htr, <- app_assoc; reflexivity.
Qed.

(** C5: a reply that is not valid JSON makes the analysis raise, with no
    result, and the single-document handler answers 500; a reply that parses
    to a JSON object is accepted whatever its keys. *)
Theorem non_json_reply_fails_analysis (env : Env) :
  (forall text reply e w,
      messages_create env (clock w) (RegulatoryAnalyzer.analysis_prompt text) = Ok reply ->
      json_loads env reply = Err e ->
      fst (RegulatoryAnalyzer.analyze_document env text w) = Err e)
  /\ (forall m w w1 w2 name p content text reply e,
      staged env m w name content p w1 ->
      RegulatoryAnalyzer.parse_file env p w1 = (Ok text, w2) ->
      strip text <> "" ->
      messages_create env (clock w2) (RegulatoryAnalyzer.analysis_prompt text) = Ok reply ->
      json_loads env reply = Err e ->
      fst (App.analyze_document env (Ok (PDict m)) w)
      = Ok (App.error_response ("Internal server error: " +:+ exn_str e) 500))
  /\ (forall text reply (m : gmap string pyval) w,
      messages_create env (clock w) (RegulatoryAnalyzer.analysis_prompt text) = Ok reply ->
      json_loads env reply = Ok (PDict m) ->
      exists r, fst (RegulatoryAnalyzer.analyze_document env text w) = Ok (PDict r)
                /\ forall k, k ∉ metadata_keys -> r !! k = m !! k).
Proof.
  split; [|split].
  - intros text reply e w Hc Hj.
    rewrite (AnalyzerFacts.analyze_document_bad_json env text reply e w Hc Hj). reflexivity.
  - intros m w w1 w2 name p content text reply e Hs Hp Hb Hc Hj.
    pose proof (AnalyzerFacts.analyze_document_bad_json env text reply e w2 Hc Hj) as Ha.
    rewrite (AppFacts.analyze_analysis_error env _ _ _ _ _ _ _ _ _ _ Hs Hp Hb Ha).
    reflexivity.
  - intros text reply m w Hc Hj.
    rewrite (AnalyzerFacts.analyze_document_ok env text reply m w Hc Hj).
    eexists. split; [reflexivity|].
    intros k Hk. unfold metadata_keys in Hk. simpl in Hk.
    rewrite !lookup_insert_ne; [reflexivity| |]; intros <-; apply Hk; set_solver.
Qed.

(** C7: [POST /analyze] checks, in this order, that both fields are there,
    that the content decodes as base64, that the extracted text is not
    blank, and that the analysis succeeds. Each of the first three failures
    has its own message and status 400; a failure of extraction or of the
    analysis gives 500; every answer other than the 200 carries
    [success: false] and an [error] string. *)
Theorem analyze_validation_order (env : Env) :
  (forall m w,
      truthy (PDict m) = true ->
      truthy (field m "fileContent") = false
      \/ truthy (field m "fileName") = false ->
      App.analyze_document env (Ok (PDict m)) w
      = (Ok (App.error_response "fileContent and fileName are required" 400), w))
  /\ (forall m e w,
      truthy (field m "fileContent") = true ->
      truthy (field m "fileName") = true ->
      b64decode env (field m "fileContent") = Err e ->
      App.analyze_document env (Ok (PDict m)) w
      = (Ok (App.error_response ("Invalid base64 content: " +:+ exn_str e) 400), w))
  /\ (forall m w w1 w2 name p content text,
      staged env m w name content p w1 ->
      RegulatoryAnalyzer.parse_file env p w1 = (Ok text, w2) ->
      strip text = "" ->
      fst (App.analyze_document env (Ok (PDict m)) w)
      = Ok (App.error_response "No text could be extracted from the document" 400))
  /\ (forall m w w1 w2 name p content e,
      staged env m w name content p w1 ->
      RegulatoryAnalyzer.parse_file env p w1 = (Err e, w2) ->
      fst (App.analyze_document env (Ok (PDict m)) w)
      = Ok (App.error_response ("Internal server error: " +:+ exn_str e) 500))
  /\ (forall m w w1 w2 w3 name p content text e,
      staged env m w name content p w1 ->
      RegulatoryAnalyzer.parse_file env p w1 = (Ok text, w2) ->
      strip text <> "" ->
      RegulatoryAnalyzer.analyze_document env text w2 = (Err e, w3) ->
      fst (App.analyze_document env (Ok (PDict m)) w)
      = Ok (App.error_response ("Internal server error: " +:+ exn_str e) 500))
  /\ (forall m w w1 w2 w3 name p content text r,
      staged env m w name content p w1 ->
      RegulatoryAnalyzer.parse_file env p w1 = (Ok text, w2) ->
      strip text <> "" ->
      RegulatoryAnalyzer.analyze_document env text w2 = (Ok r, w3) ->
      exists resp, fst (App.analyze_document env (Ok (PDict m)) w) = Ok resp
                   /\ success_response resp)
  /\ (forall req w,
      exists resp, fst (App.analyze_document env req w) = Ok resp
                   /\ (success_response resp
                       \/ failure_response 400 resp \/ failure_response 500 resp))
  /\ (forall msg code,
      status (App.error_response msg code) = code
      /\ exists b, body (App.error_response msg code) = JSON (PDict b)
                   /\ b !! "success" = Some (PBool false)
                   /\ b !! "error" = Some (PStr msg))
  /\ (forall detail,
      "fileContent and fileName are required" <> "Invalid base64 content: " +:+ detail
      /\ "fileContent and fileName are required"
         <> "No text could be extracted from the document"
      /\ "Invalid base64 content: " +:+ detail
         <> "No text could be extracted from the document").
Proof.
  repeat apply conj.
  - intros m w Hd H. exact (AppFacts.analyze_missing_fields env m w Hd H).
  - intros m e w Hc Hn Hb. exact (AppFacts.analyze_bad_base64 env m e w Hc Hn Hb).
  - intros m w w1 w2 name p content text Hs Hp Hb.
    rewrite (AppFacts.analyze_blank_text env _ _ _ _ _ _ _ _ Hs Hp Hb). reflexivity.
  - intros m w w1 w2 name p content e Hs Hp.
    rewrite (AppFacts.analyze_extraction_error env _ _ _ _ _ _ _ _ Hs Hp). reflexivity.
  - intros m w w1 w2 w3 name p content text e Hs Hp Hb Ha.
    rewrite (AppFacts.analyze_analysis_error env _ _ _ _ _ _ _ _ _ _ Hs Hp Hb Ha).
    reflexivity.
  - intros m w w1 w2 w3 name p content text r Hs Hp Hb Ha.
    rewrite (AppFacts.analyze_success env _ _ _ _ _ _ _ _ _ _ Hs Hp Hb Ha).
    eexists. split; [reflexivity|]. split; [reflexivity|].
    eexists. split; [reflexivity|]. vm_compute. reflexivity.
  - intros req w.
    destruct (OutcomeFacts.analyze_document_outcome env req w) as (resp & w' & Hr & Hshape & _).
    exists resp. rewrite Hr. auto.
  - intros msg code. apply OutcomeFacts.error_response_fields.
  - intros detail. repeat split; discriminate.
Qed.


(** C9: a request that matches no route is answered by the 404 handler:
    status 404 and a JSON body that lists [/analyze], [/batch-analyze],
    [/health] and [/test]. *)
Theorem unmatched_route_lists_endpoints (env : Env) (r : request) (w : world) :
  url_match env App.url_map (method r) (path r) = RoutingNotFound ->
  exists b,
    App.full_dispatch_request env r w = (Ok (Response (JSON (PDict b)) 404), w)
    /\ b !! "available_endpoints"
       = Some (PList [PStr "/analyze"; PStr "/batch-analyze"; PStr "/health"; PStr "/test"])
    /\ b !! "error" = Some (PStr "Endpoint not found")
    /\ size b = 2.
Proof.
  intros H. unfold App.full_dispatch_request. rewrite H.
  eexists. split; [reflexivity|]. repeat split; vm_compute; reflexivity.
Qed.

(** C10: a [fileContent] or [fileName] that is present but falsy (the empty
    string, [null], [false], [0], an empty list or object) is rejected with
    the same 400 as a field that is absent. *)
Theorem falsy_field_rejected_like_absent_field (env : Env) (m : gmap string pyval) (w : world) :
  (forall key v,
      key = "fileContent" \/ key = "fileName" ->
      m !! key = Some v ->
      truthy v = false ->
      App.analyze_document env (Ok (PDict m)) w
      = (Ok (App.error_response "fileContent and fileName are required" 400), w))
  /\ (forall key,
      key = "fileContent" \/ key = "fileName" ->
      m !! key = None ->
      m <> ∅ ->
      App.analyze_document env (Ok (PDict m)) w
      = (Ok (App.error_response "fileContent and fileName are required" 400), w)).
Proof.
  assert (Hnonempty : m <> ∅ -> truthy (PDict m) = true).
  { intros Hne. simpl. destruct (size m) eqn:Hs; [|reflexivity].
    apply map_size_empty_inv in Hs. contradiction. }
  split.
  - intros key v Hkey Hl Hv.
    apply AppFacts.analyze_missing_fields.
    + apply Hnonempty. intros ->. rewrite lookup_empty in Hl. discriminate.
    + unfold field. destruct Hkey as [->| ->]; rewrite Hl; auto.
  - intros key Hkey Hl Hne.
    apply AppFacts.analyze_missing_fields; [exact (Hnonempty Hne)|].
    unfold field. destruct Hkey as [->| ->]; rewrite Hl; auto.
Qed.

(** ** The properties on concrete requests *)

Import Mock.

Lemma analyze_document_truncates_prompt_not_length_witness :
  Z.of_nat (String.length long_text) = 15003%Z
  /\ Z.of_nat (String.length (substring 0 15000 long_text)) = 15000%Z
  /\ exists r w',
       RegulatoryAnalyzer.analyze_document (mock_env sample_reply) long_text w0
       = (Ok (PDict r), w')
       /\ r !! "document_length" = Some (PInt 15003).
Proof.
  split; [vm_compute; reflexivity|]. split; [vm_compute; reflexivity|].
  exact (proj2 (proj2 (proj2
           (analyze_document_truncates_prompt_not_length (mock_env sample_reply) long_text w0)))
           sample_reply sample_object eq_refl eq_refl).
Defined.

Lemma analyze_document_adds_exactly_two_keys_witness :
  exists r w',
    RegulatoryAnalyzer.analyze_document (mock_env sample_reply) "hello" w0 = (Ok (PDict r), w')
    /\ dom r = requested_keys ∪ metadata_keys
    /\ size r = 14
    /\ (forall k, k ∈ requested_keys -> r !! k = sample_object !! k)
    /\ delete "analysis_timestamp" (delete "document_length" r) = sample_object
    /\ (exists t, r !! "analysis_timestamp" = Some (PStr (isoformat t))
                  /\ is_iso8601 (isoformat t) = true)
    /\ r !! "document_length" = Some (PInt 5).
Proof.
  apply (analyze_document_adds_exactly_two_keys
           (mock_env sample_reply) "hello" sample_reply sample_object w0).
  - reflexivity.
  - vm_compute. reflexivity.
  - apply (bool_decide_unpack _). vm_compute. exact I.
Defined.

Lemma steady_env_steady (reply : string) : steady (steady_env reply).
Proof. repeat split. Defined.


(** an upload with empty content, sent to the batch handler *)
Lemma batch_entry_blank_text_still_analysed_witness :
  trace (fst (snd (App.process_document (mock_env sample_reply)
                     (upload "" "empty.txt") (w0, []))))
  = [EvCreate (tmp ".txt"); EvOpen (tmp ".txt");
     EvLLM (RegulatoryAnalyzer.analysis_prompt ""); EvUnlink (tmp ".txt")].
Proof.
  apply (batch_entry_blank_text_still_analysed (mock_env sample_reply)
           (upload_fields "" "empty.txt") (PStr "") [] "empty.txt" (tmp ".txt") ""
           w0
           (World {[tmp ".txt" := []]} 1 [EvCreate (tmp ".txt")] [])
           (World {[tmp ".txt" := []]} 1 [EvCreate (tmp ".txt"); EvOpen (tmp ".txt")] [])
           []).
  - vm_compute. reflexivity.
  - reflexivity.
  - vm_compute. reflexivity.
  - vm_compute. reflexivity.
  - vm_compute. reflexivity.
  - reflexivity.
Defined.

Lemma staged_hello (reply : string) :
  staged (mock_env reply) (upload_fields "aGVsbG8=" "notice.txt") w0 "notice.txt"
    (list_byte_of_string "hello") (tmp ".txt")
    (World {[tmp ".txt" := list_byte_of_string "hello"]} 1 [EvCreate (tmp ".txt")] []).
Proof. repeat split; try discriminate; vm_compute; reflexivity. Defined.

Lemma parsed_hello (reply : string) :
  RegulatoryAnalyzer.parse_file (mock_env reply) (tmp ".txt")
    (World {[tmp ".txt" := list_byte_of_string "hello"]} 1 [EvCreate (tmp ".txt")] [])
  = (Ok "hello",
     World {[tmp ".txt" := list_byte_of_string "hello"]} 1
           [EvCreate (tmp ".txt"); EvOpen (tmp ".txt")] []).
Proof. vm_compute. reflexivity. Defined.

Lemma non_json_reply_fails_analysis_witness :
  fst (RegulatoryAnalyzer.analyze_document (mock_env "Sorry, I cannot help.") "hello" w0)
  = Err (Exn "JSONDecodeError" "Expecting value: line 1 column 1 (char 0)" None)
  /\ fst (App.analyze_document (mock_env "Sorry, I cannot help.")
            (Ok (upload "aGVsbG8=" "notice.txt")) w0)
     = Ok (App.error_response
             "Internal server error: Expecting value: line 1 column 1 (char 0)" 500)
  /\ exists r, fst (RegulatoryAnalyzer.analyze_document (mock_env "{}") "hello" w0)
               = Ok (PDict r)
               /\ forall k, k ∉ metadata_keys -> r !! k = (∅ : gmap string pyval) !! k.
Proof.
  pose proof (non_json_reply_fails_analysis (mock_env "Sorry, I cannot help."))
    as (Hraise & Hhandler & _).
  pose proof (non_json_reply_fails_analysis (mock_env "{}")) as (_ & _ & Hobject).
  split; [|split].
  - exact (Hraise "hello" "Sorry, I cannot help." _ w0 eq_refl eq_refl).
  - refine (Hhandler _ _ _ _ _ _ _ "hello" "Sorry, I cannot help." _
              (staged_hello _) (parsed_hello _) _ eq_refl eq_refl).
    vm_compute. discriminate.
  - exact (Hobject "hello" "{}" ∅ w0 eq_refl eq_refl).
Defined.

Lemma parse_file_dispatches_on_extension_witness :
  Path_suffix "/tmp/tmpabcdefgh.XLSX" = ".XLSX"
  /\ fst (RegulatoryAnalyzer.parse_file (mock_env "{}") "/tmp/tmpabcdefgh.XLSX" w0)
     = Err (ValueError "Unsupported file type: .XLSX")
  /\ fst (RegulatoryAnalyzer.parse_file (mock_env "{}") "/tmp/tmpabcdefgh.PdF" w0)
     = fst (RegulatoryAnalyzer._parse_pdf (mock_env "{}") "/tmp/tmpabcdefgh.PdF" w0)
  /\ Path_suffix "/tmp/tmpabcdefgh.PdF" = Path_suffix "Warning Letter.final.PdF".
Proof.
  pose proof (parse_file_dispatches_on_extension (mock_env "{}") "/tmp/tmpabcdefgh.XLSX" w0)
    as (_ & _ & _ & Hother).
  pose proof (parse_file_dispatches_on_extension (mock_env "{}") "/tmp/tmpabcdefgh.PdF" w0)
    as (Hpdf & _ & _ & _ & Hname).
  split; [vm_compute; reflexivity|]. split; [|split].
  - apply Hother; vm_compute; discriminate.
  - apply Hpdf. vm_compute. reflexivity.
  - apply (Hname "Warning Letter.final.PdF" [] w0
             (World {["/tmp/tmpabcdefgh.PdF" := []]} 1 [EvCreate "/tmp/tmpabcdefgh.PdF"] [])).
    vm_compute. reflexivity.
Defined.

Lemma analyze_validation_order_witness :
  App.analyze_document (mock_env sample_reply)
    (Ok (PDict {["fileContent" := PStr "aGVsbG8="]})) w0
  = (Ok (App.error_response "fileContent and fileName are required" 400), w0)
  /\ App.analyze_document (mock_env sample_reply) (Ok (upload "abc" "notice.txt")) w0
     = (Ok (App.error_response "Invalid base64 content: Incorrect padding" 400), w0)
  /\ (exists resp,
        fst (App.analyze_document (mock_env sample_reply)
               (Ok (upload "aGVsbG8=" "notice.txt")) w0) = Ok resp
        /\ success_response resp).
Proof.
  pose proof (analyze_validation_order (mock_env sample_reply))
    as (Hfields & Hbase64 & _ & _ & _ & Hok & _).
  split; [|split].
  - apply Hfields; [reflexivity|]. right. reflexivity.
  - exact (Hbase64 (upload_fields "abc" "notice.txt")
             (Exn "binascii.Error" "Incorrect padding" None) w0 eq_refl eq_refl eq_refl).
  - refine (Hok _ _ _ _
              (World {[tmp ".txt" := list_byte_of_string "hello"]} 3
                 [EvCreate (tmp ".txt"); EvOpen (tmp ".txt");
                  EvLLM (RegulatoryAnalyzer.analysis_prompt "hello")] [])
              _ _ _ "hello" _ (staged_hello _) (parsed_hello _) _ _).
    + vm_compute. discriminate.
    + vm_compute. reflexivity.
Defined.

Lemma unmatched_route_lists_endpoints_witness :
  exists b,
    App.full_dispatch_request (mock_env "{}")
      (Request GET "/unknown-path" (Err (Exn "UnsupportedMediaType" "415" (Some 415)))) w0
    = (Ok (Response (JSON (PDict b)) 404), w0)
    /\ b !! "available_endpoints"
       = Some (PList [PStr "/analyze"; PStr "/batch-analyze"; PStr "/health"; PStr "/test"])
    /\ b !! "error" = Some (PStr "Endpoint not found")
    /\ size b = 2.
Proof.
  apply (unmatched_route_lists_endpoints (mock_env "{}")). vm_compute. reflexivity.
Defined.

Lemma falsy_field_rejected_like_absent_field_witness :
  App.analyze_document (mock_env "{}") (Ok (upload "" "notice.txt")) w0
  = (Ok (App.error_response "fileContent and fileName are required" 400), w0)
  /\ App.analyze_document (mock_env "{}")
       (Ok (PDict {["fileName" := PStr "notice.txt"]})) w0
     = (Ok (App.error_response "fileContent and fileName are required" 400), w0).
Proof.
  split.
  - apply (proj1 (falsy_field_rejected_like_absent_field (mock_env "{}")
                    (upload_fields "" "notice.txt") w0) "fileContent" (PStr ""));
      [left; reflexivity|vm_compute; reflexivity|reflexivity].
  - apply (proj2 (falsy_field_rejected_like_absent_field (mock_env "{}")
                    {["fileName" := PStr "notice.txt"]} w0) "fileContent");
      [left; reflexivity|vm_compute; reflexivity|].
    intros H. apply (f_equal (fun m => m !! "fileName")) in H. vm_compute in H. discriminate.
Defined.


(** The batch of three on the test double: the second record, and only the
    second, is a failure. *)
Example batch_of_three_second_corrupt :
  exists a c t,
    fst (App.batch_analyze (mock_env sample_reply)
           (Ok (PDict (batch_fields [upload "aGVsbG8=" "a.txt"; upload "aGVsbG8=" "b.pdf";
                                     upload "aGVsbG8=" "c.txt"]))) w0)
    = Ok (Response
            (JSON (App.dict
                     [("success", PBool true);
                      ("totalDocuments", PInt 3);
                      ("results",
                       PList [success_record (upload_fields "aGVsbG8=" "a.txt") a;
                              failure_record (upload_fields "aGVsbG8=" "b.pdf")
                                "EOF marker not found";
                              success_record (upload_fields "aGVsbG8=" "c.txt") c]);
                      ("processedAt", t)]))
            200).
Proof. eexists _, _, _. vm_compute. reflexivity. Qed.

(** The document that is not a PDF has one record: the failure of its
    extraction. *)
Example corrupt_document_has_a_failure_record (entry : pyval) (w1 : world) :
  document_record (mock_env sample_reply) (upload_fields "aGVsbG8=" "b.pdf") w0 entry w1 ->
  entry = failure_record (upload_fields "aGVsbG8=" "b.pdf") "EOF marker not found".
Proof.
  intros H.
  refine (proj1 (BatchFacts.document_record_functional (mock_env sample_reply) _ _ _ _ _ _ H
                   (record_extraction_failed (mock_env sample_reply) _ w0
                      (PStr "aGVsbG8=") (PStr "b.pdf") (list_byte_of_string "hello") "b.pdf"
                      (tmp ".pdf") (Exn "PdfReadError" "EOF marker not found" None)
                      (World {[tmp ".pdf" := list_byte_of_string "hello"]} 1
                             [EvCreate (tmp ".pdf")] [])
                      (World {[tmp ".pdf" := list_byte_of_string "hello"]} 1
                             [EvCreate (tmp ".pdf"); EvOpen (tmp ".pdf")]
                             ["Error parsing file /tmp/tmpabcdefgh.pdf: EOF marker not found"])
                      _ _ _ _ _ _))); vm_compute; reflexivity.
Qed.

(** ** Further properties: the paths of [POST /analyze] *)

Module PathCases.
Import RegulatoryAnalyzer App AppFacts.

Section WithEnv.
Context (env : Env).

(** Every request takes one of the paths, and the handler returns what the
    path says. *)
Lemma analyze_document_follows_path (req : result pyval) (w : world) :
  exists resp w',
    analyze_document env req w = (Ok resp, w') /\ analyze_path env w req resp w'.
Proof.
  destruct req as [data|e].
  2:{ eexists _, _. split; [reflexivity|]. apply path_get_json_raised. }
  destruct (truthy data) eqn:Hd.
  2:{ rewrite (analyze_no_data env data w Hd). eexists _, _. split; [reflexivity|].
      apply path_no_data. exact Hd. }
  destruct (is_dict data) eqn:Hdict.
  2:{ rewrite (OutcomeFacts.analyze_not_dict env data w Hd Hdict).
      eexists _, _. split; [reflexivity|].
      apply (path_not_an_object env w data
               (AttributeError ("'" +:+ type_name data +:+ "' object has no attribute 'get'")));
        [exact Hd|].
      destruct data; try discriminate; reflexivity. }
  destruct data as [|b|z|f|s|l|m]; try discriminate.
  destruct (truthy (field m "fileContent")) eqn:Hc.
  2:{ rewrite (analyze_missing_fields env m w Hd (or_introl Hc)).
      eexists _, _. split; [reflexivity|]. apply path_missing_field; auto. }
  destruct (truthy (field m "fileName")) eqn:Hn.
  2:{ rewrite (analyze_missing_fields env m w Hd (or_intror Hn)).
      eexists _, _. split; [reflexivity|]. apply path_missing_field; auto. }
  destruct (b64decode env (field m "fileContent")) as [content|e] eqn:Hb.
  2:{ rewrite (analyze_bad_base64 env m e w Hc Hn Hb).
      eexists _, _. split; [reflexivity|]. apply path_bad_base64; auto. }
  destruct (Path (field m "fileName")) as [name|e] eqn:Hpath.
  2:{ unfold analyze_document. cbv [bind ret raise lift try_except]. rewrite Hd.
      cbv [negb dict_get]. fold (field m "fileContent"). fold (field m "fileName").
      rewrite Hc, Hn, Hb, Hpath. cbv [orb].
      eexists _, _. split; [reflexivity|].
      apply (path_bad_file_name env w m content e); auto. }
  assert (Hname : field m "fileName" = PStr name).
  { destruct (field m "fileName"); try discriminate. injection Hpath as ->. reflexivity. }
  assert (Hne : name <> "").
  { intros ->. rewrite Hname in Hn. discriminate. }
  destruct (NamedTemporaryFile env (Path_suffix name) content w) as [[p|e] w1] eqn:Ht.
  2:{ unfold analyze_document. cbv [bind ret raise lift try_except]. rewrite Hd.
      cbv [negb dict_get]. fold (field m "fileContent"). fold (field m "fileName").
      rewrite Hc, Hn, Hb, Hpath. cbv [orb]. rewrite Ht.
      eexists _, _. split; [reflexivity|].
      apply (path_staging_failed env w m content name e w1); auto. }
  assert (Hs : staged env m w name content p w1) by (repeat split; assumption).
  destruct (parse_file env p w1) as [[text|e] w2] eqn:Hp.
  2:{ rewrite (analyze_extraction_error env _ _ _ _ _ _ _ _ Hs Hp).
      eexists _, _. split; [reflexivity|].
      exact (path_extraction_failed env w m content name p e w1 w2 Hs Hp). }
  destruct (String.eqb_spec (strip text) "") as [Hblank|Hblank].
  { rewrite (analyze_blank_text env _ _ _ _ _ _ _ _ Hs Hp Hblank).
    eexists _, _. split; [reflexivity|].
    exact (path_blank_text env w m content name p text w1 w2 Hs Hp Hblank). }
  destruct (RegulatoryAnalyzer.analyze_document env text w2) as [[r|e] w3] eqn:Ha.
  - rewrite (analyze_success env _ _ _ _ _ _ _ _ _ _ Hs Hp Hblank Ha).
    eexists _, _. split; [reflexivity|].
    exact (path_analysed env w m content name p text r w1 w2 w3 Hs Hp Hblank Ha).
  - rewrite (analyze_analysis_error env _ _ _ _ _ _ _ _ _ _ Hs Hp Hblank Ha).
    eexists _, _. split; [reflexivity|].
    exact (path_analysis_failed env w m content name p text e w1 w2 w3 Hs Hp Hblank Ha).
Qed.

(** the path of a given run *)
Lemma analyze_document_path (req : result pyval) (w w' : world) (resp : response) :
  analyze_document env req w = (Ok resp, w') -> analyze_path env w req resp w'.
Proof.
  intros H. destruct (analyze_document_follows_path req w) as (resp0 & w0 & Hrun & Hpath).
  rewrite Hrun in H. injection H as <- <-. exact Hpath.
Qed.

End WithEnv.
End PathCases.

Module EffectFacts.
Import RegulatoryAnalyzer App AppFacts.

Lemma count_llm_app (a b : list event) : count_llm (a ++ b) = count_llm a + count_llm b.
Proof. unfold count_llm. rewrite List.filter_app, length_app. reflexivity. Qed.

Lemma count_create_app (a b : list event) :
  count_create (a ++ b) = count_create a + count_create b.
Proof. unfold count_create. rewrite List.filter_app, length_app. reflexivity. Qed.

Lemma error_response_inj (msg1 msg2 : string) (code1 code2 : nat) :
  error_response msg1 code1 = error_response msg2 code2 -> msg1 = msg2 /\ code1 = code2.
Proof.
  intros H. split.
  - apply (f_equal (fun r => match body r with
                             | JSON (PDict b) => b !! "error"
                             | _ => None
                             end)) in H.
    vm_compute in H. injection H as H. exact H.
  - apply (f_equal status) in H. exact H.
Qed.

Section WithEnv.
Context (env : Env).

(** A successful analysis: the reply parsed to an object, the two entries
    were set in it, and nothing was logged. *)
Lemma analyze_document_ok_inv (text : string) (r : pyval) (w w' : world) :
  RegulatoryAnalyzer.analyze_document env text w = (Ok r, w') ->
  exists reply m,
    messages_create env (clock w) (analysis_prompt text) = Ok reply
    /\ json_loads env reply = Ok (PDict m)
    /\ r = PDict (<["document_length" := PInt (Z.of_nat (String.length text))]>
                    (<["analysis_timestamp" :=
                         PStr (isoformat (datetime_now env (S (clock w))))]> m))
    /\ w' = World (fs w) (S (S (clock w))) (trace w ++ [EvLLM (analysis_prompt text)])%list
              (logged w).
Proof.
  unfold RegulatoryAnalyzer.analyze_document. run.
  destruct (messages_create env (clock w) (analysis_prompt text)) as [reply|e] eqn:Hc;
    simpl; [|discriminate].
  destruct (json_loads env reply) as [v|e] eqn:Hj; simpl; [|discriminate].
  destruct v as [|b|z|f|s|l|m]; simpl; try discriminate.
  intros [= <- <-]. exists reply, m. auto.
Qed.

(** A failed analysis: the error is logged once, after the one call. *)
Lemma analyze_document_err_inv (text : string) (e : exn) (w w' : world) :
  RegulatoryAnalyzer.analyze_document env text w = (Err e, w') ->
  trace w' = (trace w ++ [EvLLM (analysis_prompt text)])%list
  /\ logged w' = (logged w ++ ["Error in document analysis: " +:+ exn_str e])%list
  /\ fs w' = fs w.
Proof.
  unfold RegulatoryAnalyzer.analyze_document. run.
  destruct (messages_create env (clock w) (analysis_prompt text)) as [reply|e0];
    simpl; [|intros [= <- <-]; auto].
  destruct (json_loads env reply) as [v|e0]; simpl; [|intros [= <- <-]; auto].
  destruct v as [|b|z|f|s|l|m]; simpl; intros [= <- <-]; auto.
Qed.

(** Extraction that succeeds has opened the file and logged nothing. *)
Lemma parse_file_ok_inv (p text : string) (w w' : world) :
  parse_file env p w = (Ok text, w') ->
  w' = World (fs w) (clock w) (trace w ++ [EvOpen p])%list (logged w).
Proof.
  unfold parse_file, _parse_pdf, _parse_docx, _parse_txt, open_file. run.
  destruct (String.eqb (lower (Path_suffix p)) ".pdf").
  { destruct (fs w !! p); simpl; [|discriminate].
    destruct (PdfReader_pages env b); simpl; [|discriminate].
    destruct (concat_pages a ""); simpl; [|discriminate]. intros [= _ <-]. reflexivity. }
  destruct (String.eqb (lower (Path_suffix p)) ".docx").
  { destruct (fs w !! p); simpl; [|discriminate].
    destruct (Document_paragraphs env b); simpl; [|discriminate].
    intros [= _ <-]. reflexivity. }
  destruct (String.eqb (lower (Path_suffix p)) ".txt").
  { destruct (fs w !! p); simpl; [|discriminate].
    destruct (read_utf8 env b); simpl; [|discriminate]. intros [= _ <-]. reflexivity. }
  simpl. discriminate.
Qed.

(** Extraction that fails has logged the error once, with the path. *)
Lemma parse_file_err_inv (p : string) (e : exn) (w w' : world) :
  parse_file env p w = (Err e, w') ->
  logged w' = (logged w ++ ["Error parsing file " +:+ Path_str p +:+ ": " +:+ exn_str e])%list
  /\ fs w' = fs w
  /\ (trace w' = trace w \/ trace w' = (trace w ++ [EvOpen p])%list).
Proof.
  unfold parse_file, _parse_pdf, _parse_docx, _parse_txt, open_file. run.
  destruct (String.eqb (lower (Path_suffix p)) ".pdf").
  { destruct (fs w !! p); simpl; [|intros [= <- <-]; auto].
    destruct (PdfReader_pages env b); simpl; [|intros [= <- <-]; auto].
    destruct (concat_pages a ""); simpl; [discriminate|intros [= <- <-]; auto]. }
  destruct (String.eqb (lower (Path_suffix p)) ".docx").
  { destruct (fs w !! p); simpl; [|intros [= <- <-]; auto].
    destruct (Document_paragraphs env b); simpl; [discriminate|intros [= <- <-]; auto]. }
  destruct (String.eqb (lower (Path_suffix p)) ".txt").
  { destruct (fs w !! p); simpl; [|intros [= <- <-]; auto].
    destruct (read_utf8 env b); simpl; [discriminate|intros [= <- <-]; auto]. }
  simpl. intros [= <- <-]. auto.
Qed.

End WithEnv.
End EffectFacts.

(** X1: each 400 message of [POST /analyze] has one cause. An answer of
    "No JSON data provided" means the body was falsy; "fileContent and
    fileName are required" means one of the two fields was falsy or absent;
    "Invalid base64 content: ..." means the decoder raised exactly that
    error; "No text could be extracted" means a file was staged and its
    extracted text was blank. *)
Theorem error_message_identifies_cause
    (env : Env) (req : result pyval) (w w' : world) (resp : response) :
  App.analyze_document env req w = (Ok resp, w') ->
  (resp = App.error_response "No JSON data provided" 400 ->
     exists data, req = Ok data /\ truthy data = false)
  /\ (resp = App.error_response "fileContent and fileName are required" 400 ->
     exists m, req = Ok (PDict m)
               /\ (truthy (field m "fileContent") = false
                   \/ truthy (field m "fileName") = false))
  /\ (forall detail,
     resp = App.error_response ("Invalid base64 content: " +:+ detail) 400 ->
     exists m e, req = Ok (PDict m)
                 /\ b64decode env (field m "fileContent") = Err e
                 /\ exn_str e = detail)
  /\ (resp = App.error_response "No text could be extracted from the document" 400 ->
     exists m name content p w1 w2 text,
       req = Ok (PDict m)
       /\ staged env m w name content p w1
       /\ RegulatoryAnalyzer.parse_file env p w1 = (Ok text, w2)
       /\ all_space text = true).
Proof.
  intros Hrun. apply PathCases.analyze_document_path in Hrun.
  split; [|split; [|split]].
  - intros Heq. destruct Hrun; try (exfalso; other_answer Heq). eauto.
  - intros Heq. destruct Hrun; try (exfalso; other_answer Heq). eauto.
  - intros detail Heq. destruct Hrun; try (exfalso; other_answer Heq).
    apply EffectFacts.error_response_inj in Heq as [Heq _]. injection Heq as Heq.
    eauto.
  - intros Heq. destruct Hrun; try (exfalso; other_answer Heq).
    match goal with
    | Hs : staged _ _ _ _ _ _ _, Hb : strip _ = "" |- _ =>
        apply PyFacts.strip_empty_iff in Hb; eauto 12
    end.
Qed.

(** X2: one request to [POST /analyze] stages at most one temporary file
    and calls the model at most once; an answer of 200 means the model was
    called exactly once, and an answer of 400 means it was not called. *)
Theorem single_request_calls_model_at_most_once
    (env : Env) (req : result pyval) (w w' : world) (resp : response) :
  App.analyze_document env req w = (Ok resp, w') ->
  exists evs,
    trace w' = (trace w ++ evs)%list
    /\ count_llm evs <= 1
    /\ count_create evs <= 1
    /\ (status resp = 200 -> count_llm evs = 1)
    /\ (status resp = 400 -> count_llm evs = 0).
Proof.
  intros Hrun. apply PathCases.analyze_document_path in Hrun.
  destruct Hrun as [e|data Hd|data e Hd Hg|m Hd Hf|m e Hc Hn Hb|m content e Hc Hn Hb Hp
                    |m content name e w1 Hc Hn Hne Hb Ht|m content name p e w1 w2 Hs Hp
                    |m content name p text w1 w2 Hs Hp Hb
                    |m content name p text e w1 w2 w3 Hs Hp Hb Ha
                    |m content name p text r w1 w2 w3 Hs Hp Hb Ha].
  1-6: (exists []; simpl; rewrite app_nil_r; unfold count_llm, count_create; simpl;
        repeat split; try reflexivity; try lia; try discriminate).
  - rewrite (FileFacts.NamedTemporaryFile_err_world env _ _ _ _ _ Ht).
    exists []. simpl. rewrite app_nil_r. unfold count_llm, count_create. simpl.
    repeat split; try reflexivity; try lia; try discriminate.
  - destruct (AppFacts.staged_file env _ _ _ _ _ _ Hs) as (_ & ->).
    destruct (EffectFacts.parse_file_err_inv env _ _ _ _ Hp) as (_ & _ & [Ht|Ht]);
      simpl in *; rewrite Ht, <- ?app_assoc;
      eexists; (split; [reflexivity|]); unfold count_llm, count_create; simpl;
      repeat split; try reflexivity; try lia; try discriminate.
  - destruct (AppFacts.staged_file env _ _ _ _ _ _ Hs) as (_ & ->).
    rewrite (EffectFacts.parse_file_ok_inv env _ _ _ _ Hp). simpl.
    rewrite <- ?app_assoc.
    eexists; (split; [reflexivity|]); unfold count_llm, count_create; simpl;
      repeat split; try reflexivity; try lia; try discriminate.
  - destruct (AppFacts.staged_file env _ _ _ _ _ _ Hs) as (_ & ->).
    destruct (EffectFacts.analyze_document_err_inv env _ _ _ _ Ha) as (Ht & _ & _).
    rewrite (EffectFacts.parse_file_ok_inv env _ _ _ _ Hp) in Ht. simpl in *.
    rewrite Ht, <- ?app_assoc.
    eexists; (split; [reflexivity|]); unfold count_llm, count_create; simpl;
      repeat split; try reflexivity; try lia; try discriminate.
  - destruct (AppFacts.staged_file env _ _ _ _ _ _ Hs) as (_ & ->).
    destruct (EffectFacts.analyze_document_ok_inv env _ _ _ _ Ha) as (reply & a & _ & _ & _ & ->).
    rewrite (EffectFacts.parse_file_ok_inv env _ _ _ _ Hp). simpl.
    rewrite <- ?app_assoc.
    eexists; (split; [reflexivity|]); unfold count_llm, count_create; simpl;
      repeat split; try reflexivity; try lia; try discriminate.
Qed.

(** X3: [POST /analyze] logs an error exactly when it answers 500. A 500
    answer carries "Internal server error: " followed by the text of the
    exception, and the last line logged is "Error in analyze_document: "
    followed by the same text; an answer of 200 or 400 logs nothing. *)
Theorem server_errors_are_logged
    (env : Env) (req : result pyval) (w w' : world) (resp : response) :
  App.analyze_document env req w = (Ok resp, w') ->
  (status resp = 500 ->
     exists earlier detail,
       resp = App.error_response ("Internal server error: " +:+ detail) 500
       /\ logged w' = (logged w ++ earlier ++ ["Error in analyze_document: " +:+ detail])%list)
  /\ (status resp <> 500 -> logged w' = logged w).
Proof.
  intros Hrun. apply PathCases.analyze_document_path in Hrun.
  destruct Hrun as [e|data Hd|data e Hd Hg|m Hd Hf|m e Hc Hn Hb|m content e Hc Hn Hb Hp
                    |m content name e w1 Hc Hn Hne Hb Ht|m content name p e w1 w2 Hs Hp
                    |m content name p text w1 w2 Hs Hp Hb
                    |m content name p text e w1 w2 w3 Hs Hp Hb Ha
                    |m content name p text r w1 w2 w3 Hs Hp Hb Ha];
    (split; [intros Hst|intros Hst]);
    try discriminate Hst; try (exfalso; apply Hst; reflexivity); try reflexivity.
  - exists [], (exn_str e). split; reflexivity.
  - exists [], (exn_str e). split; reflexivity.
  - exists [], (exn_str e). split; reflexivity.
  - rewrite (FileFacts.NamedTemporaryFile_err_world env _ _ _ _ _ Ht).
    exists [], (exn_str e). split; reflexivity.
  - destruct (AppFacts.staged_file env _ _ _ _ _ _ Hs) as (_ & ->).
    destruct (EffectFacts.parse_file_err_inv env _ _ _ _ Hp) as (Hl & _ & _).
    eexists [_], (exn_str e). split; [reflexivity|].
    simpl in *. rewrite Hl, <- app_assoc. reflexivity.
  - destruct (AppFacts.staged_file env _ _ _ _ _ _ Hs) as (_ & ->).
    rewrite (EffectFacts.parse_file_ok_inv env _ _ _ _ Hp). reflexivity.
  - destruct (AppFacts.staged_file env _ _ _ _ _ _ Hs) as (_ & ->).
    destruct (EffectFacts.analyze_document_err_inv env _ _ _ _ Ha) as (_ & Hl & _).
    rewrite (EffectFacts.parse_file_ok_inv env _ _ _ _ Hp) in Hl.
    eexists [_], (exn_str e). split; [reflexivity|].
    simpl in *. rewrite Hl, <- app_assoc. reflexivity.
  - destruct (AppFacts.staged_file env _ _ _ _ _ _ Hs) as (_ & ->).
    destruct (EffectFacts.analyze_document_ok_inv env _ _ _ _ Ha) as (reply & a & _ & _ & _ & ->).
    rewrite (EffectFacts.parse_file_ok_inv env _ _ _ _ Hp). reflexivity.
Qed.

(** ** Further properties: extraction *)

Module ExtractFacts.
Import RegulatoryAnalyzer.

Lemma append_assoc (a b c : string) : (a +:+ b) +:+ c = a +:+ (b +:+ c).
Proof.
  induction a as [|x a IH]; [reflexivity|].
  change (String x a +:+ b) with (String x (a +:+ b)).
  change (String x (a +:+ b) +:+ c) with (String x ((a +:+ b) +:+ c)).
  rewrite IH. reflexivity.
Qed.

Lemma append_empty_r (a : string) : a +:+ "" = a.
Proof.
  induction a as [|x a IH]; [reflexivity|].
  change (String x a +:+ "") with (String x (a +:+ "")). rewrite IH. reflexivity.
Qed.

Lemma join_lines_cons (t : string) (texts : list string) :
  join_lines (t :: texts) = t +:+ "
" +:+ join_lines texts.
Proof.
  unfold join_lines. simpl map.
  destruct (map (fun t0 : string => t0 +:+ "
") texts) as [|s l].
  - reflexivity.
  - change (String.concat "" ((t +:+ "
") :: s :: l))
      with ((t +:+ "
") +:+ String.concat "" (s :: l)).
    apply append_assoc.
Qed.

Lemma concat_paragraphs_join (paragraphs : list string) (text : string) :
  concat_paragraphs paragraphs text = text +:+ join_lines paragraphs.
Proof.
  revert text. induction paragraphs as [|t rest IH]; intros text.
  - simpl. unfold join_lines. simpl. rewrite append_empty_r. reflexivity.
  - simpl. rewrite IH, join_lines_cons, !append_assoc. reflexivity.
Qed.

Lemma concat_pages_all (texts : list string) (text : string) :
  concat_pages (map Ok texts) text = Ok (text +:+ join_lines texts).
Proof.
  revert text. induction texts as [|t rest IH]; intros text.
  - simpl. unfold join_lines. simpl. rewrite append_empty_r. reflexivity.
  - simpl. rewrite IH, join_lines_cons, !append_assoc. reflexivity.
Qed.

Lemma concat_pages_first_error (texts : list string) (e : exn) (rest : list (result string))
    (text : string) :
  concat_pages (map Ok texts ++ Err e :: rest) text = Err e.
Proof.
  revert text. induction texts as [|t more IH]; intros text; [reflexivity|].
  simpl. apply IH.
Qed.

Lemma all_space_app (a b : string) : all_space (a +:+ b) = all_space a && all_space b.
Proof.
  induction a as [|x a IH]; [reflexivity|].
  change (String x a +:+ b) with (String x (a +:+ b)). simpl.
  rewrite IH, andb_assoc. reflexivity.
Qed.

Lemma all_space_join_lines (texts : list string) :
  all_space (join_lines texts) = forallb all_space texts.
Proof.
  induction texts as [|t rest IH]; [reflexivity|].
  rewrite join_lines_cons, !all_space_app, IH. simpl.
  destruct (all_space t); reflexivity.
Qed.

Section WithEnv.
Context (env : Env).

(** Extraction from a file that exists is extraction from its bytes. *)
Lemma parse_file_present (p : string) (content : bytes) (w : world) :
  fs w !! p = Some content ->
  fst (parse_file env p w) = extract env content p.
Proof.
  intros Hp.
  unfold parse_file, extract, _parse_pdf, _parse_docx, _parse_txt, open_file.
  cbv [bind ret raise lift try_except logger_error].
  destruct (String.eqb (lower (Path_suffix p)) ".pdf").
  { rewrite Hp. destruct (PdfReader_pages env content) as [pages|e]; [|reflexivity].
    destruct (concat_pages pages ""); reflexivity. }
  destruct (String.eqb (lower (Path_suffix p)) ".docx").
  { rewrite Hp. destruct (Document_paragraphs env content); reflexivity. }
  destruct (String.eqb (lower (Path_suffix p)) ".txt").
  { rewrite Hp. destruct (read_utf8 env content); reflexivity. }
  reflexivity.
Qed.

(** Extraction from the file staged for an upload is extraction from the
    uploaded bytes under the uploaded name. *)
Lemma staged_parse_file (name p : string) (content : bytes) (w w1 : world) :
  NamedTemporaryFile env (Path_suffix name) content w = (Ok p, w1) ->
  fst (parse_file env p w1) = extract env content name.
Proof.
  intros Ht.
  pose proof (PathFacts.NamedTemporaryFile_keeps_suffix env _ _ _ _ _ Ht) as Hsfx.
  destruct (FileFacts.NamedTemporaryFile_ok env _ _ _ _ _ Ht) as (_ & ->).
  rewrite (parse_file_present p content); [|apply lookup_insert_eq].
  unfold extract. rewrite Hsfx. reflexivity.
Qed.

End WithEnv.
End ExtractFacts.

(** X4: an answer of 200 from [POST /analyze] reports the text that was
    analysed: its [fileName] is the one sent; its [documentLength] is the
    length of the text extracted from the decoded upload under that name,
    which is not blank; and its [analysis] is an object whose
    [document_length] is that same number. *)
Theorem ok_answer_reports_the_analysed_text
    (env : Env) (req : result pyval) (w w' : world) (resp : response) :
  App.analyze_document env req w = (Ok resp, w') ->
  status resp = 200 ->
  exists m name content text analysis processed_at,
    req = Ok (PDict m)
    /\ m !! "fileName" = Some (PStr name)
    /\ b64decode env (field m "fileContent") = Ok content
    /\ extract env content name = Ok text
    /\ all_space text = false
    /\ resp = analysis_response (PStr name) (PDict analysis) processed_at text
    /\ analysis !! "document_length" = Some (PInt (Z.of_nat (String.length text))).
Proof.
  intros Hrun Hst. apply PathCases.analyze_document_path in Hrun.
  destruct Hrun as [e|data Hd|data e Hd Hg|m Hd Hf|m e Hc Hn Hb|m content e Hc Hn Hb Hp
                    |m content name e w1 Hc Hn Hne Hb Ht|m content name p e w1 w2 Hs Hp
                    |m content name p text w1 w2 Hs Hp Hb
                    |m content name p text e w1 w2 w3 Hs Hp Hb Ha
                    |m content name p text r w1 w2 w3 Hs Hp Hb Ha];
    try discriminate Hst.
  destruct (EffectFacts.analyze_document_ok_inv env _ _ _ _ Ha) as (reply & a & _ & _ & -> & _).
  destruct Hs as (_ & Hname & _ & Hdec & Ht).
  pose proof (ExtractFacts.staged_parse_file env _ _ _ _ _ Ht) as Hex.
  rewrite Hp in Hex. simpl in Hex.
  eexists m, name, content, text, _, _. split; [reflexivity|].
  split; [|split; [exact Hdec|split; [symmetry; exact Hex|split; [|split]]]].
  - unfold field in Hname. destruct (m !! "fileName"); [congruence|discriminate].
  - destruct (all_space text) eqn:Hsp; [|reflexivity].
    exfalso. apply Hb. apply PyFacts.strip_empty_iff. exact Hsp.
  - reflexivity.
  - apply lookup_insert_eq.
Qed.


(** X6: the text of a PDF is the text of each page followed by a newline,
    in page order; when a page fails to extract, the error of the first such
    page is raised and no text is returned. *)
Theorem pdf_text_is_pages_in_order
    (env : Env) (p : string) (content : bytes) (pages : list (result string)) (w : world) :
  fs w !! p = Some content ->
  PdfReader_pages env content = Ok pages ->
  (forall texts, pages = map Ok texts ->
     fst (RegulatoryAnalyzer._parse_pdf env p w) = Ok (join_lines texts))
  /\ (forall texts e rest, pages = (map Ok texts ++ Err e :: rest)%list ->
     fst (RegulatoryAnalyzer._parse_pdf env p w) = Err e).
Proof.
  intros Hp Hpages.
  unfold RegulatoryAnalyzer._parse_pdf, open_file. cbv [bind ret raise lift].
  rewrite Hp, Hpages. split.
  - intros texts ->. rewrite ExtractFacts.concat_pages_all. reflexivity.
  - intros texts e rest ->. rewrite ExtractFacts.concat_pages_first_error. reflexivity.
Qed.

(** X7: the text of a DOCX is the text of each paragraph followed by a
    newline, in document order; it is blank exactly when every paragraph is
    blank (in particular when there is none). *)
Theorem docx_text_is_paragraphs_in_order
    (env : Env) (p : string) (content : bytes) (paragraphs : list string) (w : world) :
  fs w !! p = Some content ->
  Document_paragraphs env content = Ok paragraphs ->
  fst (RegulatoryAnalyzer._parse_docx env p w) = Ok (join_lines paragraphs)
  /\ (strip (join_lines paragraphs) = "" <-> forallb all_space paragraphs = true).
Proof.
  intros Hp Hpar.
  unfold RegulatoryAnalyzer._parse_docx, open_file. cbv [bind ret raise lift].
  rewrite Hp, Hpar. split.
  - rewrite ExtractFacts.concat_paragraphs_join. reflexivity.
  - rewrite PyFacts.strip_empty_iff, ExtractFacts.all_space_join_lines. reflexivity.
Qed.

(** X8: for an upload that was staged and whose bytes extract to a text,
    [POST /analyze] answers "No text could be extracted" exactly when the
    text is white space only, and then the model is not called; otherwise
    the model is called with the prompt of that text. *)
Theorem blank_upload_is_rejected_unanalysed
    (env : Env) (m : gmap string pyval) (name p text : string) (content : bytes)
    (w w1 : world) :
  staged env m w name content p w1 ->
  extract env content name = Ok text ->
  (all_space text = true ->
     fst (App.analyze_document env (Ok (PDict m)) w)
     = Ok (App.error_response "No text could be extracted from the document" 400)
     /\ trace (snd (App.analyze_document env (Ok (PDict m)) w))
        = (trace w ++ [EvCreate p; EvOpen p; EvUnlink p])%list)
  /\ (all_space text = false ->
     fst (App.analyze_document env (Ok (PDict m)) w)
     <> Ok (App.error_response "No text could be extracted from the document" 400)
     /\ trace (snd (App.analyze_document env (Ok (PDict m)) w))
        = (trace w ++ [EvCreate p; EvOpen p;
                       EvLLM (RegulatoryAnalyzer.analysis_prompt text);
                       EvUnlink p])%list).
Proof.
  intros Hs Hex.
  pose proof Hs as (_ & _ & _ & _ & Ht).
  pose proof (ExtractFacts.staged_parse_file env _ _ _ _ _ Ht) as Hfst.
  rewrite Hex in Hfst.
  destruct (RegulatoryAnalyzer.parse_file env p w1) as [r w2] eqn:Hp.
  simpl in Hfst. subst r.
  pose proof (EffectFacts.parse_file_ok_inv env _ _ _ _ Hp) as Hw2.
  destruct (FileFacts.NamedTemporaryFile_ok env _ _ _ _ _ Ht) as (_ & Hw1).
  split.
  - intros Hblank. apply PyFacts.strip_empty_iff in Hblank.
    rewrite (AppFacts.analyze_blank_text env _ _ _ _ _ _ _ _ Hs Hp Hblank).
    split; [reflexivity|]. simpl. rewrite Hw2, Hw1. simpl.
    rewrite <- !app_assoc. reflexivity.
  - intros Hblank.
    assert (Hne : strip text <> "").
    { intros H. apply PyFacts.strip_empty_iff in H. congruence. }
    destruct (RegulatoryAnalyzer.analyze_document env text w2) as [[r|e] w3] eqn:Ha.
    + rewrite (AppFacts.analyze_success env _ _ _ _ _ _ _ _ _ _ Hs Hp Hne Ha).
      destruct (EffectFacts.analyze_document_ok_inv env _ _ _ _ Ha)
        as (reply & a & _ & _ & _ & Hw3).
      split.
      * intros H.
        apply (f_equal (fun r => match r with Ok resp => status resp | Err _ => 0 end)) in H.
        discriminate H.
      * simpl. rewrite Hw3, Hw2, Hw1. simpl. rewrite <- !app_assoc. reflexivity.
    + rewrite (AppFacts.analyze_analysis_error env _ _ _ _ _ _ _ _ _ _ Hs Hp Hne Ha).
      destruct (EffectFacts.analyze_document_err_inv env _ _ _ _ Ha) as (Htr & _ & _).
      split.
      * intros H.
        apply (f_equal (fun r => match r with Ok resp => status resp | Err _ => 0 end)) in H.
        discriminate H.
      * simpl. rewrite Htr, Hw2, Hw1. simpl. rewrite <- !app_assoc. reflexivity.
Qed.


(** ** Further properties: names, prompt, reply *)

Module NameFacts.

Lemma no_dot_rfind (s : string) : no_char "." s = true -> rfind_dot s = None.
Proof.
  induction s as [|c r IH]; simpl; [reflexivity|].
  intros H. apply andb_prop in H as [Hc Hr]. rewrite (IH Hr).
  destruct (Ascii.eqb c "."); [discriminate|reflexivity].
Qed.

Lemma Path_name_plain (name : string) :
  no_char "/" name = true -> name <> "" -> name <> "." -> Path_name name = name.
Proof.
  intros Hs He Hd. unfold Path_name, path_parts.
  rewrite (PathFacts.split_slash_no_slash name Hs). simpl.
  apply String.eqb_neq in He, Hd. rewrite He, Hd. reflexivity.
Qed.

Lemma substring_all (n : nat) (s : string) :
  String.length s <= n -> substring 0 n s = s.
Proof.
  revert s. induction n as [|n IH]; intros s Hl.
  - destruct s; [reflexivity|simpl in Hl; lia].
  - destruct s as [|c r]; [reflexivity|]. simpl in *. rewrite IH by lia. reflexivity.
Qed.

End NameFacts.

(** X10: only the last extension of a file name counts, and a name that
    is nothing but an extension has none: [stem.ext] has the suffix [.ext]
    whatever dots the stem holds, but [.ext] alone has the empty suffix and
    is an unsupported file type. *)
Theorem only_the_last_extension_counts
    (env : Env) (content : bytes) (stem ext : string) :
  stem <> "" ->
  no_char "/" stem = true ->
  ext <> "" ->
  no_char "/" ext = true ->
  no_char "." ext = true ->
  Path_suffix (stem +:+ "." +:+ ext) = "." +:+ ext
  /\ extract env content (stem +:+ "." +:+ ext) = extract env content ("x." +:+ ext)
  /\ Path_suffix ("." +:+ ext) = ""
  /\ extract env content ("." +:+ ext) = Err (ValueError "Unsupported file type: ").
Proof.
  intros Hstem Hss Hext Hes Hed.
  pose proof (NameFacts.no_dot_rfind ext Hed) as Hr.
  assert (Hsuffix : forall s, s <> "" -> no_char "/" s = true ->
            Path_suffix (s +:+ "." +:+ ext) = "." +:+ ext).
  { intros s Hs Hsl. unfold Path_suffix.
    rewrite NameFacts.Path_name_plain.
    - unfold name_suffix.
      change (s +:+ "." +:+ ext) with (s +:+ String "." ext).
      rewrite (PathFacts.rfind_dot_app_dot s ext Hr), PathFacts.length_app. simpl.
      assert (Hpos : (0 <? String.length s)%nat = true).
      { apply Nat.ltb_lt. destruct s; [contradiction|simpl; lia]. }
      assert (Hlt : (String.length s <? String.length s + S (String.length ext) - 1)%nat = true).
      { apply Nat.ltb_lt. destruct ext; [contradiction|simpl; lia]. }
      rewrite Hpos, Hlt. simpl.
      replace (String.length s + S (String.length ext) - String.length s)
        with (String.length (String "." ext)) by (simpl; lia).
      apply PathFacts.substring_skip.
    - rewrite PathFacts.no_char_app, Hsl. simpl. exact Hes.
    - destruct s; [contradiction|discriminate].
    - destruct s as [|c [|c' s]]; [contradiction| |discriminate].
      destruct ext; [contradiction|discriminate]. }
  assert (Hdot : Path_suffix ("." +:+ ext) = "").
  { change ("." +:+ ext) with (String "." ext).
    unfold Path_suffix. rewrite NameFacts.Path_name_plain.
    - unfold name_suffix. simpl rfind_dot. rewrite Hr. reflexivity.
    - simpl. exact Hes.
    - discriminate.
    - destruct ext; [contradiction|discriminate]. }
  split; [exact (Hsuffix stem Hstem Hss)|]. split; [|split; [exact Hdot|]].
  - assert (Hx : Path_suffix ("x." +:+ ext) = "." +:+ ext).
    { apply (Hsuffix "x"); [discriminate|reflexivity]. }
    unfold extract. rewrite (Hsuffix stem Hstem Hss), Hx. reflexivity.
  - unfold extract. rewrite Hdot. reflexivity.
Qed.

(** X11: the uploaded file name cannot choose where its bytes are written:
    the temporary file is [<tempdir>/tmp<random><suffix>], its last
    component holds no slash, it did not exist before, and every other file
    is left as it was. *)
Theorem upload_name_cannot_place_the_file
    (env : Env) (name : string) (content : bytes) (w w1 : world) (p : string) :
  NamedTemporaryFile env (Path_suffix name) content w = (Ok p, w1) ->
  exists draws,
    p = gettempdir env +:+ "/" +:+ "tmp" +:+ random_name draws +:+ Path_suffix name
    /\ no_char "/" ("tmp" +:+ random_name draws +:+ Path_suffix name) = true
    /\ fs w !! p = None
    /\ fs w1 !! p = Some content
    /\ forall q, q <> p -> fs w1 !! q = fs w !! q.
Proof.
  intros Ht.
  destruct (FileFacts.NamedTemporaryFile_ok env _ _ _ _ _ Ht) as (Hfresh & ->).
  revert Ht. unfold NamedTemporaryFile. run.
  destruct (mkstemp_inner env (fs w) _ (Path_suffix name)) as [q|e] eqn:Hm; [|discriminate].
  destruct (write_error env q content); [discriminate|].
  intros [= <-]. destruct (PathFacts.mkstemp_inner_name env _ _ _ _ Hm) as (draws & Hq).
  exists draws. split; [exact Hq|]. split; [|split; [exact Hfresh|split]].
  - destruct (PathFacts.random_name_plain draws) as (_ & Hs).
    change (no_char "/" (random_name draws +:+ Path_suffix name) = true).
    rewrite PathFacts.no_char_app, Hs.
    apply PathFacts.name_suffix_no_slash, PathFacts.Path_name_no_slash.
  - apply lookup_insert_eq.
  - intros q' Hne. apply lookup_insert_ne. congruence.
Qed.

(** X12: the prompt is never longer than 16,270 characters: the fixed
    text of 1,270 characters plus at most 15,000 of the document; a document
    of up to 15,000 characters is embedded whole. *)
Theorem prompt_length_is_bounded (text : string) :
  String.length (RegulatoryAnalyzer.analysis_prompt text)
  = 1270 + Nat.min 15000 (String.length text)
  /\ String.length (RegulatoryAnalyzer.analysis_prompt text) <= 16270
  /\ (String.length text <= 15000 ->
      RegulatoryAnalyzer.analysis_prompt text
      = RegulatoryAnalyzer.prompt_head +:+ text +:+ RegulatoryAnalyzer.prompt_tail).
Proof.
  assert (Hlen : String.length (RegulatoryAnalyzer.analysis_prompt text)
                 = 1270 + Nat.min 15000 (String.length text)).
  { unfold RegulatoryAnalyzer.analysis_prompt.
    rewrite !PathFacts.length_app, AnalyzerFacts.substring_prefix_length.
    assert (Hh : String.length RegulatoryAnalyzer.prompt_head = 1214)
      by (vm_compute; reflexivity).
    assert (Ht : String.length RegulatoryAnalyzer.prompt_tail = 56)
      by (vm_compute; reflexivity).
    rewrite Hh, Ht. lia. }
  split; [exact Hlen|]. split.
  - rewrite Hlen.
    assert (Hmin : Nat.min 15000 (String.length text) <= 15000) by apply Nat.le_min_l.
    revert Hmin. generalize (Nat.min 15000 (String.length text)).
    intros n Hn. change 16270 with (1270 + 15000). apply Nat.add_le_mono_l. exact Hn.
  - intros Hshort. unfold RegulatoryAnalyzer.analysis_prompt.
    rewrite (NameFacts.substring_all _ _ Hshort). reflexivity.
Qed.

(** X13: a reply that is valid JSON but not an object (a list, a string,
    a number, [true], [null]) makes the analysis raise a [TypeError] at the
    first metadata assignment, after the one model call; the error is
    logged and no result is returned. *)
Theorem non_object_reply_is_a_type_error
    (env : Env) (text reply : string) (v : pyval) (w : world) :
  messages_create env (clock w) (RegulatoryAnalyzer.analysis_prompt text) = Ok reply ->
  json_loads env reply = Ok v ->
  is_dict v = false ->
  exists msg,
    RegulatoryAnalyzer.analyze_document env text w
    = (Err (TypeError msg),
       World (fs w) (S (S (clock w)))
             (trace w ++ [EvLLM (RegulatoryAnalyzer.analysis_prompt text)])%list
             (logged w ++ ["Error in document analysis: " +:+ msg])%list).
Proof.
  intros Hc Hj Hd. unfold RegulatoryAnalyzer.analyze_document. run.
  rewrite Hc. simpl. rewrite Hj. simpl.
  destruct v; try discriminate; simpl; eexists; reflexivity.
Qed.

(** X14: the model cannot set the metadata: whatever object it replies
    with, also one that already has [analysis_timestamp] or
    [document_length], the result holds the clock's time stamp and the
    length of the text under these keys, every other entry of the reply
    unchanged, and no key beyond the reply's and these two. *)
Theorem reply_cannot_forge_metadata
    (env : Env) (text reply : string) (m : gmap string pyval) (w : world) :
  messages_create env (clock w) (RegulatoryAnalyzer.analysis_prompt text) = Ok reply ->
  json_loads env reply = Ok (PDict m) ->
  exists r,
    fst (RegulatoryAnalyzer.analyze_document env text w) = Ok (PDict r)
    /\ r !! "document_length" = Some (PInt (Z.of_nat (String.length text)))
    /\ r !! "analysis_timestamp" = Some (PStr (isoformat (datetime_now env (S (clock w)))))
    /\ dom r = dom m ∪ metadata_keys
    /\ (forall k, k ∉ metadata_keys -> r !! k = m !! k).
Proof.
  intros Hc Hj.
  rewrite (AnalyzerFacts.analyze_document_ok env text reply m w Hc Hj).
  eexists. split; [reflexivity|]. split; [apply lookup_insert_eq|]. split.
  { rewrite lookup_insert_ne by discriminate. apply lookup_insert_eq. }
  split.
  { rewrite !dom_insert_L. unfold metadata_keys. simpl. set_solver. }
  intros k Hk. unfold metadata_keys in Hk. simpl in Hk.
  rewrite !lookup_insert_ne; [reflexivity| |]; intros <-; apply Hk; set_solver.
Qed.

(** ** Further properties: the batch handler *)

Module BatchRuns.
Import RegulatoryAnalyzer App AppFacts BatchFacts.

Lemma count_succeeded_app (a b : list pyval) :
  count_succeeded (a ++ b) = count_succeeded a + count_succeeded b.
Proof. unfold count_succeeded. rewrite List.filter_app, length_app. reflexivity. Qed.

Section WithEnv.
Context (env : Env).

(** One document that is a JSON object: at most one temporary file and one
    model call, and a success record only after a model call. *)
Lemma process_document_run (m : gmap string pyval) (w : world) :
  exists entry w' evs,
    (forall results,
        process_document env (PDict m) (w, results) = (Ok tt, (w', results ++ [entry])%list))
    /\ trace w' = (trace w ++ evs)%list
    /\ count_create evs <= 1
    /\ count_llm evs <= 1
    /\ count_succeeded [entry] <= count_llm evs.
Proof.
  unfold process_document.
  destruct (m !! "fileContent") as [fc|] eqn:Hfc.
  2:{ eexists _, _, []. split; [|split; [|repeat split]].
      - intros results. batch_monad. rewrite Hfc. reflexivity.
      - rewrite app_nil_r. reflexivity.
      - vm_compute. lia.
      - vm_compute. lia.
      - vm_compute. lia. }
  destruct (b64decode env fc) as [content|e] eqn:Hb.
  2:{ eexists _, _, []. split; [|split; [|repeat split]].
      - intros results. batch_monad. rewrite Hfc, Hb. reflexivity.
      - rewrite app_nil_r. reflexivity.
      - vm_compute. lia.
      - vm_compute. lia.
      - vm_compute. lia. }
  destruct (m !! "fileName") as [fn|] eqn:Hfn.
  2:{ eexists _, _, []. split; [|split; [|repeat split]].
      - intros results. batch_monad. rewrite Hfc, Hb, Hfn. reflexivity.
      - rewrite app_nil_r. reflexivity.
      - vm_compute. lia.
      - vm_compute. lia.
      - vm_compute. lia. }
  destruct (Path fn) as [name|e] eqn:Hpath.
  2:{ eexists _, _, []. split; [|split; [|repeat split]].
      - intros results. batch_monad. rewrite Hfc, Hb, Hfn, Hpath. reflexivity.
      - rewrite app_nil_r. reflexivity.
      - vm_compute. lia.
      - vm_compute. lia.
      - vm_compute. lia. }
  destruct (NamedTemporaryFile env (Path_suffix name) content w) as [[p|e] w1] eqn:Ht.
  2:{ eexists _, _, []. split; [|split; [|repeat split]].
      - intros results. batch_monad. rewrite Hfc, Hb, Hfn, Hpath, Ht. reflexivity.
      - rewrite (FileFacts.NamedTemporaryFile_err_world env _ _ _ _ _ Ht), app_nil_r. reflexivity.
      - vm_compute. lia.
      - vm_compute. lia.
      - vm_compute. lia. }
  destruct (FileFacts.NamedTemporaryFile_ok env _ _ _ _ _ Ht) as (Hfresh & Hw1).
  assert (Hf1 : fs w1 !! p = Some content) by (rewrite Hw1; apply lookup_insert_eq).
  destruct (parse_file env p w1) as [[text|e] w2] eqn:Hp.
  2:{ pose proof (parsed_file_present env _ _ _ _ _ Hf1 Hp) as Hf2.
      destruct (EffectFacts.parse_file_err_inv env _ _ _ _ Hp) as (_ & _ & Htr).
      assert (Hev : exists mid, trace w2 = (trace w ++ EvCreate p :: mid)%list
                                /\ count_llm mid = 0 /\ count_create mid = 0).
      { rewrite Hw1 in Htr. simpl in Htr.
        destruct Htr as [-> | ->]; rewrite <- ?app_assoc; eexists; split;
          try reflexivity; split; reflexivity. }
      destruct Hev as (mid & Hmid & Hl & Hc).
      eexists _, _, (EvCreate p :: mid ++ [EvUnlink p])%list. split; [|split; [|repeat split]].
      - intros results. batch_monad. rewrite Hfc, Hb, Hfn, Hpath, Ht, Hp.
        rewrite (FileFacts.os_unlink_present _ _ _ Hf2). reflexivity.
      - simpl. rewrite Hmid, <- app_assoc. reflexivity.
      - change (EvCreate p :: mid ++ [EvUnlink p])%list
          with ([EvCreate p] ++ mid ++ [EvUnlink p])%list.
        rewrite !EffectFacts.count_create_app, Hc. vm_compute. lia.
      - change (EvCreate p :: mid ++ [EvUnlink p])%list
          with ([EvCreate p] ++ mid ++ [EvUnlink p])%list.
        rewrite !EffectFacts.count_llm_app, Hl. vm_compute. lia.
      - vm_compute. lia. }
  pose proof (parsed_file_present env _ _ _ _ _ Hf1 Hp) as Hf2.
  pose proof (EffectFacts.parse_file_ok_inv env _ _ _ _ Hp) as Hw2.
  destruct (RegulatoryAnalyzer.analyze_document env text w2) as [[r|e] w3] eqn:Ha.
  - pose proof (analyzed_file_present env _ _ _ _ _ _ Hf2 Ha) as Hf3.
    destruct (EffectFacts.analyze_document_ok_inv env _ _ _ _ Ha) as (reply & a & _ & _ & _ & Hw3).
    eexists _, _, [EvCreate p; EvOpen p; EvLLM (analysis_prompt text); EvUnlink p].
    split; [|split; [|repeat split]].
    + intros results. batch_monad. rewrite Hfc, Hb, Hfn, Hpath, Ht, Hp, Ha.
      rewrite (FileFacts.os_unlink_present _ _ _ Hf3). reflexivity.
    + simpl. rewrite Hw3, Hw2, Hw1. simpl. rewrite <- !app_assoc. reflexivity.
    + vm_compute. lia.
    + vm_compute. lia.
    + vm_compute. lia.
  - pose proof (analyzed_file_present env _ _ _ _ _ _ Hf2 Ha) as Hf3.
    destruct (EffectFacts.analyze_document_err_inv env _ _ _ _ Ha) as (Htr & _ & _).
    eexists _, _, [EvCreate p; EvOpen p; EvLLM (analysis_prompt text); EvUnlink p].
    split; [|split; [|repeat split]].
    + intros results. batch_monad. rewrite Hfc, Hb, Hfn, Hpath, Ht, Hp, Ha.
      rewrite (FileFacts.os_unlink_present _ _ _ Hf3). reflexivity.
    + simpl. rewrite Htr, Hw2, Hw1. simpl. rewrite <- !app_assoc. reflexivity.
    + vm_compute. lia.
    + vm_compute. lia.
    + vm_compute. lia.
Qed.

(** the loop over documents that are all JSON objects *)
Lemma for_documents_run (documents : list pyval) :
  Forall (fun doc => is_dict doc = true) documents ->
  forall w,
  exists entries w' evs,
    (forall results,
        for_documents env documents (w, results) = (Ok tt, (w', results ++ entries)%list))
    /\ length entries = length documents
    /\ trace w' = (trace w ++ evs)%list
    /\ count_create evs <= length documents
    /\ count_llm evs <= length documents
    /\ count_succeeded entries <= count_llm evs.
Proof.
  induction 1 as [|doc rest Hdoc Hrest IH]; intros w.
  - exists [], w, []. repeat split; try (vm_compute; lia).
    + intros results. rewrite app_nil_r. reflexivity.
    + rewrite app_nil_r. reflexivity.
  - destruct doc as [| | | | | |m]; try discriminate.
    destruct (process_document_run m w) as (entry & w1 & ev1 & Hrun & Ht1 & Hc1 & Hl1 & Hs1).
    destruct (IH w1) as (entries & w2 & ev2 & Hloop & Hlen & Ht2 & Hc2 & Hl2 & Hs2).
    exists (entry :: entries), w2, (ev1 ++ ev2)%list. repeat split.
    + intros results. simpl. unfold bind at 1. rewrite Hrun, Hloop.
      rewrite <- app_assoc. reflexivity.
    + simpl. rewrite Hlen. reflexivity.
    + rewrite Ht2, Ht1, app_assoc. reflexivity.
    + rewrite EffectFacts.count_create_app. simpl. lia.
    + rewrite EffectFacts.count_llm_app. simpl. lia.
    + change (entry :: entries) with ([entry] ++ entries)%list.
      rewrite count_succeeded_app, EffectFacts.count_llm_app. lia.
Qed.

Lemma for_documents_app (a b : list pyval) (s : world * list pyval) :
  for_documents env (a ++ b) s
  = match for_documents env a s with
    | (Ok _, s') => for_documents env b s'
    | (Err e, s') => (Err e, s')
    end.
Proof.
  revert s. induction a as [|doc a IH]; intros s; [reflexivity|].
  simpl. unfold bind at 1 2.
  destruct (process_document env doc s) as [[[]|e] s']; [apply IH|reflexivity].
Qed.

End WithEnv.
End BatchRuns.

(** X15: a batch of [n] documents, all JSON objects, stages at most [n]
    temporary files and calls the model at most [n] times, one call at most
    per document and never a retry; there are no more success records than
    model calls. *)
Theorem batch_calls_model_at_most_once_per_document
    (env : Env) (data : gmap string pyval) (documents : list pyval) (w : world) :
  data !! "documents" = Some (PList documents) ->
  documents <> [] ->
  Forall (fun doc => is_dict doc = true) documents ->
  exists results t evs w',
    App.batch_analyze env (Ok (PDict data)) w
    = (Ok (Response
             (JSON (App.dict [("success", PBool true);
                              ("totalDocuments", PInt (Z.of_nat (length documents)));
                              ("results", PList results);
                              ("processedAt", PStr (isoformat t))]))
             200), w')
    /\ trace w' = (trace w ++ evs)%list
    /\ count_create evs <= length documents
    /\ count_llm evs <= length documents
    /\ count_succeeded results <= count_llm evs.
Proof.
  intros Hdocs Hne Hall.
  destruct (BatchRuns.for_documents_run env documents Hall w)
    as (entries & w1 & evs & Hloop & Hlen & Htr & Hc & Hl & Hs).
  exists entries, (datetime_now env (clock w1)), evs,
    (World (fs w1) (S (clock w1)) (trace w1) (logged w1)).
  split; [|repeat split; assumption].
  unfold App.batch_analyze.
  cbv [bind ret raise lift try_except App.now_isoformat tick dict_get].
  rewrite Hdocs.
  assert (Ht : truthy (PList documents) = true) by (destruct documents; [contradiction|reflexivity]).
  rewrite Ht. cbv [negb iterate App.with_results]. rewrite (Hloop []). reflexivity.
Qed.

(** X16: one entry of [documents] that is not a JSON object fails the whole
    batch: the answer is 500 with the [AttributeError] of [doc.get], the
    records of the documents before it are dropped although their work was
    done, and the documents after it are never looked at. *)
Theorem non_object_entry_fails_the_whole_batch
    (env : Env) (data : gmap string pyval) (before after : list pyval) (doc : pyval)
    (w : world) :
  data !! "documents" = Some (PList (before ++ doc :: after)) ->
  Forall (fun d => is_dict d = true) before ->
  is_dict doc = false ->
  exists entries w1,
    App.for_documents env before (w, []) = (Ok tt, (w1, entries))
    /\ length entries = length before
    /\ App.batch_analyze env (Ok (PDict data)) w
       = (Ok (internal_server_error
                (AttributeError ("'" +:+ type_name doc +:+ "' object has no attribute 'get'"))),
          with_log "Error in batch_analyze: "
            (AttributeError ("'" +:+ type_name doc +:+ "' object has no attribute 'get'")) w1).
Proof.
  intros Hdocs Hall Hdoc.
  destruct (BatchRuns.for_documents_run env before Hall w)
    as (entries & w1 & evs & Hloop & Hlen & _).
  exists entries, w1. split; [exact (Hloop [])|]. split; [exact Hlen|].
  unfold App.batch_analyze.
  cbv [bind ret raise lift try_except App.now_isoformat tick dict_get logger_error].
  rewrite Hdocs.
  assert (Ht : truthy (PList (before ++ doc :: after)) = true)
    by (destruct before; reflexivity).
  rewrite Ht. cbv [negb iterate App.with_results].
  rewrite BatchRuns.for_documents_app, (Hloop []). simpl app.
  change (App.for_documents env (doc :: after) (w1, entries))
    with (bind (App.process_document env doc) (fun _ => App.for_documents env after)
            (w1, entries)).
  unfold bind. rewrite (BatchCleanup.process_document_not_dict env doc w1 entries Hdoc).
  reflexivity.
Qed.

Module BatchOutcome.
Import RegulatoryAnalyzer App.

Section WithEnv.
Context (env : Env).

(** Whatever the request, the batch handler returns an answer and never
    raises: 200 with [success: true], or 400 or 500 with [success: false]
    and a message. *)
Lemma batch_analyze_outcome (req : result pyval) (w : world) :
  exists resp w',
    batch_analyze env req w = (Ok resp, w')
    /\ (success_response resp \/ failure_response 400 resp \/ failure_response 500 resp).
Proof.
  unfold batch_analyze. cbv [bind ret raise lift try_except now_isoformat tick logger_error].
  destruct req as [data|e].
  2:{ eexists _, _. split; [reflexivity|]. right. right. eexists. reflexivity. }
  destruct (dict_get data "documents" (PList [])) as [documents|e].
  2:{ eexists _, _. split; [reflexivity|]. right. right. eexists. reflexivity. }
  destruct (truthy documents).
  2:{ eexists _, _. split; [reflexivity|]. right. left. eexists. reflexivity. }
  cbv [negb]. destruct (iterate documents) as [items|e].
  2:{ eexists _, _. split; [reflexivity|]. right. right. eexists. reflexivity. }
  unfold with_results.
  destruct (for_documents env items (w, [])) as [[[]|e] [w1 results]].
  - destruct (len documents) as [total|e].
    + eexists _, _. split; [reflexivity|]. left. split; [reflexivity|].
      eexists. split; [reflexivity|]. vm_compute. reflexivity.
    + eexists _, _. split; [reflexivity|]. right. right. eexists. reflexivity.
  - eexists _, _. split; [reflexivity|]. right. right. eexists. reflexivity.
Qed.

End WithEnv.
End BatchOutcome.

(** X17: [documents] has to be a non-empty list. When it is missing or
    falsy (an empty list, [null], [""], [0], an empty object) the answer is
    400 "No documents provided"; when the body is not an object, or
    [documents] is truthy but not a list, the answer is 500; in all these
    cases nothing is staged and the model is not called. *)
Theorem batch_documents_must_be_a_list (env : Env) (w : world) :
  (forall data,
      truthy (match data !! "documents" with Some d => d | None => PList [] end) = false ->
      App.batch_analyze env (Ok (PDict data)) w
      = (Ok (App.error_response "No documents provided" 400), w))
  /\ (forall body,
      is_dict body = false ->
      App.batch_analyze env (Ok body) w
      = (Ok (internal_server_error
               (AttributeError ("'" +:+ type_name body +:+ "' object has no attribute 'get'"))),
         with_log "Error in batch_analyze: "
           (AttributeError ("'" +:+ type_name body +:+ "' object has no attribute 'get'")) w))
  /\ (forall data documents,
      data !! "documents" = Some documents ->
      truthy documents = true ->
      (forall l, documents <> PList l) ->
      exists e,
        App.batch_analyze env (Ok (PDict data)) w
        = (Ok (internal_server_error e), with_log "Error in batch_analyze: " e w)).
Proof.
  split; [|split].
  - intros data Hf. unfold App.batch_analyze.
    cbv [bind ret raise lift try_except dict_get]. rewrite Hf. reflexivity.
  - intros body Hd. destruct body; try discriminate; reflexivity.
  - intros data documents Hdocs Ht Hnl. unfold App.batch_analyze.
    cbv [bind ret raise lift try_except dict_get App.now_isoformat tick logger_error].
    rewrite Hdocs, Ht. cbv [negb].
    destruct documents as [|b|z|f|s|l|m]; try discriminate.
    + eexists. reflexivity.
    + eexists. reflexivity.
    + eexists. reflexivity.
    + destruct s as [|c s]; [discriminate|]. eexists. reflexivity.
    + exfalso. exact (Hnl l eq_refl).
    + cbv [iterate]. destruct (map_to_list m) as [|[k v] rest] eqn:Hm.
      * apply map_to_list_empty_iff in Hm. subst m. discriminate.
      * eexists. reflexivity.
Qed.

(** ** Further properties: routing, liveness, configuration *)

(** X18: [POST /analyze] and [POST /batch-analyze] answer every request
    themselves: no exception reaches Flask's error handlers, and every
    answer is JSON with a [success] flag, status 200 when it is [true] and
    400 or 500 when it is [false]. *)
Theorem handlers_answer_every_request_themselves
    (env : Env) (r : request) (view : endpoint) (w : world) :
  url_match env App.url_map (method r) (path r) = Matched view ->
  view = Eanalyze_document \/ view = Ebatch_analyze ->
  method r = POST ->
  exists resp w' b flag,
    App.full_dispatch_request env r w = (Ok resp, w')
    /\ body resp = JSON (PDict b)
    /\ b !! "success" = Some (PBool flag)
    /\ (flag = true -> status resp = 200)
    /\ (flag = false -> status resp = 400 \/ status resp = 500).
Proof.
  intros Hroute Hview Hpost. unfold App.full_dispatch_request. rewrite Hroute, Hpost.
  assert (Hshape : forall resp,
            success_response resp \/ failure_response 400 resp \/ failure_response 500 resp ->
            exists b flag,
              body resp = JSON (PDict b)
              /\ b !! "success" = Some (PBool flag)
              /\ (flag = true -> status resp = 200)
              /\ (flag = false -> status resp = 400 \/ status resp = 500)).
  { intros resp [(Hst & b & Hb & Hs)|[(msg & ->)|(msg & ->)]].
    - exists b, true. repeat split; auto. discriminate.
    - eexists _, false. split; [reflexivity|]. split; [vm_compute; reflexivity|].
      split; [discriminate|]. intros _. left. reflexivity.
    - eexists _, false. split; [reflexivity|]. split; [vm_compute; reflexivity|].
      split; [discriminate|]. intros _. right. reflexivity. }
  destruct Hview as [-> | ->]; unfold App.dispatch_view, try_except.
  - destruct (OutcomeFacts.analyze_document_outcome env (get_json r) w)
      as (resp & w' & Hrun & Hs & _).
    rewrite Hrun. destruct (Hshape resp Hs) as (b & flag & H).
    exists resp, w', b, flag. split; [reflexivity|exact H].
  - destruct (BatchOutcome.batch_analyze_outcome env (get_json r) w)
      as (resp & w' & Hrun & Hs).
    rewrite Hrun. destruct (Hshape resp Hs) as (b & flag & H).
    exists resp, w', b, flag. split; [reflexivity|exact H].
Qed.

(** X19: [GET /health] checks nothing: whatever the body sent and whatever
    the state of the model client, it answers 200 with [status] "healthy",
    the service name, the version and the time in ISO-8601; it reads no
    file and calls no model. *)
Theorem health_check_has_no_dependencies (env : Env) (r : request) (w : world) :
  url_match env App.url_map (method r) (path r) = Matched Ehealth_check ->
  method r = GET ->
  exists t,
    App.full_dispatch_request env r w
    = (Ok (Response
             (JSON (App.dict [("status", PStr "healthy");
                              ("timestamp", PStr (isoformat t));
                              ("service", PStr "Regulatory Document Analyzer");
                              ("version", PStr "1.0.0")]))
             200),
       World (fs w) (S (clock w)) (trace w) (logged w))
    /\ is_iso8601 (isoformat t) = true.
Proof.
  intros Hroute Hget. unfold App.full_dispatch_request. rewrite Hroute, Hget.
  exists (datetime_now env (clock w)). split; [reflexivity|].
  apply PyFacts.isoformat_is_iso8601.
Qed.

(** X20: [/test] echoes what it is sent: a [GET] is answered without
    looking at the body; any other method is answered with the JSON body
    under [data]; and as the view has no [try], a body that is not JSON is
    answered by Flask, with the status of the HTTP exception raised (or the
    500 handler's body for any other exception), not with a [success]
    flag. *)
Theorem test_endpoint_echoes (env : Env) (r : request) (w : world) :
  url_match env App.url_map (method r) (path r) = Matched Etest_endpoint ->
  (method r = GET ->
     fst (App.full_dispatch_request env r w)
     = Ok (Response
             (JSON (App.dict [("message", PStr "Test endpoint is working");
                              ("method", PStr "GET");
                              ("timestamp", PStr (isoformat (datetime_now env (clock w))))]))
             200))
  /\ (forall v, method r = POST -> get_json r = Ok v ->
     fst (App.full_dispatch_request env r w)
     = Ok (Response
             (JSON (App.dict [("message", PStr "Test endpoint received POST data");
                              ("data", v);
                              ("timestamp", PStr (isoformat (datetime_now env (clock w))))]))
             200))
  /\ (forall e, method r = POST -> get_json r = Err e ->
     App.full_dispatch_request env r w = (Ok (App.handle_exception e), w))
  /\ (forall cls msg,
      App.handle_exception (Exn cls msg (Some 400)) = Response WerkzeugDefault 400
      /\ App.handle_exception (Exn cls msg (Some 415)) = Response WerkzeugDefault 415
      /\ App.handle_exception (Exn cls msg None) = App.internal_error).
Proof.
  intros Hroute. unfold App.full_dispatch_request, App.dispatch_view, App.test_endpoint.
  rewrite Hroute.
  split; [|split; [|split]].
  - intros Hm. rewrite Hm. reflexivity.
  - intros v Hm Hj. rewrite Hm.
    cbv [try_except bind ret lift App.now_isoformat tick]. rewrite Hj. reflexivity.
  - intros e Hm Hj. rewrite Hm.
    cbv [try_except bind ret lift App.now_isoformat tick]. rewrite Hj. reflexivity.
  - intros cls msg. repeat split; reflexivity.
Qed.

Module CaseFacts.

(** the characters that [lower] sends to a lower-case letter of "true" *)
Lemma lower_char_inv (c l : ascii) :
  In l ["t"; "r"; "u"; "e"]%char ->
  lower_char c = l ->
  c = l \/ c = ascii_of_nat (nat_of_ascii l - 32).
Proof.
  intros Hl H.
  destruct c as [[] [] [] [] [] [] [] []];
    vm_compute in H; subst l;
    first [ left; reflexivity
          | right; vm_compute; reflexivity
          | exfalso; simpl in Hl; intuition discriminate ].
Qed.

End CaseFacts.

(** X21: debug mode is on only when [DEBUG] is the word "true", in any
    mix of upper and lower case; unset, or set to anything else ("1",
    "yes", "on", " true"), it is off. *)
Theorem debug_only_for_the_word_true :
  Main.debug None = false
  /\ forall v,
      Main.debug (Some v) = true
      <-> exists c1 c2 c3 c4,
            v = String c1 (String c2 (String c3 (String c4 EmptyString)))
            /\ (c1 = "t" \/ c1 = "T")%char /\ (c2 = "r" \/ c2 = "R")%char
            /\ (c3 = "u" \/ c3 = "U")%char /\ (c4 = "e" \/ c4 = "E")%char.
Proof.
  split; [reflexivity|]. intros v. unfold Main.debug. split.
  - intros H. apply String.eqb_eq in H.
    destruct v as [|c1 [|c2 [|c3 [|c4 [|c5 v]]]]]; try discriminate H.
    simpl in H. injection H as H1 H2 H3 H4.
    exists c1, c2, c3, c4. split; [reflexivity|].
    apply CaseFacts.lower_char_inv in H1, H2, H3, H4; simpl; auto.
  - intros (c1 & c2 & c3 & c4 & -> & [-> | ->] & [-> | ->] & [-> | ->] & [-> | ->]);
      reflexivity.
Qed.


(** X23: when the write to the temporary file fails, the single-document
    handler answers 500 and the batch loop keeps a failure record, both with
    the text of the exception, and the file that was created stays on disk:
    it was made with [delete=False], and the [try] block whose [finally]
    removes it is entered after the write. *)
Theorem failed_write_leaves_the_file_behind
    (env : Env) (m : gmap string pyval) (content : bytes) (name p : string) (e : exn)
    (w : world) :
  truthy (field m "fileContent") = true ->
  field m "fileName" = PStr name ->
  name <> "" ->
  b64decode env (field m "fileContent") = Ok content ->
  mkstemp_inner env (fs w) (rng_choices env (clock w)) (Path_suffix name) = Ok p ->
  write_error env p content = Some e ->
  fs w !! p = None
  /\ (exists w',
        App.analyze_document env (Ok (PDict m)) w = (Ok (internal_server_error e), w')
        /\ fs w' !! p <> None
        /\ trace w' = trace w)
  /\ (exists w',
        (forall results,
            App.process_document env (PDict m) (w, results)
            = (Ok tt, (w', (results ++ [failure_record m (exn_str e)])%list)))
        /\ fs w' !! p <> None
        /\ trace w' = trace w).
Proof.
  intros Hc Hname Hne Hb Hm Hw.
  assert (Ht : NamedTemporaryFile env (Path_suffix name) content w
               = (Err e, World (<[p := []]> (fs w)) (S (clock w)) (trace w) (logged w))).
  { unfold NamedTemporaryFile. run. rewrite Hm, Hw. reflexivity. }
  assert (Hn : truthy (field m "fileName") = true).
  { rewrite Hname. simpl. destruct (String.eqb_spec name ""); [contradiction|reflexivity]. }
  pose proof (AppFacts.truthy_field_dict m "fileContent" Hc) as Hd.
  split; [exact (FileFacts.mkstemp_inner_fresh env _ _ _ _ Hm)|]. split.
  - eexists. split; [|split].
    + unfold App.analyze_document. cbv [bind ret raise lift try_except]. rewrite Hd.
      cbv [negb dict_get]. fold (field m "fileContent"). fold (field m "fileName").
      rewrite Hc, Hn, Hb, Hname. cbv [orb Path]. rewrite Ht. reflexivity.
    + simpl. rewrite lookup_insert_eq. discriminate.
    + reflexivity.
  - unfold field in Hc, Hname, Hb.
    destruct (m !! "fileContent") as [fc|] eqn:Hfc; [|discriminate].
    destruct (m !! "fileName") as [fn|] eqn:Hfn; [|discriminate]. subst fn.
    eexists. split; [|split].
    + intros results.
      unfold App.process_document, failure_record, file_name_or_unknown. batch_monad.
      rewrite Hfc, Hb, Hfn. cbv [Path]. rewrite Ht. reflexivity.
    + simpl. rewrite lookup_insert_eq. discriminate.
    + reflexivity.
Qed.

(** ** The further properties on concrete requests *)

Import Mock MockDocs.

Lemma hello_run :
  App.analyze_document (mock_env sample_reply) (Ok (upload "aGVsbG8=" "notice.txt")) w0
  = (Ok (answer_of (App.analyze_document (mock_env sample_reply)
                      (Ok (upload "aGVsbG8=" "notice.txt")) w0)),
     world_of (App.analyze_document (mock_env sample_reply)
                 (Ok (upload "aGVsbG8=" "notice.txt")) w0)).
Proof. vm_compute. reflexivity. Defined.

Lemma hello_status :
  status (answer_of (App.analyze_document (mock_env sample_reply)
                       (Ok (upload "aGVsbG8=" "notice.txt")) w0)) = 200.
Proof. vm_compute. reflexivity. Defined.

Lemma bad_base64_run :
  App.analyze_document (mock_env sample_reply) (Ok (upload "abc" "notice.txt")) w0
  = (Ok (App.error_response ("Invalid base64 content: " +:+ "Incorrect padding") 400), w0).
Proof. vm_compute. reflexivity. Defined.

Lemma refused_run :
  App.analyze_document (mock_env "Sorry, I cannot help.")
    (Ok (upload "aGVsbG8=" "notice.txt")) w0
  = (Ok (answer_of (App.analyze_document (mock_env "Sorry, I cannot help.")
                      (Ok (upload "aGVsbG8=" "notice.txt")) w0)),
     world_of (App.analyze_document (mock_env "Sorry, I cannot help.")
                 (Ok (upload "aGVsbG8=" "notice.txt")) w0)).
Proof. vm_compute. reflexivity. Defined.

Lemma error_message_identifies_cause_witness :
  exists m e,
    Ok (upload "abc" "notice.txt") = Ok (PDict m)
    /\ b64decode (mock_env sample_reply) (field m "fileContent") = Err e
    /\ exn_str e = "Incorrect padding".
Proof.
  exact (proj1 (proj2 (proj2
           (error_message_identifies_cause (mock_env sample_reply)
              (Ok (upload "abc" "notice.txt")) w0 w0 _ bad_base64_run)))
           "Incorrect padding" eq_refl).
Defined.

Lemma single_request_calls_model_at_most_once_witness :
  exists evs,
    trace (world_of (App.analyze_document (mock_env sample_reply)
                       (Ok (upload "aGVsbG8=" "notice.txt")) w0))
    = (trace w0 ++ evs)%list
    /\ count_llm evs <= 1
    /\ count_create evs <= 1
    /\ (200 = 200 -> count_llm evs = 1).
Proof.
  destruct (single_request_calls_model_at_most_once (mock_env sample_reply)
              _ w0 _ _ hello_run) as (evs & Ht & Hl & Hc & H200 & _).
  exists evs. rewrite hello_status in H200. auto.
Defined.

Lemma server_errors_are_logged_witness :
  exists earlier detail,
    answer_of (App.analyze_document (mock_env "Sorry, I cannot help.")
                 (Ok (upload "aGVsbG8=" "notice.txt")) w0)
    = App.error_response ("Internal server error: " +:+ detail) 500
    /\ logged (world_of (App.analyze_document (mock_env "Sorry, I cannot help.")
                           (Ok (upload "aGVsbG8=" "notice.txt")) w0))
       = (logged w0 ++ earlier ++ ["Error in analyze_document: " +:+ detail])%list.
Proof.
  apply (proj1 (server_errors_are_logged (mock_env "Sorry, I cannot help.")
                  _ w0 _ _ refused_run)).
  vm_compute. reflexivity.
Defined.

Lemma ok_answer_reports_the_analysed_text_witness :
  exists m name content text analysis processed_at,
    Ok (upload "aGVsbG8=" "notice.txt") = Ok (PDict m)
    /\ m !! "fileName" = Some (PStr name)
    /\ b64decode (mock_env sample_reply) (field m "fileContent") = Ok content
    /\ extract (mock_env sample_reply) content name = Ok text
    /\ all_space text = false
    /\ answer_of (App.analyze_document (mock_env sample_reply)
                    (Ok (upload "aGVsbG8=" "notice.txt")) w0)
       = analysis_response (PStr name) (PDict analysis) processed_at text
    /\ analysis !! "document_length" = Some (PInt (Z.of_nat (String.length text))).
Proof.
  exact (ok_answer_reports_the_analysed_text (mock_env sample_reply)
           _ w0 _ _ hello_run hello_status).
Defined.


Lemma pdf_text_is_pages_in_order_witness :
  fst (RegulatoryAnalyzer._parse_pdf (docs_env [Ok "page one"; Ok "page two"] [])
         "/tmp/a.pdf" (stored "/tmp/a.pdf" []))
  = Ok (join_lines ["page one"; "page two"])
  /\ fst (RegulatoryAnalyzer._parse_pdf
            (docs_env [Ok "page one"; Err (Exn "KeyError" "'/Contents'" None); Ok "three"] [])
            "/tmp/a.pdf" (stored "/tmp/a.pdf" []))
     = Err (Exn "KeyError" "'/Contents'" None).
Proof.
  split.
  - apply (proj1 (pdf_text_is_pages_in_order (docs_env [Ok "page one"; Ok "page two"] [])
                    "/tmp/a.pdf" [] [Ok "page one"; Ok "page two"] (stored "/tmp/a.pdf" [])
                    eq_refl eq_refl) ["page one"; "page two"]).
    reflexivity.
  - apply (proj2 (pdf_text_is_pages_in_order
                    (docs_env [Ok "page one"; Err (Exn "KeyError" "'/Contents'" None);
                               Ok "three"] [])
                    "/tmp/a.pdf" [] _ (stored "/tmp/a.pdf" []) eq_refl eq_refl)
             ["page one"] (Exn "KeyError" "'/Contents'" None) [Ok "three"]).
    reflexivity.
Defined.

Lemma docx_text_is_paragraphs_in_order_witness :
  fst (RegulatoryAnalyzer._parse_docx (docs_env [] ["Dear Sir,"; ""; "Yours"])
         "/tmp/a.docx" (stored "/tmp/a.docx" []))
  = Ok (join_lines ["Dear Sir,"; ""; "Yours"])
  /\ (strip (join_lines ["Dear Sir,"; ""; "Yours"]) = ""
      <-> forallb all_space ["Dear Sir,"; ""; "Yours"] = true).
Proof.
  exact (docx_text_is_paragraphs_in_order (docs_env [] ["Dear Sir,"; ""; "Yours"])
           "/tmp/a.docx" [] _ (stored "/tmp/a.docx" []) eq_refl eq_refl).
Defined.

Lemma staged_blank :
  staged (mock_env sample_reply) (upload_fields "IAo=" "blank.txt") w0 "blank.txt"
    (list_byte_of_string " 
") (tmp ".txt")
    (World {[tmp ".txt" := list_byte_of_string " 
"]} 1 [EvCreate (tmp ".txt")] []).
Proof. repeat split; try discriminate; vm_compute; reflexivity. Defined.

Lemma blank_upload_is_rejected_unanalysed_witness :
  fst (App.analyze_document (mock_env sample_reply) (Ok (upload "IAo=" "blank.txt")) w0)
  = Ok (App.error_response "No text could be extracted from the document" 400)
  /\ trace (snd (App.analyze_document (mock_env sample_reply)
                   (Ok (upload "IAo=" "blank.txt")) w0))
     = (trace w0 ++ [EvCreate (tmp ".txt"); EvOpen (tmp ".txt"); EvUnlink (tmp ".txt")])%list.
Proof.
  apply (proj1 (blank_upload_is_rejected_unanalysed (mock_env sample_reply)
                  _ _ _ " 
" _ _ _ staged_blank eq_refl)).
  reflexivity.
Defined.

Lemma staged_sheet :
  staged (mock_env sample_reply) (upload_fields "aGVsbG8=" "sheet.xlsx") w0 "sheet.xlsx"
    (list_byte_of_string "hello") (tmp ".xlsx")
    (World {[tmp ".xlsx" := list_byte_of_string "hello"]} 1 [EvCreate (tmp ".xlsx")] []).
Proof. repeat split; try discriminate; vm_compute; reflexivity. Defined.


Lemma only_the_last_extension_counts_witness :
  Path_suffix ("report.v2" +:+ "." +:+ "PDF") = "." +:+ "PDF"
  /\ extract (mock_env "{}") [] ("report.v2" +:+ "." +:+ "PDF")
     = extract (mock_env "{}") [] ("x." +:+ "PDF")
  /\ Path_suffix ("." +:+ "PDF") = ""
  /\ extract (mock_env "{}") [] ("." +:+ "PDF") = Err (ValueError "Unsupported file type: ").
Proof.
  apply (only_the_last_extension_counts (mock_env "{}") [] "report.v2" "PDF");
    try discriminate; reflexivity.
Defined.

Lemma upload_name_cannot_place_the_file_witness :
  exists draws,
    tmp ".txt"
    = gettempdir (mock_env "{}") +:+ "/" +:+ "tmp" +:+ random_name draws
      +:+ Path_suffix "../../etc/passwd.txt"
    /\ no_char "/" ("tmp" +:+ random_name draws +:+ Path_suffix "../../etc/passwd.txt") = true
    /\ fs w0 !! tmp ".txt" = None
    /\ fs (World {[tmp ".txt" := []]} 1 [EvCreate (tmp ".txt")] []) !! tmp ".txt" = Some []
    /\ forall q, q <> tmp ".txt" ->
         fs (World {[tmp ".txt" := []]} 1 [EvCreate (tmp ".txt")] []) !! q = fs w0 !! q.
Proof.
  apply (upload_name_cannot_place_the_file (mock_env "{}") "../../etc/passwd.txt" [] w0).
  vm_compute. reflexivity.
Defined.

Lemma prompt_length_is_bounded_witness :
  RegulatoryAnalyzer.analysis_prompt "hello"
  = RegulatoryAnalyzer.prompt_head +:+ "hello" +:+ RegulatoryAnalyzer.prompt_tail.
Proof.
  apply (proj2 (proj2 (prompt_length_is_bounded "hello"))).
  apply Nat.leb_le. vm_compute. reflexivity.
Defined.

Lemma non_object_reply_is_a_type_error_witness :
  exists msg,
    RegulatoryAnalyzer.analyze_document (mock_env "[]") "hello" w0
    = (Err (TypeError msg),
       World (fs w0) (S (S (clock w0)))
             (trace w0 ++ [EvLLM (RegulatoryAnalyzer.analysis_prompt "hello")])%list
             (logged w0 ++ ["Error in document analysis: " +:+ msg])%list).
Proof.
  apply (non_object_reply_is_a_type_error (mock_env "[]") "hello" "[]" (PList []) w0);
    reflexivity.
Defined.

Lemma reply_cannot_forge_metadata_witness :
  exists r,
    fst (RegulatoryAnalyzer.analyze_document (mock_env sample_reply) "hello" w0) = Ok (PDict r)
    /\ r !! "document_length" = Some (PInt (Z.of_nat (String.length "hello")))
    /\ r !! "analysis_timestamp"
       = Some (PStr (isoformat (datetime_now (mock_env sample_reply) (S (clock w0)))))
    /\ dom r = dom sample_object ∪ metadata_keys
    /\ (forall k, k ∉ metadata_keys -> r !! k = sample_object !! k).
Proof.
  apply (reply_cannot_forge_metadata (mock_env sample_reply) "hello" sample_reply
           sample_object w0).
  - reflexivity.
  - vm_compute. reflexivity.
Defined.

Lemma batch_calls_model_at_most_once_per_document_witness :
  exists results t evs w',
    App.batch_analyze (mock_env sample_reply)
      (Ok (PDict (batch_fields [upload "aGVsbG8=" "a.txt"; upload "aGVsbG8=" "b.pdf";
                                upload "aGVsbG8=" "c.txt"]))) w0
    = (Ok (Response
             (JSON (App.dict [("success", PBool true);
                              ("totalDocuments", PInt 3);
                              ("results", PList results);
                              ("processedAt", PStr (isoformat t))]))
             200), w')
    /\ trace w' = (trace w0 ++ evs)%list
    /\ count_create evs <= 3
    /\ count_llm evs <= 3
    /\ count_succeeded results <= count_llm evs.
Proof.
  apply (batch_calls_model_at_most_once_per_document (mock_env sample_reply)
           (batch_fields [upload "aGVsbG8=" "a.txt"; upload "aGVsbG8=" "b.pdf";
                          upload "aGVsbG8=" "c.txt"])
           [upload "aGVsbG8=" "a.txt"; upload "aGVsbG8=" "b.pdf"; upload "aGVsbG8=" "c.txt"]
           w0).
  - vm_compute. reflexivity.
  - discriminate.
  - repeat constructor.
Defined.

Lemma non_object_entry_fails_the_whole_batch_witness :
  exists entries w1,
    App.for_documents (mock_env sample_reply) [upload "aGVsbG8=" "a.txt"] (w0, [])
    = (Ok tt, (w1, entries))
    /\ length entries = 1
    /\ App.batch_analyze (mock_env sample_reply)
         (Ok (PDict (batch_fields [upload "aGVsbG8=" "a.txt"; PStr "b.txt";
                                   upload "aGVsbG8=" "c.txt"]))) w0
       = (Ok (internal_server_error
                (AttributeError "'str' object has no attribute 'get'")),
          with_log "Error in batch_analyze: "
            (AttributeError "'str' object has no attribute 'get'") w1).
Proof.
  apply (non_object_entry_fails_the_whole_batch (mock_env sample_reply)
           (batch_fields [upload "aGVsbG8=" "a.txt"; PStr "b.txt"; upload "aGVsbG8=" "c.txt"])
           [upload "aGVsbG8=" "a.txt"] [upload "aGVsbG8=" "c.txt"] (PStr "b.txt") w0).
  - vm_compute. reflexivity.
  - repeat constructor.
  - reflexivity.
Defined.

Lemma batch_documents_must_be_a_list_witness :
  App.batch_analyze (mock_env sample_reply) (Ok (PDict ∅)) w0
  = (Ok (App.error_response "No documents provided" 400), w0)
  /\ (exists e,
        App.batch_analyze (mock_env sample_reply)
          (Ok (PDict {["documents" := upload "aGVsbG8=" "a.txt"]})) w0
        = (Ok (internal_server_error e), with_log "Error in batch_analyze: " e w0)).
Proof.
  destruct (batch_documents_must_be_a_list (mock_env sample_reply) w0) as (Hempty & _ & Hshape).
  split.
  - apply Hempty. reflexivity.
  - apply (Hshape _ (upload "aGVsbG8=" "a.txt")).
    + vm_compute. reflexivity.
    + vm_compute. reflexivity.
    + discriminate.
Defined.

Lemma handlers_answer_every_request_themselves_witness :
  exists resp w' b flag,
    App.full_dispatch_request (mock_env sample_reply)
      (Request POST "/analyze" (Err (Exn "BadRequest" "400 Bad Request" (Some 400)))) w0
    = (Ok resp, w')
    /\ body resp = JSON (PDict b)
    /\ b !! "success" = Some (PBool flag)
    /\ (flag = true -> status resp = 200)
    /\ (flag = false -> status resp = 400 \/ status resp = 500).
Proof.
  apply (handlers_answer_every_request_themselves (mock_env sample_reply)
           (Request POST "/analyze" (Err (Exn "BadRequest" "400 Bad Request" (Some 400))))
           Eanalyze_document w0).
  - vm_compute. reflexivity.
  - left. reflexivity.
  - reflexivity.
Defined.

Lemma health_check_has_no_dependencies_witness :
  exists t,
    App.full_dispatch_request (failing_env (Exn "AuthenticationError" "invalid x-api-key" None))
      (Request GET "/health" (Err (Exn "UnsupportedMediaType" "415" (Some 415)))) w0
    = (Ok (Response
             (JSON (App.dict [("status", PStr "healthy");
                              ("timestamp", PStr (isoformat t));
                              ("service", PStr "Regulatory Document Analyzer");
                              ("version", PStr "1.0.0")]))
             200),
       World (fs w0) (S (clock w0)) (trace w0) (logged w0))
    /\ is_iso8601 (isoformat t) = true.
Proof.
  apply (health_check_has_no_dependencies
           (failing_env (Exn "AuthenticationError" "invalid x-api-key" None))
           (Request GET "/health" (Err (Exn "UnsupportedMediaType" "415" (Some 415)))) w0).
  - vm_compute. reflexivity.
  - reflexivity.
Defined.

Lemma test_endpoint_echoes_witness :
  fst (App.full_dispatch_request (mock_env "{}")
         (Request POST "/test" (Ok (PDict {["ping" := PInt 1]}))) w0)
  = Ok (Response
          (JSON (App.dict [("message", PStr "Test endpoint received POST data");
                           ("data", PDict {["ping" := PInt 1]});
                           ("timestamp",
                            PStr (isoformat (datetime_now (mock_env "{}") (clock w0))))]))
          200)
  /\ App.full_dispatch_request (mock_env "{}")
       (Request POST "/test" (Err (Exn "UnsupportedMediaType" "415" (Some 415)))) w0
     = (Ok (Response WerkzeugDefault 415), w0).
Proof.
  assert (Hroute : forall j,
            url_match (mock_env "{}") App.url_map (method (Request POST "/test" j))
              (path (Request POST "/test" j)) = Matched Etest_endpoint)
    by (intros j; vm_compute; reflexivity).
  split.
  - apply (proj1 (proj2 (test_endpoint_echoes (mock_env "{}")
                           (Request POST "/test" (Ok (PDict {["ping" := PInt 1]}))) w0
                           (Hroute _)))); reflexivity.
  - exact (proj1 (proj2 (proj2
             (test_endpoint_echoes (mock_env "{}")
                (Request POST "/test" (Err (Exn "UnsupportedMediaType" "415" (Some 415)))) w0
                (Hroute _))))
             (Exn "UnsupportedMediaType" "415" (Some 415)) eq_refl eq_refl).
Defined.

Lemma debug_only_for_the_word_true_witness :
  Main.debug (Some "TrUe") = true /\ Main.debug (Some "1") = false.
Proof.
  split.
  - apply (proj2 debug_only_for_the_word_true "TrUe").
    exists "T"%char, "r"%char, "U"%char, "e"%char. repeat split; auto.
  - reflexivity.
Defined.


(** the disk is full: the file made for the upload is left, empty *)
Lemma failed_write_leaves_the_file_behind_witness :
  fs w0 !! tmp ".txt" = None
  /\ (exists w',
        App.analyze_document (full_disk_env sample_reply)
          (Ok (upload "aGVsbG8=" "notice.txt")) w0
        = (Ok (internal_server_error (Exn "OSError" "[Errno 28] No space left on device" None)),
           w')
        /\ fs w' !! tmp ".txt" <> None
        /\ trace w' = trace w0)
  /\ (exists w',
        (forall results,
            App.process_document (full_disk_env sample_reply)
              (upload "aGVsbG8=" "notice.txt") (w0, results)
            = (Ok tt, (w', (results ++ [failure_record (upload_fields "aGVsbG8=" "notice.txt")
                                          "[Errno 28] No space left on device"])%list)))
        /\ fs w' !! tmp ".txt" <> None
        /\ trace w' = trace w0).
Proof.
  apply (failed_write_leaves_the_file_behind (full_disk_env sample_reply)
           (upload_fields "aGVsbG8=" "notice.txt") (list_byte_of_string "hello")
           "notice.txt" (tmp ".txt")
           (Exn "OSError" "[Errno 28] No space left on device" None) w0).
  - reflexivity.
  - vm_compute. reflexivity.
  - discriminate.
  - reflexivity.
  - vm_compute. reflexivity.
  - reflexivity.
Defined.
